(** * explorer-backend: the smesher storage, the search resolver and the
      live-sync supervisor, embedded from the Go sources

    - [storage/smesher.go]            : [InitSmeshersStorage], [GetSmeshersCount],
                                        [SaveSmesher], [UpdateSmesher]
    - [api/httpserver/rest/search.go] : [SearchHandler]
    - the collector's [main]          : the restart loop around [c.Run()]

    The MongoDB driver calls the code makes ([InsertOne], [UpdateOne],
    [CountDocuments], [Find], [Indexes().CreateOne]) are given a small
    executable semantics over a database of BSON documents, with an
    explicit schedule of transient failures. *)

From Stdlib Require Import ZArith NArith String Ascii List Lia Bool DecimalString.
From stdpp Require Import gmap strings list fin_maps.
From ITree Require Import ITree ITreeFacts.

Local Open Scope string_scope.
Local Open Scope Z_scope.

(* ===================================================================== *)
(** ** BSON documents *)
(* ===================================================================== *)

(** The values the code stores.  Integers are kept by numeric value (the
    BSON width is not modelled), a double by its 64-bit pattern, an
    ObjectID by the number its twelve bytes spell.  The driver refuses to
    encode an unsigned integer of 2^63 or more; that error is not
    modelled, and a statement that concludes that a write succeeds takes
    the integers it writes below 2^63. *)
Inductive Value : Type :=
| VString (s : string)
| VInt (n : Z)
| VDouble (bits : Z)
| VObjectID (oid : N).

#[global] Instance Value_eq_dec : EqDecision Value.
Proof. solve_decision. Defined.

(** [bson.D]: an ordered list of key/value pairs. *)
Definition Doc : Type := list (string * Value).

Fixpoint Lookup (key : string) (d : Doc) : option Value :=
  match d with
  | [] => None
  | (k, v) :: d' => if bool_decide (k = key) then Some v else Lookup key d'
  end.

(** A filter document matches when every pair of it is a field of the
    document with an equal value. *)
Definition matches (query : Doc) (d : Doc) : bool :=
  forallb (fun kv => bool_decide (Lookup (fst kv) d = Some (snd kv))) query.

(** [$set]: an existing field is overwritten in place, a new one is
    appended. *)
Fixpoint set_field (key : string) (v : Value) (d : Doc) : Doc :=
  match d with
  | [] => [(key, v)]
  | (k, v0) :: d' =>
      if bool_decide (k = key) then (k, v) :: d' else (k, v0) :: set_field key v d'
  end.

Definition apply_set (fields : Doc) (d : Doc) : Doc :=
  fold_left (fun acc kv => set_field (fst kv) (snd kv) acc) fields d.

(* ===================================================================== *)
(** ** The database and the driver *)
(* ===================================================================== *)

Record IndexModel : Type := mkIndex
  { ixName : string; ixKey : string; ixUnique : bool }.

#[global] Instance IndexModel_eq_dec : EqDecision IndexModel.
Proof. solve_decision. Defined.

Record Database : Type := mkDatabase
  { collections : gmap string (list Doc);
    indexes : gmap string (list IndexModel) }.

(** A collection that was never written to is empty. *)
Definition Collection (d : Database) (name : string) : list Doc :=
  default [] (collections d !! name).

Definition IndexesOf (d : Database) (name : string) : list IndexModel :=
  default [] (indexes d !! name).

Definition set_collection (name : string) (docs : list Doc) (d : Database) : Database :=
  {| collections := <[name := docs]> (collections d); indexes := indexes d |}.

Definition set_indexes (name : string) (ixs : list IndexModel) (d : Database) : Database :=
  {| collections := collections d; indexes := <[name := ixs]> (indexes d) |}.

(** Go errors. [ErrWrap msg e] is [fmt.Errorf("msg: %w", e)]. *)
Inductive error : Type :=
| ErrDeadline
| ErrDuplicateKey (coll index : string)
| ErrIndexConflict (coll index : string)
| ErrNew (msg : string)
| ErrWrap (msg : string) (inner : error).

(** The driver calls a run issues, in order. *)
Inductive DbOp : Type :=
| OpCreateIndex (coll : string)
| OpInsertOne (coll : string)
| OpUpdateOne (coll : string)
| OpCountDocuments (coll : string)
| OpFind (coll : string).

Definition is_read (op : DbOp) : bool :=
  match op with
  | OpCountDocuments _ | OpFind _ => true
  | _ => false
  end.

Inductive LogLine : Type :=
| Info (format : string) (args : list error).

Record NetworkInfo_t : Type := mkNetworkInfo { EpochNumLayers : Z }.

(** [Storage] is the receiver [s *Storage]: the database handle and the
    network constants, together with what a run needs beside them: the
    schedule of transient failures (one flag per driver call, [true] for a
    call that fails without having been applied; an exhausted schedule
    means no further failure), the driver calls issued so far, the log
    and the counter ObjectIDs are generated from. *)
Record Storage : Type := mkStorage
  { db : Database;
    NetworkInfo : NetworkInfo_t;
    faults : list bool;
    trace : list DbOp;
    logs : list LogLine;
    next_oid : N }.

(** State passing: every method of [Storage] is a function of the state. *)
Definition M (A : Type) : Type := Storage -> A * Storage.

Definition ret {A} (a : A) : M A := fun s => (a, s).

Definition bind {A B} (m : M A) (k : A -> M B) : M B :=
  fun s => let (a, s') := m s in k a s'.

Declare Scope store_scope.
Delimit Scope store_scope with store.
Notation "'do' x <- m ; k" := (bind m (fun x => k))
  (at level 10, x name, m at level 100, k at level 200,
   format "'[v' 'do'  x  <-  m ; '/' k ']'") : store_scope.
Notation "'exec' m ; k" := (bind m (fun _ => k))
  (at level 10, m at level 100, k at level 200,
   format "'[v' 'exec'  m ; '/' k ']'") : store_scope.
Local Open Scope store_scope.

Definition with_db (f : Database -> Database) : M unit :=
  fun s => (tt, {| db := f (db s); NetworkInfo := NetworkInfo s; faults := faults s;
                   trace := trace s; logs := logs s; next_oid := next_oid s |}).

Definition read_db : M Database := fun s => (db s, s).

(** Issue a driver call: it is recorded, and the next flag of the
    schedule says whether it fails. *)
Definition issue (op : DbOp) : M bool :=
  fun s => (hd false (faults s),
            {| db := db s; NetworkInfo := NetworkInfo s; faults := tl (faults s);
               trace := trace s ++ [op]; logs := logs s; next_oid := next_oid s |}).

Definition log_Info (format : string) (args : list error) : M unit :=
  fun s => (tt, {| db := db s; NetworkInfo := NetworkInfo s; faults := faults s;
                   trace := trace s; logs := logs s ++ [Info format args];
                   next_oid := next_oid s |}).

Definition fresh_oid : M N :=
  fun s => (next_oid s,
            {| db := db s; NetworkInfo := NetworkInfo s; faults := faults s;
               trace := trace s; logs := logs s; next_oid := N.succ (next_oid s) |}).

(** The driver gives a document without [_id] a generated one, in front. *)
Definition ensureID (doc : Doc) : M Doc :=
  match Lookup "_id" doc with
  | Some _ => ret doc
  | None => do oid <- fresh_oid; ret (("_id", VObjectID oid) :: doc)
  end.

(** Every collection has the unique index on [_id]; the others are the
    ones created on it. *)
Definition id_index : IndexModel := mkIndex "_id_" "_id" true.

Definition unique_indexes (d : Database) (coll : string) : list IndexModel :=
  List.filter ixUnique (id_index :: IndexesOf d coll).

(** The first unique index a new document would violate among [docs]. *)
Definition violated (ixs : list IndexModel) (docs : list Doc) (doc : Doc) : option IndexModel :=
  List.find (fun ix =>
          existsb (fun d => bool_decide (Lookup (ixKey ix) d = Lookup (ixKey ix) doc)) docs)
       ixs.

Definition InsertOne (coll : string) (doc : Doc) : M (option error) :=
  do doc1 <- ensureID doc;
  do failed <- issue (OpInsertOne coll);
  if failed : bool then ret (Some ErrDeadline)
  else
    do d <- read_db;
    match violated (unique_indexes d coll) (Collection d coll) doc1 with
    | Some ix => ret (Some (ErrDuplicateKey coll (ixName ix)))
    | None => exec with_db (set_collection coll (Collection d coll ++ [doc1])); ret None
    end.

Definition CountDocuments (coll : string) (query : Doc) : M (Z * option error) :=
  do failed <- issue (OpCountDocuments coll);
  if failed : bool then ret (0, Some ErrDeadline)
  else
    do d <- read_db;
    ret (Z.of_nat (length (List.filter (matches query) (Collection d coll))), None).

(** The cursor of a [Find]: the matching documents in natural order. *)
Definition Find (coll : string) (query : Doc) : M (list Doc * option error) :=
  do failed <- issue (OpFind coll);
  if failed : bool then ret ([], Some ErrDeadline)
  else
    do d <- read_db;
    ret (List.filter (matches query) (Collection d coll), None).

(** Split a collection at the first document the filter matches. *)
Fixpoint split_first (query : Doc) (docs : list Doc) : option (list Doc * Doc * list Doc) :=
  match docs with
  | [] => None
  | d :: rest =>
      if matches query d then Some ([], d, rest)
      else match split_first query rest with
           | Some (pre, x, post) => Some (d :: pre, x, post)
           | None => None
           end
  end.

(** [UpdateOne] with a [$set] document and no upsert option: the first
    match is rewritten; no match is not an error. *)
Definition UpdateOne (coll : string) (filter_ : Doc) (set_ : Doc) : M (option error) :=
  do failed <- issue (OpUpdateOne coll);
  if failed : bool then ret (Some ErrDeadline)
  else
    do d <- read_db;
    match split_first filter_ (Collection d coll) with
    | None => ret None
    | Some (pre, x, post) =>
        let x' := apply_set set_ x in
        match violated (unique_indexes d coll) (pre ++ post) x' with
        | Some ix => ret (Some (ErrDuplicateKey coll (ixName ix)))
        | None => exec with_db (set_collection coll (pre ++ x' :: post)); ret None
        end
    end.

(** Do the documents of a collection agree with a unique index? *)
Fixpoint distinct_on (key : string) (docs : list Doc) : bool :=
  match docs with
  | [] => true
  | d :: rest =>
      negb (existsb (fun d' => bool_decide (Lookup key d' = Lookup key d)) rest)
      && distinct_on key rest
  end.

(** [Indexes().CreateOne]: creating an index that already exists under the
    same name and keys is accepted; a unique index is refused on a
    collection that already holds duplicates. *)
Definition CreateOne (coll : string) (ix : IndexModel) : M (string * option error) :=
  do failed <- issue (OpCreateIndex coll);
  if failed : bool then ret (EmptyString, Some ErrDeadline)
  else
    do d <- read_db;
    match List.find (fun ix' => bool_decide (ixName ix' = ixName ix)) (IndexesOf d coll) with
    | Some ix' =>
        if bool_decide (ix' = ix) then ret (ixName ix, None)
        else ret (EmptyString, Some (ErrIndexConflict coll (ixName ix)))
    | None =>
        if ixUnique ix && negb (distinct_on (ixKey ix) (Collection d coll))
        then ret (EmptyString, Some (ErrDuplicateKey coll (ixName ix)))
        else exec with_db (set_indexes coll (IndexesOf d coll ++ [ix])); ret (ixName ix, None)
    end.

(* ===================================================================== *)
(** ** storage/smesher.go *)
(* ===================================================================== *)

(** [model.Smesher]. [Lon] and [Lat] are float64 values, carried as
    their bit patterns. *)
Record Smesher : Type := mkSmesher
  { Id : string;
    Name : string;
    Lon : Z;
    Lat : Z;
    CommitmentSize : Z;
    Coinbase : string;
    AtxCount : Z;
    Timestamp : Z }.

Definition InitSmeshersStorage : M (option error) :=
  do r <- CreateOne "smeshers" (mkIndex "idIndex" "id" true);
  match snd r with
  | Some err => ret (Some (ErrWrap "error init `smeshers` collection" err))
  | None =>
      do r <- CreateOne "coinbases" (mkIndex "addressIndex" "address" true);
      match snd r with
      | Some err => ret (Some (ErrWrap "error init `coinbases` collection" err))
      | None => ret None
      end
  end.

Definition GetSmeshersCount (query : Doc) : M Z :=
  do r <- CountDocuments "smeshers" query;
  match snd r with
  | Some err => exec log_Info "GetSmeshersCount: %v" [err]; ret 0
  | None => ret (fst r)
  end.

Definition IsSmesherExists (smesher : string) : M bool :=
  do r <- CountDocuments "smeshers" [("id", VString smesher)];
  match snd r with
  | Some err => exec log_Info "IsSmesherExists: %v" [err]; ret false
  | None => ret (fst r >? 0)
  end.

Definition smesher_doc (i : Smesher) : Doc :=
  [ ("id", VString (Id i));
    ("name", VString (Name i));
    ("lon", VDouble (Lon i));
    ("lat", VDouble (Lat i));
    ("cSize", VInt (CommitmentSize i));
    ("coinbase", VString (Coinbase i));
    ("atxcount", VInt (AtxCount i));
    ("timestamp", VInt (Timestamp i)) ].

Definition SaveSmesher (i : Smesher) : M (option error) :=
  do err <- InsertOne "smeshers" (smesher_doc i);
  match err with
  | Some e => ret (Some (ErrWrap "error save smesher" e))
  | None => ret None
  end.

Definition UpdateSmesher (smesher coinbase : string) (space timestamp : Z) : M (option error) :=
  do err <- InsertOne "coinbases" [("address", VString coinbase); ("smesher", VString smesher)];
  match err with
  | Some e => ret (Some (ErrWrap "error insert smesher into `coinbases`" e))
  | None =>
      do r <- CountDocuments "activations" [("smesher", VString smesher)];
      let atxCount := fst r in
      exec match snd r with
           | Some e => log_Info "UpdateSmesher: GetActivationsCount: %v" [e]
           | None => ret tt
           end;
      do err <- UpdateOne "smeshers" [("id", VString smesher)]
                  [ ("cSize", VInt space);
                    ("coinbase", VString coinbase);
                    ("atxcount", VInt atxCount);
                    ("timestamp", VInt timestamp) ];
      exec match err with
           | Some e => log_Info "UpdateSmesher: %v" [e]
           | None => ret tt
           end;
      ret err
  end.

(** A fresh process over an empty database. *)
Definition empty_db : Database := {| collections := ∅; indexes := ∅ |}.

Definition boot (d : Database) (n : Z) (fs : list bool) : Storage :=
  {| db := d; NetworkInfo := mkNetworkInfo n; faults := fs;
     trace := []; logs := []; next_oid := 0%N |}.

(** The same process with another schedule of failures. *)
Definition reschedule (fs : list bool) (s : Storage) : Storage :=
  {| db := db s; NetworkInfo := NetworkInfo s; faults := fs;
     trace := trace s; logs := logs s; next_oid := next_oid s |}.

Fixpoint replicate_char (n : nat) (c : ascii) : string :=
  match n with
  | O => EmptyString
  | S n' => String c (replicate_char n' c)
  end.

(** A 66-character id. *)
Definition id_s : string := replicate_char 66 "s".

Definition sm1 : Smesher :=
  mkSmesher id_s "n" 0 0 100 "cb0" 0 1.

Definition atx_doc (id smesher : string) : Doc :=
  [("id", VString id); ("smesher", VString smesher)].

(** Indexes created, one smesher saved, two of its activations stored. *)
Definition st0 : Storage := snd (InitSmeshersStorage (boot empty_db 10 [])).

Definition st1 : Storage :=
  let s1 := snd (SaveSmesher sm1 st0) in
  snd (with_db (set_collection "activations" [atx_doc "a1" id_s; atx_doc "a2" id_s]) s1).

(* ===================================================================== *)
(** ** Library functions the resolver calls *)
(* ===================================================================== *)

Definition uint32 (n : Z) : Z := n mod 2 ^ 32.

Definition digit_of (c : ascii) : option Z :=
  let n := Z.of_nat (nat_of_ascii c) in
  if (48 <=? n) && (n <=? 57) then Some (n - 48) else None.

Fixpoint parse_digits (s : string) (acc : Z) : option Z :=
  match s with
  | EmptyString => Some acc
  | String c s' =>
      match digit_of c with
      | Some d => parse_digits s' (acc * 10 + d)
      | None => None
      end
  end.

Definition ErrSyntax : error := ErrNew "invalid syntax".
Definition ErrRange : error := ErrNew "value out of range".

(** [strconv.Atoi] where [int] has 64 bits: an optional sign, then one
    or more decimal digits; a value outside the range of [int] is an
    error. *)
Definition Atoi (s : string) : Z * option error :=
  match s with
  | EmptyString => (0, Some ErrSyntax)
  | String c rest =>
      let neg := bool_decide (c = "-"%char) in
      let digits := if neg || bool_decide (c = "+"%char) then rest else s in
      match digits with
      | EmptyString => (0, Some ErrSyntax)
      | _ =>
          match parse_digits digits 0 with
          | None => (0, Some ErrSyntax)
          | Some n =>
              let v := if neg then - n else n in
              if v <? - 2 ^ 63 then (- 2 ^ 63, Some ErrRange)
              else if 2 ^ 63 <=? v then (2 ^ 63 - 1, Some ErrRange)
              else (v, None)
          end
      end
  end.

Definition hex_of (c : ascii) : option N :=
  let n := N_of_ascii c in
  if (48 <=? n)%N && (n <=? 57)%N then Some (n - 48)%N
  else if (97 <=? n)%N && (n <=? 102)%N then Some (n - 87)%N
  else if (65 <=? n)%N && (n <=? 70)%N then Some (n - 55)%N
  else None.

Fixpoint parse_hex (s : string) (acc : N) : option N :=
  match s with
  | EmptyString => Some acc
  | String c s' =>
      match hex_of c with
      | Some d => parse_hex s' (acc * 16 + d)%N
      | None => None
      end
  end.

Definition ErrInvalidHex : error :=
  ErrNew "the provided hex string is not a valid ObjectID".

(** [primitive.ObjectIDFromHex]: exactly 24 hexadecimal digits. *)
Definition ObjectIDFromHex (s : string) : N * option error :=
  if bool_decide (String.length s = 24%nat) then
    match parse_hex s 0 with
    | Some oid => (oid, None)
    | None => (0%N, Some ErrInvalidHex)
    end
  else (0%N, Some ErrInvalidHex).

(** [fmt.Sprintf] of an [int] under the verb v: its decimal numeral. *)
Definition itoa (n : Z) : string :=
  DecimalString.NilZero.string_of_int (Z.to_int n).

(* ===================================================================== *)
(** ** The storage methods of the other collections *)
(* ===================================================================== *)

(** Modelled from the spec: the per-collection count helpers
    [GetAccountsCount], [GetBlocksCount], [GetTransactionsCount],
    [GetActivationsCount] and [GetRewardsCount] are not among the sources;
    the spec calls them thin per-collection count wrappers and the
    resolver's use of them read-only existence probes. Each is given the
    shape of its sibling [GetSmeshersCount]: a [CountDocuments] on its
    collection whose error is logged and answered by 0. *)
Definition count_helper (name coll : string) (query : Doc) : M Z :=
  do r <- CountDocuments coll query;
  match snd r with
  | Some err => exec log_Info (name +:+ ": %v") [err]; ret 0
  | None => ret (fst r)
  end.

Definition GetAccountsCount : Doc -> M Z := count_helper "GetAccountsCount" "accounts".
Definition GetBlocksCount : Doc -> M Z := count_helper "GetBlocksCount" "blocks".
Definition GetTransactionsCount : Doc -> M Z := count_helper "GetTransactionsCount" "txs".
Definition GetActivationsCount : Doc -> M Z := count_helper "GetActivationsCount" "activations".
Definition GetRewardsCount : Doc -> M Z := count_helper "GetRewardsCount" "rewards".

Definition layer_number (d : Doc) : Z :=
  match Lookup "number" d with
  | Some (VInt n) => uint32 n
  | _ => 0
  end.

(** Modelled from the spec: [GetLastLayer] is not among the sources. The
    spec's watermark is the highest layer number durably recorded; it is
    read here, as a uint32, from the documents of the layers collection,
    and a failed read is logged and answered by 0 as the count helpers
    do. *)
Definition GetLastLayer : M Z :=
  do r <- Find "layers" [];
  match snd r with
  | Some err => exec log_Info "GetLastLayer: %v" [err]; ret 0
  | None => ret (List.fold_right Z.max 0 (List.map layer_number (fst r)))
  end.

(* ===================================================================== *)
(** ** api/httpserver/rest/search.go *)
(* ===================================================================== *)

Definition Header : Type := list (string * string).

(** What the function handed to [s.process] does: it returns the header,
    the status and the error, having written [buf]; or it panics. *)
Inductive Result : Type :=
| Returned (buf : string) (header : option Header) (status : Z) (err : option error)
| Panicked (msg : string).

Definition StatusOK : Z := 200.
Definition StatusNotFound : Z := 404.

Definition dq : string := String "034"%char EmptyString.

(** [fmt.Sprintf] of the redirect member, the path being [prefix] followed
    by the formatted value. *)
Definition redirect (prefix v : string) : string :=
  dq +:+ "redirect" +:+ dq +:+ ":" +:+ dq +:+ prefix +:+ v +:+ dq.

(** The [switch] either breaks, having written to the buffer, or returns
    from the function. *)
Inductive Switch : Type :=
| Break (buf : string)
| Return (r : Result).

Definition NotFound (buf : string) : Switch :=
  Return (Returned buf None StatusNotFound (Some (ErrNew "Not found"))).

Definition SearchHandler (idStr : string) : M Result :=
  let buf := "{" in
  do sw <-
    (if bool_decide (String.length idStr = 42%nat) then
       do n <- GetAccountsCount [("address", VString idStr)];
       if n >? 0 then ret (Break (buf +:+ redirect "/address/" idStr))
       else
         do n <- GetBlocksCount [("id", VString idStr)];
         if n >? 0 then ret (Break (buf +:+ redirect "/blocks/" idStr))
         else ret (NotFound buf)
     else if bool_decide (String.length idStr = 66%nat) then
       do n <- GetTransactionsCount [("id", VString idStr)];
       if n >? 0 then ret (Break (buf +:+ redirect "/txs/" idStr))
       else
         do n <- GetActivationsCount [("id", VString idStr)];
         if n >? 0 then ret (Break (buf +:+ redirect "/atxs/" idStr))
         else
           do n <- GetSmeshersCount [("id", VString idStr)];
           if n >? 0 then ret (Break (buf +:+ redirect "/smeshers/" idStr))
           else ret (NotFound buf)
     else
       let objId := fst (ObjectIDFromHex idStr) in
       do hit <- match snd (ObjectIDFromHex idStr) with
                 | None =>
                     do n <- GetRewardsCount [("_id", VObjectID objId)];
                     ret (n >? 0)
                 | Some _ => ret false
                 end;
       if hit : bool then ret (Break (buf +:+ redirect "/rewards/" idStr))
       else
         let id := fst (Atoi idStr) in
         match snd (Atoi idStr) with
         | Some _ => ret (NotFound buf)
         | None =>
             do layer <- GetLastLayer;
             do n <- (fun s => (EpochNumLayers (NetworkInfo s), s));
             if n =? 0 then ret (Return (Panicked "integer divide by zero"))
             else
               let epoch := layer / n in
               if uint32 id >? epoch then
                 if uint32 id <=? layer
                 then ret (Break (buf +:+ redirect "/layers/" (itoa id)))
                 else ret (NotFound buf)
               else ret (Break (buf +:+ redirect "/epochs/" (itoa id)))
         end);
  match sw with
  | Return r => ret r
  | Break buf =>
      let header := [("Content-Type", "application/json")] in
      ret (Returned (buf +:+ "}") (Some header) StatusOK None)
  end.

Definition layer_doc (n : Z) : Doc := [("number", VInt n)].

(** The state of the spec's examples: watermark 100, ten layers an
    epoch. *)
Definition st100 : Storage :=
  boot (set_collection "layers" [layer_doc 99; layer_doc 100] empty_db) 10 [].

(** The same store before the network constants are known: no layers
    per epoch. *)
Definition st_zero : Storage :=
  boot (set_collection "layers" [layer_doc 99; layer_doc 100] empty_db) 0 [].

(** The spec's literal cases of the fixed-width classes: an account under
    42 letters a, a transaction under 66 letters b, nothing under 66
    letters c. *)
Definition id_a : string := replicate_char 42 "a".
Definition id_b : string := replicate_char 66 "b".
Definition id_c : string := replicate_char 66 "c".

Definition st_lit : Storage :=
  boot (set_collection "accounts" [[("address", VString id_a)]]
         (set_collection "txs" [[("id", VString id_b)]] empty_db)) 10 [].

(* ===================================================================== *)
(** ** The collector's main: the restart loop around the sync run *)
(* ===================================================================== *)

Module Supervisor.

(** What the loop does to its surroundings: it calls [c.Run()], which
    comes back with an error or with nil, prints, and sleeps. *)
Variant supervisorE : Type -> Type :=
| Run : supervisorE (option error)
| Println (e : error) : supervisorE unit
| Sleep (d : Z) : supervisorE unit.

(** [time.Second], in nanoseconds. *)
Definition Second : Z := 1000000000.

(** The body of the [for]. *)
Definition attempt : itree supervisorE unit :=
  ITree.bind (ITree.trigger Run) (fun err =>
    match err with
    | Some e =>
        ITree.bind (ITree.trigger (Println e)) (fun _ =>
        ITree.trigger (Sleep (5 * Second)))
    | None => Ret tt
    end).

Definition live_sync : itree supervisorE void := ITree.forever attempt.

(** Running the loop against a script of the results of successive
    runs: the events it performs, and where it stands when the fuel or
    the script runs out. *)
Inductive Event : Type :=
| EvRun (r : option error)
| EvPrintln (e : error)
| EvSleep (d : Z).

Inductive Status : Type :=
| CallingRun
| Running.

Definition react {X} (e : supervisorE X)
  : (X -> itree supervisorE void) -> list (option error) ->
    option (Event * list (option error) * itree supervisorE void) :=
  match e in supervisorE X
        return (X -> itree supervisorE void) -> list (option error) ->
               option (Event * list (option error) * itree supervisorE void)
  with
  | Run => fun k script =>
      match script with
      | [] => None
      | o :: script' => Some (EvRun o, script', k o)
      end
  | Println e => fun k script => Some (EvPrintln e, script, k tt)
  | Sleep d => fun k script => Some (EvSleep d, script, k tt)
  end.

Fixpoint drive (fuel : nat) (script : list (option error)) (t : itree supervisorE void)
  : list Event * Status :=
  match fuel with
  | O => ([], Running)
  | S fuel' =>
      match observe t with
      | RetF r => match r with end
      | TauF t' => drive fuel' script t'
      | VisF e k =>
          match react e k script with
          | None => ([], CallingRun)
          | Some (ev, script', t') =>
              let (evs, st) := drive fuel' script' t' in (ev :: evs, st)
          end
      end
  end.

(** What one run contributes: after an error, whichever it is, the
    print and the five seconds of sleep. *)
Definition backoff (o : option error) : list Event :=
  match o with
  | Some e => [EvRun (Some e); EvPrintln e; EvSleep (5 * Second)]
  | None => [EvRun None]
  end.

End Supervisor.

(* ===================================================================== *)
(** ** What the statements below are written with *)
(* ===================================================================== *)

(** The two ways the resolver answers. *)
Definition found (prefix v : string) : Result :=
  Returned ("{" +:+ redirect prefix v +:+ "}")
           (Some [("Content-Type", "application/json")]) StatusOK None.

Definition not_found : Result :=
  Returned "{" None StatusNotFound (Some (ErrNew "Not found")).

(** The state once a driver call has been issued. *)
Definition issued (op : DbOp) (s : Storage) : Storage := snd (issue op s).

Definition count_in (d : Database) (coll : string) (query : Doc) : Z :=
  Z.of_nat (length (List.filter (matches query) (Collection d coll))).

Definition exists_in (d : Database) (coll : string) (query : Doc) : bool :=
  existsb (matches query) (Collection d coll).

(** The spec's reading of the two fixed-width classes: an ordered list of
    (collection, key, redirect prefix); the probes are made in that order,
    each consuming one flag of the failure schedule, and the first hit
    wins. The result is the winning prefix and the probes made. *)
Definition Probe : Type := (string * string * string)%type.

Fixpoint first_hit (id : string) (probes : list Probe) (fs : list bool) (d : Database)
  : option string * list DbOp :=
  match probes with
  | [] => (None, [])
  | (coll, key, prefix) :: rest =>
      if negb (hd false fs) && exists_in d coll [(key, VString id)]
      then (Some prefix, [OpCountDocuments coll])
      else let (r, ops) := first_hit id rest (tl fs) d in
           (r, OpCountDocuments coll :: ops)
  end.

Definition address_probes : list Probe :=
  [("accounts", "address", "/address/"); ("blocks", "id", "/blocks/")].

Definition hash_probes : list Probe :=
  [("txs", "id", "/txs/"); ("activations", "id", "/atxs/"); ("smeshers", "id", "/smeshers/")].

Definition answer (id : string) (hit : option string) : Result :=
  match hit with
  | Some prefix => found prefix id
  | None => not_found
  end.

(** The probe of the rewards collection the default case starts with. *)
Definition reward_probe (idStr : string) : M bool :=
  let objId := fst (ObjectIDFromHex idStr) in
  match snd (ObjectIDFromHex idStr) with
  | None =>
      do n <- GetRewardsCount [("_id", VObjectID objId)];
      ret (n >? 0)
  | Some _ => ret false
  end.

(** The numeric classification of the default case, on the parsed [id],
    the watermark [layer] and the epoch length [n]. *)
Definition classify (id layer n : Z) : Result :=
  if n =? 0 then Panicked "integer divide by zero"
  else if uint32 id >? layer / n then
         if uint32 id <=? layer then found "/layers/" (itoa id) else not_found
       else found "/epochs/" (itoa id).

(** The documents of an update. *)
Definition coinbase_doc (smesher coinbase : string) : Doc :=
  [("address", VString coinbase); ("smesher", VString smesher)].

Definition smesher_update (space : Z) (coinbase : string) (atxCount timestamp : Z) : Doc :=
  [ ("cSize", VInt space);
    ("coinbase", VString coinbase);
    ("atxcount", VInt atxCount);
    ("timestamp", VInt timestamp) ].

(** The state in which the update of the smesher record is issued, and
    the count it writes. *)
Definition counted (smesher : string) (s1 : Storage) : Z * Storage :=
  let cnt := CountDocuments "activations" [("smesher", VString smesher)] s1 in
  (fst (fst cnt),
   match snd (fst cnt) with
   | Some e => snd (log_Info "UpdateSmesher: GetActivationsCount: %v" [e] (snd cnt))
   | None => snd cnt
   end).

(** The coinbase index holds the pair; the smesher record carries the
    coinbase. *)
Definition coinbase_entry (d : Database) (smesher coinbase : string) : bool :=
  exists_in d "coinbases" [("address", VString coinbase); ("smesher", VString smesher)].


Definition address_taken (d : Database) (coinbase : string) : bool :=
  existsb (fun doc => bool_decide (Lookup "address" doc = Some (VString coinbase)))
          (Collection d "coinbases").

Definition id_taken (d : Database) (id : string) : bool :=
  existsb (fun doc => bool_decide (Lookup "id" doc = Some (VString id)))
          (Collection d "smeshers").

Definition idIndex : IndexModel := mkIndex "idIndex" "id" true.
Definition addressIndex : IndexModel := mkIndex "addressIndex" "address" true.

(** The record a [Find] by id comes back with first. *)
Definition smesher_record (d : Database) (smesher : string) : option Doc :=
  List.find (matches [("id", VString smesher)]) (Collection d "smeshers").


(** A write as an upsert: saving the same smesher again succeeds and
    leaves the database as the first save left it. *)
Definition save_is_upsert (i : Smesher) (s : Storage) : Prop :=
  let r1 := SaveSmesher i s in
  let r2 := SaveSmesher i (snd r1) in
  fst r1 = None -> fst r2 = None /\ db (snd r2) = db (snd r1).

(** The activation count of the record after a successful update. *)
Definition atxcount_recomputed (smesher coinbase : string) (space timestamp : Z) (s : Storage) : Prop :=
  let r := UpdateSmesher smesher coinbase space timestamp s in
  fst r = None ->
  forall doc, smesher_record (db (snd r)) smesher = Some doc ->
    Lookup "atxcount" doc =
    Some (VInt (count_in (db s) "activations" [("smesher", VString smesher)])).

(** The table of the numeric class, for the parsed [id], the watermark
    and the epoch it gives. *)
Definition numeric_table (r : Result) (id watermark epoch : Z) : Prop :=
  (r = found "/layers/" (itoa id) <-> (id > epoch /\ id <= watermark))
  /\ (r = found "/epochs/" (itoa id) <-> id <= epoch)
  /\ (r = not_found <-> id > watermark).

(** A failure of the store does not turn an answer into NotFound. *)
Definition no_false_absence (idStr : string) (s : Storage) : Prop :=
  fst (SearchHandler idStr (reschedule [] s)) <> not_found ->
  fst (SearchHandler idStr s) <> not_found.

(** A run touches the database through reads only. *)
Definition read_only {A} (m : M A) : Prop :=
  forall s, db (snd (m s)) = db s /\
            exists ops : list DbOp, trace (snd (m s)) = (trace s ++ ops)%list /\ forallb is_read ops = true.

(* ===================================================================== *)
(** ** storage/smesher.go: the reads *)
(* ===================================================================== *)

(** [utils.GetAsString], [utils.GetAsUInt64] and [utils.GetAsUInt32]
    belong to a package that is not among the sources: the decoders of a
    looked-up value (absent when the key is) are parameters of the
    reads. *)
Class Utils : Type :=
  { GetAsString : option Value -> string;
    GetAsUInt64 : option Value -> Z;
    GetAsUInt32 : option Value -> Z }.

(** What is asked of them where a statement needs it: each decoder gives
    back a value of its own kind and range. *)
Class UtilsDecode (U : Utils) : Prop :=
  { GetAsString_string : forall s, GetAsString (Some (VString s)) = s;
    GetAsUInt64_int : forall n, 0 <= n < 2 ^ 64 -> GetAsUInt64 (Some (VInt n)) = n;
    GetAsUInt32_int : forall n, 0 <= n < 2 ^ 32 -> GetAsUInt32 (Some (VInt n)) = n }.

(** Decoders that read a value of their kind and give the zero value for
    anything else. *)
Definition plain_utils : Utils :=
  {| GetAsString := fun v => match v with Some (VString s) => s | _ => EmptyString end;
     GetAsUInt64 := fun v => match v with Some (VInt n) => n mod 2 ^ 64 | _ => 0 end;
     GetAsUInt32 := fun v => match v with Some (VInt n) => n mod 2 ^ 32 | _ => 0 end |}.

#[global] Instance plain_utils_decode : UtilsDecode plain_utils.
Proof.
  split; simpl.
  - reflexivity.
  - intros n Hn. apply Z.mod_small. exact Hn.
  - intros n Hn. apply Z.mod_small. exact Hn.
Qed.

(** [RawValue.Double] panics on a value that is not a double, an absent
    one included: [None] stands for the panic. *)
Definition Double (v : option Value) : option Z :=
  match v with
  | Some (VDouble bits) => Some bits
  | _ => None
  end.

(** What a read of one smesher comes back with: the smesher and a nil
    error, nil and an error, or a panic. *)
Inductive Fetched : Type :=
| FetchedSmesher (smesher : Smesher)
| FetchFailed (err : error)
| FetchPanicked.

(** The smesher the first matching record decodes to. *)
Definition decoded `{Utils} (doc : Doc) : Fetched :=
  match Double (Lookup "lon" doc), Double (Lookup "lat" doc) with
  | Some lon, Some lat =>
      FetchedSmesher
        {| Id := GetAsString (Lookup "id" doc);
           Name := GetAsString (Lookup "name" doc);
           Lon := lon;
           Lat := lat;
           CommitmentSize := GetAsUInt64 (Lookup "cSize" doc);
           Coinbase := GetAsString (Lookup "coinbase" doc);
           AtxCount := GetAsUInt32 (Lookup "atxcount" doc);
           Timestamp := GetAsUInt32 (Lookup "timestamp" doc) |}
  | _, _ => FetchPanicked
  end.

Definition GetSmesher `{Utils} (query : Doc) : M Fetched :=
  do r <- Find "smeshers" query;
  match snd r with
  | Some err => exec log_Info "GetSmesher: %v" [err]; ret (FetchFailed err)
  | None =>
      match fst r with
      | [] => exec log_Info "GetSmesher: Empty result" [];
              ret (FetchFailed (ErrNew "Empty result"))
      | doc :: _ =>
          match Double (Lookup "lon" doc), Double (Lookup "lat" doc) with
          | Some lon, Some lat =>
              ret (FetchedSmesher
                     {| Id := GetAsString (Lookup "id" doc);
                        Name := GetAsString (Lookup "name" doc);
                        Lon := lon;
                        Lat := lat;
                        CommitmentSize := GetAsUInt64 (Lookup "cSize" doc);
                        Coinbase := GetAsString (Lookup "coinbase" doc);
                        AtxCount := GetAsUInt32 (Lookup "atxcount" doc);
                        Timestamp := GetAsUInt32 (Lookup "timestamp" doc) |})
          | _, _ => ret FetchPanicked
          end
      end
  end.

Definition GetSmesherByCoinbase `{Utils} (coinbase : string) : M Fetched :=
  do r <- Find "coinbases" [("address", VString coinbase)];
  match snd r with
  | Some err => exec log_Info "GetSmesherByCoinbase: %v" [err]; ret (FetchFailed err)
  | None =>
      match fst r with
      | [] => exec log_Info "GetSmesherByCoinbase: Empty result" [];
              ret (FetchFailed (ErrNew "Empty result"))
      | doc :: _ =>
          let smesher := GetAsString (Lookup "smesher" doc) in
          if bool_decide (smesher = EmptyString)
          then exec log_Info "GetSmesherByCoinbase: Empty result" [];
               ret (FetchFailed (ErrNew "Empty result"))
          else GetSmesher [("id", VString smesher)]
      end
  end.

(** [cursor.All]: reading the cursor of a find to its end is a further
    read of the collection, which may fail on its own; it takes the next
    flag of the schedule and is recorded as a find. *)
Definition cursor_All (coll : string) (docs : list Doc) : M (list Doc * option error) :=
  do failed <- issue (OpFind coll);
  if failed : bool then ret ([], Some ErrDeadline) else ret (docs, None).

(** [GetSmeshers] called with no find options. [None] is the nil
    slice. *)
Definition GetSmeshers (query : Doc) : M (option (list Doc) * option error) :=
  do r <- Find "smeshers" query;
  match snd r with
  | Some err => exec log_Info "GetSmeshers: %v" [err]; ret (None, Some err)
  | None =>
      do docs <- cursor_All "smeshers" (fst r);
      match snd docs with
      | Some err => exec log_Info "GetSmeshers: %v" [err]; ret (None, Some err)
      | None =>
          if bool_decide (length (fst docs) = 0%nat) then ret (None, None)
          else ret (Some (fst docs), None)
      end
  end.

(* ===================================================================== *)
(** ** The collector's main: the start of the process *)
(* ===================================================================== *)

Module Main.

(** What the surroundings answer during the start: the errors of opening
    the store and the SQLite file, and of opening, writing and closing the
    marker file; and the testnet flag. *)
Record Startup : Type := mkStartup
  { testnetBoolFlag : bool;
    storage_New : option error;
    sql_Setup : option error;
    os_OpenFile : option error;
    pidFile_Write : option error;
    pidFile_Close : option error }.

Inductive Task : Type :=
| AwaitSignal
| LiveSync
| MetricsEndpoint
| HttpServer.

Inductive Step : Type :=
| SetNetworkHRP (hrp : string)
| LogInfo (format : string)
| OpenStorage
| OpenSQLite
| NewCollector
| NotifySignals
| OpenMarker
| WriteMarker
| CloseMarker
| Go (task : Task).

(** The action either returns an error or reaches the [select] with no
    case, where it stays. *)
Inductive Outcome : Type :=
| Returns (err : error)
| Blocks.

Definition serve : list Step * Outcome :=
  ([Go AwaitSignal; Go LiveSync; Go MetricsEndpoint; Go HttpServer], Blocks).

Definition prepend (steps : list Step) (r : list Step * Outcome) : list Step * Outcome :=
  ((steps ++ fst r)%list, snd r).

Definition Action (env : Startup) : list Step * Outcome :=
  prepend (if testnetBoolFlag env
           then [SetNetworkHRP "stest";
                 LogInfo ("Network HRP set to " +:+ dq +:+ "stest" +:+ dq)]
           else [])
  (prepend [OpenStorage]
    match storage_New env with
    | Some err => ([LogInfo "MongoDB storage open error %v"], Returns err)
    | None =>
        prepend [OpenSQLite]
        match sql_Setup env with
        | Some err => ([LogInfo "SQLite storage open error %v"], Returns err)
        | None =>
            prepend [NewCollector; NotifySignals; OpenMarker]
            match os_OpenFile env with
            | Some _ => serve
            | None =>
                prepend [WriteMarker]
                match pidFile_Write env with
                | Some err => ([], Returns err)
                | None =>
                    prepend [CloseMarker]
                    match pidFile_Close env with
                    | Some err => ([], Returns err)
                    | None => serve
                    end
                end
            end
        end
    end).

(** [main]: an action that returns an error is logged and the process
    exits with status 1; otherwise the action never returns. *)
Definition exit_code (env : Startup) : option Z :=
  match snd (Action env) with
  | Returns _ => Some 1
  | Blocks => None
  end.

End Main.

(* ===================================================================== *)
(** ** What the further statements are written with *)
(* ===================================================================== *)

(** The index of a collection that goes by a name. *)
Definition named (name : string) (ixs : list IndexModel) : option IndexModel :=
  List.find (fun ix' => bool_decide (ixName ix' = name)) ixs.

(** The two unique indexes are in place and the collections agree with
    them. *)
Definition store_unique (d : Database) : Prop :=
  In idIndex (IndexesOf d "smeshers")
  /\ In addressIndex (IndexesOf d "coinbases")
  /\ distinct_on "id" (Collection d "smeshers") = true
  /\ distinct_on "address" (Collection d "coinbases") = true.

(** A smesher as the Go type has it: the unsigned fields in their
    ranges. *)
Definition smesher_wf (i : Smesher) : Prop :=
  0 <= CommitmentSize i < 2 ^ 64
  /\ 0 <= AtxCount i < 2 ^ 32
  /\ 0 <= Timestamp i < 2 ^ 32.

(** The writes of the package, and a sequence of them. *)
Inductive Call : Type :=
| CallInit
| CallSave (i : Smesher)
| CallUpdate (smesher coinbase : string) (space timestamp : Z).

Definition call (c : Call) : M (option error) :=
  match c with
  | CallInit => InitSmeshersStorage
  | CallSave i => SaveSmesher i
  | CallUpdate smesher coinbase space timestamp =>
      UpdateSmesher smesher coinbase space timestamp
  end.

Fixpoint calls (cs : list Call) : M unit :=
  match cs with
  | [] => ret tt
  | c :: cs' => exec call c; calls cs'
  end.

(** The driver calls a run has added to the trace. *)
Definition issued_by {A} (m : M A) (s : Storage) : list DbOp :=
  skipn (length (trace s)) (trace (snd (m s))).

(** The events of a driven loop: the time slept and the runs that
    failed. *)
Definition slept (evs : list Supervisor.Event) : Z :=
  fold_right (fun ev acc => match ev with Supervisor.EvSleep d => d + acc | _ => acc end) 0 evs.

Definition failures (script : list (option error)) : Z :=
  Z.of_nat (length (List.filter (fun o => match o with Some _ => true | None => false end) script)).

(* ===================================================================== *)
(** ** State passing and the driver calls, one step at a time *)
(* ===================================================================== *)

Lemma bind_run {A B} (m : M A) (k : A -> M B) (s : Storage) :
  bind m k s = k (fst (m s)) (snd (m s)).
Proof. unfold bind. destruct (m s); reflexivity. Qed.

Lemma CountDocuments_run coll query s :
  CountDocuments coll query s =
  (if hd false (faults s) then (0, Some ErrDeadline)
   else (count_in (db s) coll query, None),
   issued (OpCountDocuments coll) s).
Proof.
  unfold CountDocuments, issued. rewrite bind_run. simpl.
  destruct (hd false (faults s)); reflexivity.
Qed.

Lemma count_helper_run name coll query s :
  count_helper name coll query s =
  if hd false (faults s)
  then (0, snd (log_Info (name +:+ ": %v") [ErrDeadline] (issued (OpCountDocuments coll) s)))
  else (count_in (db s) coll query, issued (OpCountDocuments coll) s).
Proof.
  unfold count_helper. rewrite bind_run, CountDocuments_run.
  destruct (hd false (faults s)); reflexivity.
Qed.

Lemma GetSmeshersCount_run query s :
  GetSmeshersCount query s =
  if hd false (faults s)
  then (0, snd (log_Info "GetSmeshersCount: %v" [ErrDeadline]
                  (issued (OpCountDocuments "smeshers") s)))
  else (count_in (db s) "smeshers" query, issued (OpCountDocuments "smeshers") s).
Proof.
  unfold GetSmeshersCount. rewrite bind_run, CountDocuments_run.
  destruct (hd false (faults s)); reflexivity.
Qed.

(** The smeshers helper is the generic helper at its collection. *)
Lemma GetSmeshersCount_helper query s :
  GetSmeshersCount query s = count_helper "GetSmeshersCount" "smeshers" query s.
Proof. rewrite GetSmeshersCount_run, count_helper_run. reflexivity. Qed.

Lemma count_positive (d : Database) coll query :
  (count_in d coll query >? 0) = exists_in d coll query.
Proof.
  unfold count_in, exists_in.
  induction (Collection d coll) as [|x l IH]; [reflexivity|].
  simpl. destruct (matches query x); simpl.
  - apply Z.gtb_lt. lia.
  - exact IH.
Qed.

(* ===================================================================== *)
(** ** Reads leave the database alone *)
(* ===================================================================== *)

Section ReadOnly.

Lemma read_only_ret {A} (a : A) : read_only (ret a).
Proof.
  intros s. split; [reflexivity|]. exists []. simpl.
  rewrite app_nil_r. auto.
Qed.

Lemma read_only_bind {A B} (m : M A) (k : A -> M B) :
  read_only m -> (forall a, read_only (k a)) -> read_only (bind m k).
Proof.
  intros Hm Hk s. rewrite bind_run.
  destruct (Hm s) as [Hdb [ops [Htr Hops]]].
  destruct (Hk (fst (m s)) (snd (m s))) as [Hdb' [ops' [Htr' Hops']]].
  split; [congruence|].
  exists (ops ++ ops')%list. split.
  - rewrite Htr', Htr, app_assoc. reflexivity.
  - rewrite forallb_app, Hops, Hops'. reflexivity.
Qed.

Lemma read_only_issue op : is_read op = true -> read_only (issue op).
Proof.
  intros Hop s. split; [reflexivity|]. exists [op]. simpl.
  rewrite Hop. auto.
Qed.

Lemma read_only_log format args : read_only (log_Info format args).
Proof.
  intros s. split; [reflexivity|]. exists []. simpl.
  rewrite app_nil_r. auto.
Qed.

Lemma read_only_state {A} (f : Storage -> A) : read_only (fun s => (f s, s)).
Proof.
  intros s. split; [reflexivity|]. exists []. simpl.
  rewrite app_nil_r. auto.
Qed.

Ltac read_only_step :=
  match goal with
  | |- read_only (bind _ _) => apply read_only_bind; [|intros ?]
  | |- read_only (ret _) => apply read_only_ret
  | |- read_only (log_Info _ _) => apply read_only_log
  | |- read_only read_db => apply (read_only_state db)
  | |- read_only (issue _) => apply read_only_issue; reflexivity
  | |- read_only (if ?b then _ else _) => destruct b
  | |- read_only (match ?x with _ => _ end) => destruct x
  end.

Lemma read_only_CountDocuments coll query : read_only (CountDocuments coll query).
Proof. unfold CountDocuments. repeat read_only_step. Qed.

Lemma read_only_Find coll query : read_only (Find coll query).
Proof. unfold Find. repeat read_only_step. Qed.

Lemma read_only_count_helper name coll query : read_only (count_helper name coll query).
Proof.
  unfold count_helper. apply read_only_bind; [apply read_only_CountDocuments|].
  intros r. repeat read_only_step.
Qed.

Lemma read_only_GetSmeshersCount query : read_only (GetSmeshersCount query).
Proof.
  unfold GetSmeshersCount. apply read_only_bind; [apply read_only_CountDocuments|].
  intros r. repeat read_only_step.
Qed.

Lemma read_only_GetLastLayer : read_only GetLastLayer.
Proof.
  unfold GetLastLayer. apply read_only_bind; [apply read_only_Find|].
  intros r. repeat read_only_step.
Qed.

Lemma read_only_SearchHandler idStr : read_only (SearchHandler idStr).
Proof.
  unfold SearchHandler, GetAccountsCount, GetBlocksCount, GetTransactionsCount,
    GetActivationsCount, GetRewardsCount.
  repeat first
    [ apply read_only_count_helper
    | apply read_only_GetSmeshersCount
    | apply read_only_GetLastLayer
    | apply (read_only_state (fun s => EpochNumLayers (NetworkInfo s)))
    | read_only_step ].
Qed.

End ReadOnly.

(** C8. For every identifier and every state, resolving it leaves the
    database exactly as it was, and every driver call it issues is a read:
    a count or the find that reads the watermark. *)
Theorem SearchHandler_no_mutation :
  forall (idStr : string) (s : Storage),
    db (snd (SearchHandler idStr s)) = db s /\
    exists ops : list DbOp,
      trace (snd (SearchHandler idStr s)) = (trace s ++ ops)%list /\
      Forall (fun op => exists coll, op = OpCountDocuments coll \/ op = OpFind coll) ops.
Proof.
  intros idStr s.
  destruct (read_only_SearchHandler idStr s) as [Hdb [ops [Htr Hops]]].
  split; [exact Hdb|]. exists ops. split; [exact Htr|].
  apply List.Forall_forall. intros op Hin.
  rewrite forallb_forall in Hops. specialize (Hops op Hin).
  destruct op; simpl in Hops; try discriminate; eauto.
Qed.

(* ===================================================================== *)
(** ** The resolver, class by class *)
(* ===================================================================== *)

(** One existence probe: it hits when the call does not fail and a
    document matches; it consumes one flag and is recorded. *)
Lemma probe_run name coll query s :
  let r := count_helper name coll query s in
  (fst r >? 0) = negb (hd false (faults s)) && exists_in (db s) coll query
  /\ db (snd r) = db s
  /\ faults (snd r) = tl (faults s)
  /\ trace (snd r) = (trace s ++ [OpCountDocuments coll])%list
  /\ NetworkInfo (snd r) = NetworkInfo s.
Proof.
  simpl. rewrite count_helper_run.
  destruct (hd false (faults s)); simpl; repeat split; try reflexivity.
  apply count_positive.
Qed.

Lemma SearchHandler_42 idStr s :
  String.length idStr = 42%nat ->
  fst (SearchHandler idStr s) =
    answer idStr (fst (first_hit idStr address_probes (faults s) (db s)))
  /\ trace (snd (SearchHandler idStr s)) =
    (trace s ++ snd (first_hit idStr address_probes (faults s) (db s)))%list.
Proof.
  intros Hlen. unfold SearchHandler.
  rewrite (bool_decide_eq_true_2 _ Hlen).
  unfold GetAccountsCount, GetBlocksCount.
  rewrite !bind_run.
  destruct (probe_run "GetAccountsCount" "accounts" [("address", VString idStr)] s)
    as (Hhit & Hdb & Hfs & Htr & _).
  set (r1 := count_helper "GetAccountsCount" "accounts" [("address", VString idStr)] s) in *.
  simpl first_hit. rewrite <- Hhit.
  destruct (fst r1 >? 0).
  - simpl. split; [reflexivity|]. exact Htr.
  - rewrite !bind_run.
    destruct (probe_run "GetBlocksCount" "blocks" [("id", VString idStr)] (snd r1))
      as (Hhit2 & Hdb2 & Hfs2 & Htr2 & _).
    set (r2 := count_helper "GetBlocksCount" "blocks" [("id", VString idStr)] (snd r1)) in *.
    rewrite Hfs, Hdb in Hhit2. rewrite <- Hhit2.
    destruct (fst r2 >? 0); simpl; (split; [reflexivity|]);
      rewrite Htr2, Htr, <- app_assoc; reflexivity.
Qed.

Lemma SearchHandler_66 idStr s :
  String.length idStr = 66%nat ->
  fst (SearchHandler idStr s) =
    answer idStr (fst (first_hit idStr hash_probes (faults s) (db s)))
  /\ trace (snd (SearchHandler idStr s)) =
    (trace s ++ snd (first_hit idStr hash_probes (faults s) (db s)))%list.
Proof.
  intros Hlen. unfold SearchHandler.
  rewrite bool_decide_eq_false_2 by (rewrite Hlen; discriminate).
  rewrite (bool_decide_eq_true_2 _ Hlen).
  unfold GetTransactionsCount, GetActivationsCount.
  rewrite !bind_run.
  destruct (probe_run "GetTransactionsCount" "txs" [("id", VString idStr)] s)
    as (Hhit & Hdb & Hfs & Htr & _).
  set (r1 := count_helper "GetTransactionsCount" "txs" [("id", VString idStr)] s) in *.
  simpl first_hit. rewrite <- Hhit.
  destruct (fst r1 >? 0).
  { simpl. split; [reflexivity|]. exact Htr. }
  rewrite !bind_run.
  destruct (probe_run "GetActivationsCount" "activations" [("id", VString idStr)] (snd r1))
    as (Hhit2 & Hdb2 & Hfs2 & Htr2 & _).
  set (r2 := count_helper "GetActivationsCount" "activations" [("id", VString idStr)] (snd r1)) in *.
  rewrite Hfs, Hdb in Hhit2. rewrite <- Hhit2.
  destruct (fst r2 >? 0).
  { simpl. split; [reflexivity|]. rewrite Htr2, Htr, <- app_assoc. reflexivity. }
  rewrite !bind_run, GetSmeshersCount_helper.
  destruct (probe_run "GetSmeshersCount" "smeshers" [("id", VString idStr)] (snd r2))
    as (Hhit3 & Hdb3 & Hfs3 & Htr3 & _).
  set (r3 := count_helper "GetSmeshersCount" "smeshers" [("id", VString idStr)] (snd r2)) in *.
  rewrite Hfs2, Hfs, Hdb2, Hdb in Hhit3. rewrite <- Hhit3.
  destruct (fst r3 >? 0); simpl; (split; [reflexivity|]);
    rewrite Htr3, Htr2, Htr, <- !app_assoc; reflexivity.
Qed.

(** C5. An identifier of length 42 is probed as an Account, then as a
    Block; one of length 66 as a Transaction, then an Activation, then a
    Smesher. The probes are issued in that order, the first hit gives the
    redirect (/address/, /blocks/, /txs/, /atxs/, /smeshers/ followed by
    the identifier) and no hit gives NotFound. *)
Theorem SearchHandler_fixed_width :
  forall (idStr : string) (s : Storage) (probes : list Probe),
    (String.length idStr = 42%nat /\ probes = address_probes) \/
    (String.length idStr = 66%nat /\ probes = hash_probes) ->
    fst (SearchHandler idStr s) = answer idStr (fst (first_hit idStr probes (faults s) (db s)))
    /\ trace (snd (SearchHandler idStr s)) =
       (trace s ++ snd (first_hit idStr probes (faults s) (db s)))%list.
Proof.
  intros idStr s probes [[Hlen ->]|[Hlen ->]].
  - apply SearchHandler_42, Hlen.
  - apply SearchHandler_66, Hlen.
Qed.

Lemma reward_probe_run idStr s :
  let r := reward_probe idStr s in
  fst r = match snd (ObjectIDFromHex idStr) with
          | None => negb (hd false (faults s)) &&
                    exists_in (db s) "rewards" [("_id", VObjectID (fst (ObjectIDFromHex idStr)))]
          | Some _ => false
          end
  /\ db (snd r) = db s
  /\ NetworkInfo (snd r) = NetworkInfo s
  /\ trace (snd r) = (trace s ++ match snd (ObjectIDFromHex idStr) with
                                 | None => [OpCountDocuments "rewards"]
                                 | Some _ => []
                                 end)%list.
Proof.
  unfold reward_probe. destruct (snd (ObjectIDFromHex idStr)); simpl.
  - rewrite app_nil_r. auto.
  - rewrite bind_run. unfold GetRewardsCount.
    destruct (probe_run "GetRewardsCount" "rewards"
                [("_id", VObjectID (fst (ObjectIDFromHex idStr)))] s)
      as (Hhit & Hdb & _ & Htr & Hni).
    simpl. auto.
Qed.

Lemma GetLastLayer_run s :
  db (snd (GetLastLayer s)) = db s
  /\ NetworkInfo (snd (GetLastLayer s)) = NetworkInfo s
  /\ trace (snd (GetLastLayer s)) = (trace s ++ [OpFind "layers"])%list.
Proof.
  unfold GetLastLayer, Find. rewrite !bind_run. simpl.
  destruct (hd false (faults s)); simpl; auto.
Qed.

Lemma GetLastLayer_range s : 0 <= fst (GetLastLayer s) < 2 ^ 32.
Proof.
  unfold GetLastLayer, Find. rewrite !bind_run. simpl.
  destruct (hd false (faults s)); simpl; [lia|].
  induction (List.filter (matches []) (Collection (db s) "layers")) as [|d l IH];
    simpl; [lia|].
  assert (0 <= layer_number d < 2 ^ 32).
  { unfold layer_number. destruct (Lookup "number" d) as [[]|]; try lia.
    unfold uint32. apply Z.mod_pos_bound. lia. }
  lia.
Qed.

Lemma SearchHandler_default idStr s :
  String.length idStr <> 42%nat ->
  String.length idStr <> 66%nat ->
  let rp := reward_probe idStr s in
  SearchHandler idStr s =
  if fst rp then (found "/rewards/" idStr, snd rp)
  else match snd (Atoi idStr) with
       | Some _ => (not_found, snd rp)
       | None =>
           (classify (fst (Atoi idStr)) (fst (GetLastLayer (snd rp)))
                     (EpochNumLayers (NetworkInfo s)),
            snd (GetLastLayer (snd rp)))
       end.
Proof.
  intros H42 H66. simpl. unfold SearchHandler.
  rewrite !bool_decide_eq_false_2 by assumption.
  unfold reward_probe, classify.
  rewrite !bind_run.
  destruct (snd (ObjectIDFromHex idStr)) as [e|].
  - simpl. destruct (snd (Atoi idStr)); [reflexivity|].
    rewrite !bind_run. simpl.
    destruct (GetLastLayer_run s) as (_ & -> & _).
    destruct (EpochNumLayers (NetworkInfo s) =? 0); [reflexivity|].
    destruct (_ >? _); [|reflexivity].
    destruct (_ <=? _); reflexivity.
  - rewrite !bind_run. simpl.
    set (rp := GetRewardsCount _ s).
    destruct (fst rp >? 0); [reflexivity|].
    destruct (snd (Atoi idStr)); [reflexivity|].
    rewrite !bind_run. simpl.
    destruct (GetLastLayer_run (snd rp)) as (_ & -> & _).
    destruct (probe_run "GetRewardsCount" "rewards"
                [("_id", VObjectID (fst (ObjectIDFromHex idStr)))] s)
      as (_ & _ & _ & _ & Hni).
    fold (GetRewardsCount [("_id", VObjectID (fst (ObjectIDFromHex idStr)))]) in Hni.
    fold rp in Hni. rewrite Hni.
    destruct (EpochNumLayers (NetworkInfo s) =? 0); [reflexivity|].
    destruct (_ >? _); [|reflexivity].
    destruct (_ <=? _); reflexivity.
Qed.

(** C6. For an identifier of any other length the resolver first parses
    it as an ObjectID and, when that succeeds, probes the rewards
    collection: a hit redirects to /rewards/ followed by the identifier.
    Otherwise the identifier is parsed as a decimal integer, and a failed
    parse is answered by NotFound. Up to that point the rewards count is
    the only driver call, made exactly when the ObjectID parse
    succeeded. *)
Theorem SearchHandler_object_id_then_integer :
  forall (idStr : string) (s : Storage),
    String.length idStr <> 42%nat ->
    String.length idStr <> 66%nat ->
    let oid := ObjectIDFromHex idStr in
    let reward_hit :=
      match snd oid with
      | None => negb (hd false (faults s)) &&
                exists_in (db s) "rewards" [("_id", VObjectID (fst oid))]
      | Some _ => false
      end in
    (if reward_hit then fst (SearchHandler idStr s) = found "/rewards/" idStr
     else snd (Atoi idStr) <> None -> fst (SearchHandler idStr s) = not_found)
    /\ (reward_hit = true \/ snd (Atoi idStr) <> None ->
        trace (snd (SearchHandler idStr s)) =
        (trace s ++ match snd oid with
                    | None => [OpCountDocuments "rewards"]
                    | Some _ => []
                    end)%list).
Proof.
  intros idStr s H42 H66. simpl.
  rewrite (SearchHandler_default idStr s H42 H66).
  destruct (reward_probe_run idStr s) as (Hhit & _ & _ & Htr).
  simpl in Hhit, Htr. rewrite <- Hhit.
  destruct (fst (reward_probe idStr s)); simpl.
  - split; [reflexivity|]. intros _. exact Htr.
  - split.
    + intros Hparse. destruct (snd (Atoi idStr)); [reflexivity|congruence].
    + intros [Hf|Hparse]; [discriminate|].
      destruct (snd (Atoi idStr)); [exact Htr|congruence].
Qed.

Lemma found_not_found prefix v : found prefix v <> not_found.
Proof. discriminate. Qed.

Lemma layers_not_epochs v w : found "/layers/" v <> found "/epochs/" w.
Proof. unfold found, redirect. cbn. intros H. inversion H. Qed.

Lemma uint32_small n : 0 <= n < 2 ^ 32 -> uint32 n = n.
Proof. intros H. unfold uint32. apply Z.mod_small. exact H. Qed.

Lemma epoch_le_watermark layer n : 0 <= layer -> 0 < n -> layer / n <= layer.
Proof.
  intros Hl Hn. apply Z.div_le_upper_bound; [exact Hn|]. nia.
Qed.

(** The default case once the rewards probe has missed and the integer
    has been parsed. *)
Lemma SearchHandler_numeric idStr s :
  String.length idStr <> 42%nat ->
  String.length idStr <> 66%nat ->
  fst (reward_probe idStr s) = false ->
  snd (Atoi idStr) = None ->
  fst (SearchHandler idStr s) =
  classify (fst (Atoi idStr)) (fst (GetLastLayer (snd (reward_probe idStr s))))
           (EpochNumLayers (NetworkInfo s)).
Proof.
  intros H42 H66 Hmiss Hparse.
  rewrite (SearchHandler_default idStr s H42 H66). simpl.
  rewrite Hmiss, Hparse. reflexivity.
Qed.

Lemma reward_probe_invalid idStr s :
  snd (ObjectIDFromHex idStr) <> None -> reward_probe idStr s = (false, s).
Proof.
  intros H. unfold reward_probe.
  destruct (snd (ObjectIDFromHex idStr)); [reflexivity|congruence].
Qed.

(** C4, as amended. For an identifier that is not of length 42 or 66, is
    not a valid ObjectID and parses as a decimal integer id with
    0 <= id < 2^32, with a positive number of layers per epoch and
    epoch = watermark / layersPerEpoch: the answer is the redirect to
    /layers/id exactly when id > epoch and id <= watermark, the redirect
    to /epochs/id exactly when id <= epoch, and NotFound exactly when
    id > watermark. *)
Theorem SearchHandler_numeric_table :
  forall (idStr : string) (s : Storage),
    String.length idStr <> 42%nat ->
    String.length idStr <> 66%nat ->
    snd (ObjectIDFromHex idStr) <> None ->
    snd (Atoi idStr) = None ->
    0 < EpochNumLayers (NetworkInfo s) ->
    0 <= fst (Atoi idStr) < 2 ^ 32 ->
    let watermark := fst (GetLastLayer s) in
    numeric_table (fst (SearchHandler idStr s)) (fst (Atoi idStr))
                  watermark (watermark / EpochNumLayers (NetworkInfo s)).
Proof.
  intros idStr s H42 H66 Hoid Hparse Hn Hid. simpl.
  pose proof (reward_probe_invalid idStr s Hoid) as Hrp.
  rewrite (SearchHandler_numeric idStr s H42 H66) by (rewrite ?Hrp; auto).
  rewrite Hrp. simpl.
  pose proof (GetLastLayer_range s) as Hl.
  set (layer := fst (GetLastLayer s)) in *.
  set (n := EpochNumLayers (NetworkInfo s)) in *.
  set (id := fst (Atoi idStr)) in *.
  assert (He : layer / n <= layer) by (apply epoch_le_watermark; lia).
  unfold classify, numeric_table.
  rewrite (uint32_small id Hid).
  destruct (n =? 0) eqn:En; [apply Z.eqb_eq in En; lia|].
  assert (Hcases : (id >? layer / n) = true /\ layer / n < id
                   \/ (id >? layer / n) = false /\ id <= layer / n).
  { destruct (Z.gtb_spec id (layer / n)); [left|right]; split; auto; lia. }
  assert (Hcases' : (id <=? layer) = true /\ id <= layer
                    \/ (id <=? layer) = false /\ layer < id).
  { destruct (Z.leb_spec id layer); [left|right]; split; auto. }
  destruct Hcases as [[-> E1]|[-> E1]]; [destruct Hcases' as [[-> E2]|[-> E2]]|];
    (split; [|split]); split; intros G;
    first [ lia | reflexivity
          | exfalso; first [ exact (layers_not_epochs _ _ G)
                           | exact (layers_not_epochs _ _ (eq_sym G))
                           | exact (found_not_found _ _ G)
                           | exact (found_not_found _ _ (eq_sym G)) ] ].
Qed.

Lemma SearchHandler_wrapped idStr s :
  String.length idStr <> 42%nat ->
  String.length idStr <> 66%nat ->
  fst (reward_probe idStr s) = false ->
  snd (Atoi idStr) = None ->
  EpochNumLayers (NetworkInfo s) <> 0 ->
  let id := fst (Atoi idStr) in
  let watermark := fst (GetLastLayer (snd (reward_probe idStr s))) in
  let epoch := watermark / EpochNumLayers (NetworkInfo s) in
  fst (SearchHandler idStr s) =
  if id mod 2 ^ 32 >? epoch
  then if id mod 2 ^ 32 <=? watermark then found "/layers/" (itoa id) else not_found
  else found "/epochs/" (itoa id).
Proof.
  intros H42 H66 Hmiss Hparse Hn. simpl.
  rewrite (SearchHandler_numeric idStr s H42 H66 Hmiss Hparse).
  unfold classify, uint32.
  destruct (Z.eqb_spec (EpochNumLayers (NetworkInfo s)) 0); [contradiction|].
  reflexivity.
Qed.

(** C10. The parsed integer is converted to uint32 before it is compared:
    for every decimal identifier that reaches the numeric classification,
    the comparisons with the epoch and the watermark are made on its value
    modulo 2^32, while the redirect path is written from the parsed
    integer itself. So 4294967296 compares as 0 and is redirected to
    /epochs/4294967296, and -1 compares as 4294967295 and is NotFound
    under every watermark below that. (The number of layers per epoch is
    positive.) *)
Theorem SearchHandler_uint32_conversion :
  forall (s : Storage),
    0 < EpochNumLayers (NetworkInfo s) ->
    (forall idStr : string,
        String.length idStr <> 42%nat ->
        String.length idStr <> 66%nat ->
        fst (reward_probe idStr s) = false ->
        snd (Atoi idStr) = None ->
        let id := fst (Atoi idStr) in
        let watermark := fst (GetLastLayer (snd (reward_probe idStr s))) in
        let epoch := watermark / EpochNumLayers (NetworkInfo s) in
        fst (SearchHandler idStr s) =
        if id mod 2 ^ 32 >? epoch
        then if id mod 2 ^ 32 <=? watermark then found "/layers/" (itoa id) else not_found
        else found "/epochs/" (itoa id))
    /\ fst (SearchHandler "4294967296" s) = found "/epochs/" "4294967296"
    /\ (fst (GetLastLayer s) < 4294967295 -> fst (SearchHandler "-1" s) = not_found).
Proof.
  intros s Hn.
  assert (Hn0 : EpochNumLayers (NetworkInfo s) <> 0) by lia.
  pose proof (GetLastLayer_range s) as Hl.
  split; [|split].
  - intros idStr H42 H66 Hmiss Hparse.
    apply SearchHandler_wrapped; auto.
  - assert (Hrp : reward_probe "4294967296" s = (false, s)).
    { apply reward_probe_invalid. discriminate. }
    assert (H42 : String.length "4294967296" <> 42%nat) by discriminate.
    assert (H66 : String.length "4294967296" <> 66%nat) by discriminate.
    assert (Hmiss : fst (reward_probe "4294967296" s) = false) by (rewrite Hrp; reflexivity).
    assert (Hparse : snd (Atoi "4294967296") = None) by reflexivity.
    rewrite (SearchHandler_wrapped _ s H42 H66 Hmiss Hparse Hn0).
    rewrite Hrp. simpl snd.
    change (fst (Atoi "4294967296")) with 4294967296.
    change (4294967296 mod 2 ^ 32) with 0.
    change (itoa 4294967296) with "4294967296".
    assert (0 <= fst (GetLastLayer s) / EpochNumLayers (NetworkInfo s))
      by (apply Z.div_pos; lia).
    destruct (Z.gtb_spec 0 (fst (GetLastLayer s) / EpochNumLayers (NetworkInfo s)));
      [lia|reflexivity].
  - intros Hw.
    assert (Hrp : reward_probe "-1" s = (false, s)).
    { apply reward_probe_invalid. discriminate. }
    assert (H42 : String.length "-1" <> 42%nat) by discriminate.
    assert (H66 : String.length "-1" <> 66%nat) by discriminate.
    assert (Hmiss : fst (reward_probe "-1" s) = false) by (rewrite Hrp; reflexivity).
    assert (Hparse : snd (Atoi "-1") = None) by reflexivity.
    rewrite (SearchHandler_wrapped _ s H42 H66 Hmiss Hparse Hn0).
    rewrite Hrp. simpl snd.
    change (fst (Atoi "-1")) with (-1).
    change (-1 mod 2 ^ 32) with 4294967295.
    assert (fst (GetLastLayer s) / EpochNumLayers (NetworkInfo s) <= fst (GetLastLayer s))
      by (apply epoch_le_watermark; lia).
    destruct (Z.gtb_spec 4294967295 (fst (GetLastLayer s) / EpochNumLayers (NetworkInfo s)));
      [|lia].
    destruct (Z.leb_spec 4294967295 (fst (GetLastLayer s))); [lia|reflexivity].
Qed.

(** The literal cases of the spec's classification table. *)
Example literal_cases :
  fst (SearchHandler id_a st_lit) = found "/address/" id_a
  /\ fst (SearchHandler id_b st_lit) = found "/txs/" id_b
  /\ fst (SearchHandler id_c st_lit) = not_found
  /\ fst (SearchHandler "42" st100) = found "/layers/" "42"
  /\ fst (SearchHandler "5" st100) = found "/epochs/" "5"
  /\ fst (SearchHandler "999" st100) = not_found.
Proof. vm_compute. repeat split. Qed.

Lemma SearchHandler_fixed_width_witness :
  ((String.length id_a = 42%nat /\ address_probes = address_probes) \/
   (String.length id_a = 66%nat /\ address_probes = hash_probes))
  /\ fst (SearchHandler id_a st_lit) =
     answer id_a (fst (first_hit id_a address_probes (faults st_lit) (db st_lit)))
  /\ trace (snd (SearchHandler id_a st_lit)) =
     (trace st_lit ++ snd (first_hit id_a address_probes (faults st_lit) (db st_lit)))%list.
Proof.
  assert (H : (String.length id_a = 42%nat /\ address_probes = address_probes) \/
              (String.length id_a = 66%nat /\ address_probes = hash_probes))
    by (left; split; reflexivity).
  split; [exact H|].
  exact (SearchHandler_fixed_width id_a st_lit address_probes H).
Defined.

Lemma SearchHandler_object_id_then_integer_witness :
  String.length "abc" <> 42%nat /\ String.length "abc" <> 66%nat
  /\ fst (SearchHandler "abc" st100) = not_found.
Proof.
  assert (H42 : String.length "abc" <> 42%nat) by discriminate.
  assert (H66 : String.length "abc" <> 66%nat) by discriminate.
  split; [exact H42|]. split; [exact H66|].
  apply (proj1 (SearchHandler_object_id_then_integer "abc" st100 H42 H66)).
  discriminate.
Defined.

(** C4, as the spec states it, fails at the identifier -1 with watermark
    100 and ten layers an epoch: -1 <= 10 would make it an Epoch, and the
    resolver answers NotFound. *)
Lemma numeric_table_fails_below_zero :
  String.length "-1" <> 42%nat
  /\ String.length "-1" <> 66%nat
  /\ snd (ObjectIDFromHex "-1") <> None
  /\ snd (Atoi "-1") = None
  /\ ~ numeric_table (fst (SearchHandler "-1" st100)) (fst (Atoi "-1"))
        (fst (GetLastLayer st100))
        (fst (GetLastLayer st100) / EpochNumLayers (NetworkInfo st100)).
Proof.
  repeat split; try discriminate.
  intros [_ [[_ H] _]].
  vm_compute in H.
  assert (G : Lt = Gt -> False) by discriminate.
  specialize (H G). discriminate H.
Qed.

Lemma SearchHandler_numeric_table_witness :
  (0 <= fst (Atoi "42") < 2 ^ 32)
  /\ numeric_table (fst (SearchHandler "42" st100)) (fst (Atoi "42"))
       (fst (GetLastLayer st100))
       (fst (GetLastLayer st100) / EpochNumLayers (NetworkInfo st100)).
Proof.
  assert (H42 : String.length "42" <> 42%nat) by discriminate.
  assert (H66 : String.length "42" <> 66%nat) by discriminate.
  assert (Hoid : snd (ObjectIDFromHex "42") <> None) by discriminate.
  assert (Hparse : snd (Atoi "42") = None) by reflexivity.
  assert (Hn : 0 < EpochNumLayers (NetworkInfo st100)) by reflexivity.
  assert (Hid : 0 <= fst (Atoi "42") < 2 ^ 32) by (split; [discriminate|reflexivity]).
  split; [exact Hid|].
  exact (SearchHandler_numeric_table "42" st100 H42 H66 Hoid Hparse Hn Hid).
Defined.

Lemma SearchHandler_uint32_conversion_witness :
  0 < EpochNumLayers (NetworkInfo st100)
  /\ fst (SearchHandler "4294967296" st100) = found "/epochs/" "4294967296"
  /\ fst (SearchHandler "-1" st100) = not_found.
Proof.
  assert (Hn : 0 < EpochNumLayers (NetworkInfo st100)) by reflexivity.
  split; [exact Hn|].
  destruct (SearchHandler_uint32_conversion st100 Hn) as (_ & H1 & H2).
  split; [exact H1|]. apply H2. reflexivity.
Defined.

(* ===================================================================== *)
(** ** A failed existence probe *)
(* ===================================================================== *)

Lemma hd_tl_tl (l : list bool) : hd false (tl (tl l)) = nth 2 l false.
Proof. destruct l as [|a [|b [|c l]]]; reflexivity. Qed.

(** C7, as the spec states it, fails: the smesher of [st1] is found when
    no call fails, and reported NotFound when the third probe, the count
    on the smeshers collection, fails. *)
Lemma store_error_reads_as_absence :
  ~ no_false_absence id_s (reschedule [false; false; true] st1).
Proof.
  unfold no_false_absence. intros H.
  apply H.
  - vm_compute. discriminate.
  - vm_compute. reflexivity.
Qed.

Lemma probe_logs name coll query s :
  logs (snd (count_helper name coll query s)) =
  (logs s ++ if hd false (faults s) then [Info (name +:+ ": %v") [ErrDeadline]] else [])%list.
Proof.
  rewrite count_helper_run.
  destruct (hd false (faults s)); cbn [snd]; [reflexivity|].
  unfold issued. cbn [snd issue logs]. rewrite app_nil_r. reflexivity.
Qed.

Lemma GetSmeshersCount_logs query s :
  logs (snd (GetSmeshersCount query s)) =
  (logs s ++ if hd false (faults s)
             then [Info "GetSmeshersCount: %v" [ErrDeadline]] else [])%list.
Proof. rewrite GetSmeshersCount_helper. apply probe_logs. Qed.

(** The log of a resolve of a 66-character identifier whose first two
    probes miss and whose third fails: it ends with the line of the
    smeshers count. *)
Lemma SearchHandler_66_logs idStr s :
  String.length idStr = 66%nat ->
  exists_in (db s) "txs" [("id", VString idStr)] = false ->
  exists_in (db s) "activations" [("id", VString idStr)] = false ->
  nth 2 (faults s) false = true ->
  exists earlier : list LogLine,
    logs (snd (SearchHandler idStr s)) =
    (logs s ++ earlier ++ [Info "GetSmeshersCount: %v" [ErrDeadline]])%list.
Proof.
  intros Hlen Htx Hatx Hfault. unfold SearchHandler.
  rewrite bool_decide_eq_false_2 by (rewrite Hlen; discriminate).
  rewrite (bool_decide_eq_true_2 _ Hlen).
  unfold GetTransactionsCount, GetActivationsCount.
  rewrite !bind_run.
  destruct (probe_run "GetTransactionsCount" "txs" [("id", VString idStr)] s)
    as (Hhit & Hdb & Hfs & _ & _).
  pose proof (probe_logs "GetTransactionsCount" "txs" [("id", VString idStr)] s) as Hl1.
  set (r1 := count_helper "GetTransactionsCount" "txs" [("id", VString idStr)] s) in *.
  rewrite Htx, andb_false_r in Hhit. rewrite Hhit.
  rewrite !bind_run.
  destruct (probe_run "GetActivationsCount" "activations" [("id", VString idStr)] (snd r1))
    as (Hhit2 & Hdb2 & Hfs2 & _ & _).
  pose proof (probe_logs "GetActivationsCount" "activations" [("id", VString idStr)] (snd r1))
    as Hl2.
  set (r2 := count_helper "GetActivationsCount" "activations" [("id", VString idStr)] (snd r1))
    in *.
  rewrite Hdb, Hatx, andb_false_r in Hhit2. rewrite Hhit2.
  rewrite !bind_run, GetSmeshersCount_helper.
  destruct (probe_run "GetSmeshersCount" "smeshers" [("id", VString idStr)] (snd r2))
    as (Hhit3 & _ & _ & _ & _).
  pose proof (probe_logs "GetSmeshersCount" "smeshers" [("id", VString idStr)] (snd r2))
    as Hl3.
  set (r3 := count_helper "GetSmeshersCount" "smeshers" [("id", VString idStr)] (snd r2)) in *.
  rewrite Hfs2, Hfs, hd_tl_tl, Hfault in Hhit3, Hl3. cbn [negb andb] in Hhit3.
  rewrite Hhit3. clearbody r3. clearbody r2. clearbody r1.
  cbn [ret fst snd NotFound].
  rewrite Hl3, Hl2, Hl1, Hfs.
  exists ((if hd false (faults s)
           then [Info ("GetTransactionsCount" +:+ ": %v") [ErrDeadline]] else [])
          ++ (if hd false (tl (faults s))
              then [Info ("GetActivationsCount" +:+ ": %v") [ErrDeadline]] else []))%list.
  rewrite <- !app_assoc. reflexivity.
Qed.

(** C7, as amended. A store error during a count probe is not passed on:
    [GetSmeshersCount] logs the error of a failed count and answers 0, and
    the resolver takes the failed probe for a miss. For an identifier of
    length 66 that is neither a transaction nor an activation, a failure
    of the smeshers probe gives NotFound, whatever the smeshers collection
    holds, and the error is the last line of the log. *)
Theorem failed_probe_is_a_miss :
  forall (idStr : string) (s : Storage) (query : Doc),
    String.length idStr = 66%nat ->
    exists_in (db s) "txs" [("id", VString idStr)] = false ->
    exists_in (db s) "activations" [("id", VString idStr)] = false ->
    nth 2 (faults s) false = true ->
    fst (GetSmeshersCount query s) =
      (if hd false (faults s) then 0 else count_in (db s) "smeshers" query)
    /\ logs (snd (GetSmeshersCount query s)) =
       (logs s ++ if hd false (faults s)
                  then [Info "GetSmeshersCount: %v" [ErrDeadline]] else [])%list
    /\ fst (SearchHandler idStr s) = not_found
    /\ exists earlier : list LogLine,
         logs (snd (SearchHandler idStr s)) =
         (logs s ++ earlier ++ [Info "GetSmeshersCount: %v" [ErrDeadline]])%list.
Proof.
  intros idStr s query Hlen Htx Hatx Hfault. split; [|split; [|split]].
  - rewrite GetSmeshersCount_run. destruct (hd false (faults s)); reflexivity.
  - apply GetSmeshersCount_logs.
  - rewrite (proj1 (SearchHandler_66 idStr s Hlen)).
    simpl first_hit. rewrite Htx, Hatx, hd_tl_tl, Hfault.
    rewrite !andb_false_r. reflexivity.
  - apply SearchHandler_66_logs; assumption.
Qed.

Lemma failed_probe_is_a_miss_witness :
  nth 2 (faults (reschedule [false; false; true] st1)) false = true
  /\ exists_in (db st1) "smeshers" [("id", VString id_s)] = true
  /\ fst (SearchHandler id_s (reschedule [false; false; true] st1)) = not_found
  /\ logs (snd (SearchHandler id_s (reschedule [false; false; true] st1))) =
     [Info "GetSmeshersCount: %v" [ErrDeadline]].
Proof.
  assert (H1 : String.length id_s = 66%nat) by reflexivity.
  assert (H2 : exists_in (db (reschedule [false; false; true] st1)) "txs"
                 [("id", VString id_s)] = false) by (vm_compute; reflexivity).
  assert (H3 : exists_in (db (reschedule [false; false; true] st1)) "activations"
                 [("id", VString id_s)] = false) by (vm_compute; reflexivity).
  assert (H4 : nth 2 (faults (reschedule [false; false; true] st1)) false = true)
    by reflexivity.
  split; [exact H4|]. split; [vm_compute; reflexivity|].
  destruct (failed_probe_is_a_miss id_s (reschedule [false; false; true] st1) [] H1 H2 H3 H4)
    as (_ & _ & Hnf & _).
  split; [exact Hnf|]. vm_compute. reflexivity.
Defined.

(* ===================================================================== *)
(** ** The restart loop *)
(* ===================================================================== *)

Import Supervisor.

Lemma live_sync_restarts :
  live_sync ≈
  ITree.bind (ITree.trigger Run) (fun err =>
    match err with
    | Some e =>
        ITree.bind (ITree.trigger (Println e)) (fun _ =>
        ITree.bind (ITree.trigger (Sleep (5 * Second))) (fun _ => live_sync))
    | None => live_sync
    end).
Proof.
  unfold live_sync at 1. rewrite unfold_forever. unfold attempt.
  rewrite bind_bind.
  eapply eutt_clo_bind; [reflexivity|]. intros u1 u2 <-.
  destruct u1 as [e|].
  - rewrite bind_bind. eapply eutt_clo_bind; [reflexivity|]. intros [] [] _.
    eapply eutt_clo_bind; [reflexivity|]. intros [] [] _.
    rewrite tau_eutt. reflexivity.
  - rewrite bind_ret_l, tau_eutt. reflexivity.
Qed.

Lemma drive_live_sync (script : list (option error)) :
  forall fuel : nat,
    (4 * length script < fuel)%nat ->
    drive fuel script live_sync = (flat_map backoff script, CallingRun).
Proof.
  induction script as [|o script IH]; intros fuel Hfuel.
  - destruct fuel as [|fuel]; [simpl in Hfuel; lia|]. reflexivity.
  - simpl length in Hfuel.
    do 4 (destruct fuel as [|fuel]; [lia|]).
    destruct o as [e|].
    + change (drive (S (S (S (S fuel)))) (Some e :: script) live_sync)
        with (let (evs1, st1) :=
                let (evs2, st2) :=
                  let (evs3, st3) := drive fuel script live_sync in
                  (EvSleep (5 * Second) :: evs3, st3) in
                (EvPrintln e :: evs2, st2) in
              (EvRun (Some e) :: evs1, st1)).
      rewrite IH by lia. reflexivity.
    + change (drive (S (S (S (S fuel)))) (None :: script) live_sync)
        with (let (evs, st) := drive (S (S fuel)) script live_sync in
              (EvRun None :: evs, st)).
      rewrite IH by lia. reflexivity.
Qed.

(** C9. The supervisor runs the sync loop for ever. After a run it runs
    again; after a run that returned an error, whichever error, it first
    prints it and sleeps five seconds. For every sequence of results of
    the successive runs, given fuel enough, the loop has performed exactly
    those runs with their prints and sleeps and stands at the next call of
    the run: it has not stopped. *)
Theorem live_sync_for_ever :
  forall (script : list (option error)) (fuel : nat),
    (4 * length script < fuel)%nat ->
    drive fuel script live_sync = (flat_map backoff script, CallingRun)
    /\ live_sync ≈
       ITree.bind (ITree.trigger Run) (fun err =>
         match err with
         | Some e =>
             ITree.bind (ITree.trigger (Println e)) (fun _ =>
             ITree.bind (ITree.trigger (Sleep (5 * Second))) (fun _ => live_sync))
         | None => live_sync
         end).
Proof.
  intros script fuel Hfuel. split.
  - apply drive_live_sync, Hfuel.
  - apply live_sync_restarts.
Qed.

Lemma live_sync_for_ever_witness :
  (4 * length [Some ErrDeadline; None; Some (ErrNew "node unreachable")] < 13)%nat
  /\ drive 13 [Some ErrDeadline; None; Some (ErrNew "node unreachable")] live_sync =
     ([EvRun (Some ErrDeadline); EvPrintln ErrDeadline; EvSleep 5000000000;
       EvRun None;
       EvRun (Some (ErrNew "node unreachable")); EvPrintln (ErrNew "node unreachable");
       EvSleep 5000000000], CallingRun).
Proof.
  assert (H : (4 * length [Some ErrDeadline; None; Some (ErrNew "node unreachable")] < 13)%nat)
    by (simpl; lia).
  split; [exact H|].
  exact (proj1 (live_sync_for_ever _ 13%nat H)).
Defined.

(* ===================================================================== *)
(** ** Writes: the insert and the update *)
(* ===================================================================== *)

Lemma ensureID_run doc s :
  db (snd (ensureID doc s)) = db s
  /\ faults (snd (ensureID doc s)) = faults s
  /\ (forall key, key <> "_id" -> Lookup key (fst (ensureID doc s)) = Lookup key doc).
Proof.
  unfold ensureID. destruct (Lookup "_id" doc); simpl; repeat split; auto.
  intros key Hkey. rewrite bool_decide_eq_false_2 by congruence. reflexivity.
Qed.

Lemma InsertOne_run coll doc s :
  InsertOne coll doc s =
  let e := ensureID doc s in
  let s2 := issued (OpInsertOne coll) (snd e) in
  if hd false (faults s) then (Some ErrDeadline, s2)
  else match violated (unique_indexes (db s) coll) (Collection (db s) coll) (fst e) with
       | Some ix => (Some (ErrDuplicateKey coll (ixName ix)), s2)
       | None =>
           (None, snd (with_db (set_collection coll (Collection (db s) coll ++ [fst e])) s2))
       end.
Proof.
  destruct (ensureID_run doc s) as (Hdb & Hfs & _).
  rewrite <- Hfs, <- Hdb.
  unfold InsertOne, issued. cbv zeta. rewrite !bind_run.
  set (s2 := snd (issue (OpInsertOne coll) (snd (ensureID doc s)))).
  change (fst (issue (OpInsertOne coll) (snd (ensureID doc s))))
    with (hd false (faults (snd (ensureID doc s)))).
  destruct (hd false (faults (snd (ensureID doc s)))); [reflexivity|].
  rewrite !bind_run.
  change (fst (read_db s2)) with (db (snd (ensureID doc s))).
  change (snd (read_db s2)) with s2.
  destruct (violated _ _ _); [reflexivity|].
  rewrite bind_run. reflexivity.
Qed.

Lemma UpdateOne_run coll filter_ set_ s :
  UpdateOne coll filter_ set_ s =
  let s1 := issued (OpUpdateOne coll) s in
  if hd false (faults s) then (Some ErrDeadline, s1)
  else match split_first filter_ (Collection (db s) coll) with
       | None => (None, s1)
       | Some (pre, x, post) =>
           match violated (unique_indexes (db s) coll) (pre ++ post) (apply_set set_ x) with
           | Some ix => (Some (ErrDuplicateKey coll (ixName ix)), s1)
           | None =>
               (None, snd (with_db (set_collection coll (pre ++ apply_set set_ x :: post)) s1))
           end
       end.
Proof.
  unfold UpdateOne, issued. cbv zeta. rewrite !bind_run.
  set (s1 := snd (issue (OpUpdateOne coll) s)).
  change (fst (issue (OpUpdateOne coll) s)) with (hd false (faults s)).
  destruct (hd false (faults s)); [reflexivity|].
  rewrite !bind_run.
  change (fst (read_db s1)) with (db s).
  change (snd (read_db s1)) with s1.
  destruct (split_first _ _) as [[[pre x] post]|]; [|reflexivity].
  destruct (violated _ _ _); [reflexivity|].
  rewrite bind_run. reflexivity.
Qed.

Lemma Collection_set_eq name docs d :
  Collection (set_collection name docs d) name = docs.
Proof. unfold Collection, set_collection. simpl. rewrite lookup_insert_eq. reflexivity. Qed.

Lemma Collection_set_ne name name' docs d :
  name <> name' -> Collection (set_collection name docs d) name' = Collection d name'.
Proof.
  intros H. unfold Collection, set_collection. simpl.
  rewrite lookup_insert_ne by exact H. reflexivity.
Qed.

Lemma IndexesOf_set_collection name docs d name' :
  IndexesOf (set_collection name docs d) name' = IndexesOf d name'.
Proof. reflexivity. Qed.

(** A unique index with the key already taken refuses the insert; a
    failed call refuses it as well. Either way the database is as
    before. *)
Lemma InsertOne_refused coll doc s ix :
  In ix (IndexesOf (db s) coll) ->
  ixUnique ix = true ->
  ixKey ix <> "_id" ->
  existsb (fun d => bool_decide (Lookup (ixKey ix) d = Lookup (ixKey ix) doc))
          (Collection (db s) coll) = true ->
  fst (InsertOne coll doc s) <> None /\ db (snd (InsertOne coll doc s)) = db s.
Proof.
  intros Hin Huniq Hkey Htaken. rewrite InsertOne_run. cbv zeta.
  destruct (ensureID_run doc s) as (Hdb & _ & Hlk).
  destruct (hd false (faults s)); cbn [fst snd]; [split; [discriminate|exact Hdb]|].
  destruct (violated _ _ _) as [ix'|] eqn:Hv; cbn [fst snd];
    [split; [discriminate|exact Hdb]|].
  exfalso. unfold violated in Hv.
  assert (Hin' : In ix (unique_indexes (db s) coll)).
  { unfold unique_indexes. apply filter_In. split; [right; exact Hin|exact Huniq]. }
  pose proof (find_none _ _ Hv ix Hin') as Hf. cbv beta in Hf.
  rewrite (Hlk _ Hkey) in Hf. congruence.
Qed.

Lemma InsertOne_cases coll doc s :
  (fst (InsertOne coll doc s) <> None /\ db (snd (InsertOne coll doc s)) = db s)
  \/ (fst (InsertOne coll doc s) = None
      /\ hd false (faults s) = false
      /\ db (snd (InsertOne coll doc s)) =
         set_collection coll (Collection (db s) coll ++ [fst (ensureID doc s)]) (db s)).
Proof.
  rewrite InsertOne_run. cbv zeta.
  destruct (ensureID_run doc s) as (Hdb & _ & _).
  destruct (hd false (faults s)); cbn [fst snd]; [left; split; [discriminate|exact Hdb]|].
  destruct (violated _ _ _); cbn [fst snd]; [left; split; [discriminate|exact Hdb]|].
  right. split; [reflexivity|]. split; [reflexivity|].
  unfold with_db, issued. cbn [fst snd db issue]. rewrite Hdb. reflexivity.
Qed.

Lemma InsertOne_faults coll doc s :
  faults (snd (InsertOne coll doc s)) = tl (faults s).
Proof.
  rewrite InsertOne_run. cbv zeta.
  destruct (ensureID_run doc s) as (_ & Hfs & _).
  destruct (hd false (faults s)); cbn [fst snd];
    [unfold issued; cbn [snd issue faults]; congruence|].
  destruct (violated _ _ _); unfold with_db, issued; cbn [fst snd issue faults];
    congruence.
Qed.

(* ===================================================================== *)
(** ** Saving a smesher *)
(* ===================================================================== *)

Lemma SaveSmesher_run i s :
  SaveSmesher i s =
  (match fst (InsertOne "smeshers" (smesher_doc i) s) with
   | Some e => Some (ErrWrap "error save smesher" e)
   | None => None
   end,
   snd (InsertOne "smeshers" (smesher_doc i) s)).
Proof.
  unfold SaveSmesher. rewrite bind_run.
  destruct (fst (InsertOne "smeshers" (smesher_doc i) s)); reflexivity.
Qed.

Lemma SaveSmesher_taken i s :
  In idIndex (IndexesOf (db s) "smeshers") ->
  id_taken (db s) (Id i) = true ->
  (exists e, fst (SaveSmesher i s) = Some (ErrWrap "error save smesher" e))
  /\ db (snd (SaveSmesher i s)) = db s.
Proof.
  intros Hix Htaken. rewrite SaveSmesher_run. cbn [fst snd].
  destruct (InsertOne_refused "smeshers" (smesher_doc i) s idIndex Hix)
    as [Herr Hdb]; [reflexivity|discriminate|exact Htaken|].
  split; [|exact Hdb].
  destruct (fst (InsertOne "smeshers" (smesher_doc i) s)) as [e|]; [eauto|congruence].
Qed.

Lemma existsb_last {A} (f : A -> bool) (l : list A) (x : A) :
  f x = true -> existsb f (l ++ [x]) = true.
Proof.
  intros H. rewrite existsb_app. simpl. rewrite H.
  destruct (existsb f l); reflexivity.
Qed.

(** C2, as the spec states it, fails: with the indexes created, the first
    save of a smesher succeeds and the second one returns an error. *)
Lemma second_save_is_an_error : ~ save_is_upsert sm1 st0.
Proof.
  unfold save_is_upsert. intros H.
  destruct H as [H _]; [vm_compute; reflexivity|].
  vm_compute in H. discriminate H.
Qed.

(** C2, as amended. With the unique index on the smesher id in place,
    saving a smesher that has just been saved leaves the database exactly
    as the first save left it, and returns an error (the wrapped
    duplicate-key or deadline error of the insert): the write is an insert
    under a unique key, not an upsert. *)
Theorem SaveSmesher_twice :
  forall (i : Smesher) (s : Storage),
    In idIndex (IndexesOf (db s) "smeshers") ->
    fst (SaveSmesher i s) = None ->
    (exists e, fst (SaveSmesher i (snd (SaveSmesher i s))) =
               Some (ErrWrap "error save smesher" e))
    /\ db (snd (SaveSmesher i (snd (SaveSmesher i s)))) = db (snd (SaveSmesher i s)).
Proof.
  intros i s Hix Hok.
  assert (Hdb : db (snd (SaveSmesher i s)) =
                set_collection "smeshers"
                  (Collection (db s) "smeshers" ++ [fst (ensureID (smesher_doc i) s)]) (db s)).
  { rewrite SaveSmesher_run in Hok |- *. cbn [fst snd] in Hok |- *.
    destruct (InsertOne_cases "smeshers" (smesher_doc i) s) as [[Herr _]|(_ & _ & Hdb)];
      [|exact Hdb].
    destruct (fst (InsertOne "smeshers" (smesher_doc i) s)); [discriminate|congruence]. }
  apply SaveSmesher_taken.
  - rewrite Hdb, IndexesOf_set_collection. exact Hix.
  - unfold id_taken. rewrite Hdb, Collection_set_eq.
    apply existsb_last. apply bool_decide_eq_true_2.
    destruct (ensureID_run (smesher_doc i) s) as (_ & _ & Hlk).
    rewrite Hlk by discriminate. reflexivity.
Qed.

Lemma SaveSmesher_twice_witness :
  In idIndex (IndexesOf (db st0) "smeshers")
  /\ fst (SaveSmesher sm1 st0) = None
  /\ db (snd (SaveSmesher sm1 (snd (SaveSmesher sm1 st0)))) = db (snd (SaveSmesher sm1 st0)).
Proof.
  assert (Hix : In idIndex (IndexesOf (db st0) "smeshers")) by (left; reflexivity).
  assert (Hok : fst (SaveSmesher sm1 st0) = None) by reflexivity.
  split; [exact Hix|]. split; [exact Hok|].
  exact (proj2 (SaveSmesher_twice sm1 st0 Hix Hok)).
Defined.

(* ===================================================================== *)
(** ** Updating a smesher *)
(* ===================================================================== *)

Lemma UpdateOne_cases coll filter_ set_ s :
  let upd := UpdateOne coll filter_ set_ s in
  (fst upd <> None /\ db (snd upd) = db s)
  \/ (fst upd = None /\ split_first filter_ (Collection (db s) coll) = None
      /\ db (snd upd) = db s)
  \/ (fst upd = None /\ hd false (faults s) = false /\
      exists pre x post,
        split_first filter_ (Collection (db s) coll) = Some (pre, x, post)
        /\ db (snd upd) = set_collection coll (pre ++ apply_set set_ x :: post) (db s)).
Proof.
  cbv zeta. rewrite UpdateOne_run. cbv zeta.
  destruct (hd false (faults s)); cbn [fst snd]; [left; split; [discriminate|reflexivity]|].
  destruct (split_first _ _) as [[[pre x] post]|]; cbn [fst snd];
    [|right; left; auto].
  destruct (violated _ _ _); cbn [fst snd]; [left; split; [discriminate|reflexivity]|].
  right. right. split; [reflexivity|]. split; [reflexivity|].
  exists pre, x, post. split; reflexivity.
Qed.

Lemma counted_run smesher s1 :
  fst (counted smesher s1) =
    (if hd false (faults s1) then 0
     else count_in (db s1) "activations" [("smesher", VString smesher)])
  /\ db (snd (counted smesher s1)) = db s1.
Proof.
  unfold counted. cbv zeta. rewrite CountDocuments_run. cbn [fst snd].
  destruct (hd false (faults s1)); cbn [fst snd]; split; reflexivity.
Qed.

Lemma UpdateSmesher_run smesher coinbase space timestamp s :
  UpdateSmesher smesher coinbase space timestamp s =
  let ins := InsertOne "coinbases" (coinbase_doc smesher coinbase) s in
  match fst ins with
  | Some e => (Some (ErrWrap "error insert smesher into `coinbases`" e), snd ins)
  | None =>
      let c := counted smesher (snd ins) in
      let upd := UpdateOne "smeshers" [("id", VString smesher)]
                   (smesher_update space coinbase (fst c) timestamp) (snd c) in
      (fst upd,
       match fst upd with
       | Some e => snd (log_Info "UpdateSmesher: %v" [e] (snd upd))
       | None => snd upd
       end)
  end.
Proof.
  unfold UpdateSmesher, counted, coinbase_doc, smesher_update. cbv zeta.
  rewrite bind_run.
  destruct (fst (InsertOne _ _ s)); [reflexivity|].
  rewrite !bind_run.
  set (cnt := CountDocuments "activations" [("smesher", VString smesher)] _).
  destruct (snd (fst cnt)); cbn [fst snd].
  - set (upd := UpdateOne _ _ _ _). destruct (fst upd); reflexivity.
  - set (upd := UpdateOne _ _ _ _). destruct (fst upd); reflexivity.
Qed.

Lemma db_after_log format args s : db (snd (log_Info format args s)) = db s.
Proof. reflexivity. Qed.


Lemma coinbase_doc_matches smesher coinbase s :
  matches (coinbase_doc smesher coinbase)
          (fst (ensureID (coinbase_doc smesher coinbase) s)) = true.
Proof.
  destruct (ensureID_run (coinbase_doc smesher coinbase) s) as (_ & _ & Hlk).
  pose proof (Hlk "address" ltac:(discriminate)) as Ha.
  pose proof (Hlk "smesher" ltac:(discriminate)) as Hs.
  set (d := fst (ensureID (coinbase_doc smesher coinbase) s)) in *.
  clearbody d. unfold matches, coinbase_doc in *. simpl in *.
  rewrite Ha, Hs. rewrite !bool_decide_eq_true_2; reflexivity.
Qed.

(** What a call that got past the insert leaves behind. *)
Lemma UpdateSmesher_inserted smesher coinbase space timestamp s :
  fst (InsertOne "coinbases" (coinbase_doc smesher coinbase) s) = None ->
  let r := UpdateSmesher smesher coinbase space timestamp s in
  Collection (db (snd r)) "coinbases" =
    (Collection (db s) "coinbases" ++ [fst (ensureID (coinbase_doc smesher coinbase) s)])%list
  /\ IndexesOf (db (snd r)) "coinbases" = IndexesOf (db s) "coinbases"
  /\ (fst r <> None -> Collection (db (snd r)) "smeshers" = Collection (db s) "smeshers").
Proof.
  intros Hins. cbv zeta. rewrite UpdateSmesher_run. cbv zeta. rewrite Hins.
  destruct (InsertOne_cases "coinbases" (coinbase_doc smesher coinbase) s)
    as [[Herr _]|(_ & _ & Hdb1)]; [congruence|].
  set (s1 := snd (InsertOne "coinbases" (coinbase_doc smesher coinbase) s)) in *.
  destruct (counted_run smesher s1) as [_ Hdb2].
  set (c := counted smesher s1) in *.
  set (upd := UpdateOne "smeshers" [("id", VString smesher)]
                (smesher_update space coinbase (fst c) timestamp) (snd c)).
  assert (Hfinal : db (snd (fst upd,
                     match fst upd with
                     | Some e => snd (log_Info "UpdateSmesher: %v" [e] (snd upd))
                     | None => snd upd
                     end)) = db (snd upd)).
  { cbn [snd]. destruct (fst upd); reflexivity. }
  rewrite Hfinal. cbn [fst].
  destruct (UpdateOne_cases "smeshers" [("id", VString smesher)]
              (smesher_update space coinbase (fst c) timestamp) (snd c))
    as [[Herr Hdb3]|[(Hok & _ & Hdb3)|(Hok & _ & pre & x & post & _ & Hdb3)]];
    fold upd in Herr || fold upd in Hok; fold upd in Hdb3;
    rewrite Hdb3, Hdb2, Hdb1.
  - rewrite Collection_set_eq, Collection_set_ne by discriminate. auto.
  - rewrite Collection_set_eq, Collection_set_ne by discriminate. auto.
  - rewrite Collection_set_ne by discriminate.
    rewrite Collection_set_eq. split; [reflexivity|]. split; [reflexivity|].
    intros Hne. congruence.
Qed.




(* ===================================================================== *)
(** ** The activation count written by an update *)
(* ===================================================================== *)

Lemma Lookup_set_field_eq key v d : Lookup key (set_field key v d) = Some v.
Proof.
  induction d as [|[k v0] d IH]; simpl.
  - rewrite bool_decide_eq_true_2; reflexivity.
  - destruct (bool_decide (k = key)) eqn:E; simpl; rewrite E; [reflexivity|exact IH].
Qed.

Lemma Lookup_set_field_ne key key' v d :
  key <> key' -> Lookup key' (set_field key v d) = Lookup key' d.
Proof.
  intros Hne. induction d as [|[k v0] d IH]; simpl.
  - rewrite bool_decide_eq_false_2 by exact Hne. reflexivity.
  - destruct (bool_decide (k = key)) eqn:E; simpl.
    + apply bool_decide_eq_true_1 in E. subst k.
      rewrite bool_decide_eq_false_2 by exact Hne. reflexivity.
    + destruct (bool_decide (k = key')); [reflexivity|exact IH].
Qed.

Lemma smesher_update_atxcount space coinbase atxCount timestamp d :
  Lookup "atxcount" (apply_set (smesher_update space coinbase atxCount timestamp) d) =
  Some (VInt atxCount).
Proof.
  unfold apply_set, smesher_update. cbn [fold_left fst snd].
  rewrite Lookup_set_field_ne by discriminate.
  apply Lookup_set_field_eq.
Qed.

Lemma smesher_update_id space coinbase atxCount timestamp d :
  Lookup "id" (apply_set (smesher_update space coinbase atxCount timestamp) d) =
  Lookup "id" d.
Proof.
  unfold apply_set, smesher_update. cbn [fold_left fst snd].
  rewrite !Lookup_set_field_ne by discriminate. reflexivity.
Qed.

Lemma matches_id id d d' :
  Lookup "id" d' = Lookup "id" d ->
  matches [("id", VString id)] d' = matches [("id", VString id)] d.
Proof. intros H. unfold matches. cbn [forallb fst snd]. rewrite H. reflexivity. Qed.

Lemma split_first_None query docs :
  split_first query docs = None -> List.find (matches query) docs = None.
Proof.
  induction docs as [|d docs IH]; simpl; [reflexivity|].
  destruct (matches query d); [discriminate|].
  destruct (split_first query docs) as [[[pre x] post]|]; [discriminate|].
  intros _. apply IH. reflexivity.
Qed.

Lemma split_first_Some query docs pre x post x' :
  split_first query docs = Some (pre, x, post) ->
  matches query x' = true ->
  List.find (matches query) (pre ++ x' :: post) = Some x'.
Proof.
  revert pre. induction docs as [|d docs IH]; simpl; intros pre H Hx'; [discriminate|].
  destruct (matches query d) eqn:Hd.
  - injection H as <- <- <-. simpl. rewrite Hx'. reflexivity.
  - destruct (split_first query docs) as [[[pre0 x0] post0]|]; [|discriminate].
    injection H as <- <- <-. simpl. rewrite Hd. apply IH; auto.
Qed.

Lemma split_first_matches query docs pre x post :
  split_first query docs = Some (pre, x, post) -> matches query x = true.
Proof.
  revert pre. induction docs as [|d docs IH]; simpl; intros pre H; [discriminate|].
  destruct (matches query d) eqn:Hd.
  - injection H as <- <- <-. exact Hd.
  - destruct (split_first query docs) as [[[pre0 x0] post0]|]; [|discriminate].
    injection H as <- <- <-. eapply IH. reflexivity.
Qed.

Lemma hd_tl (l : list bool) : hd false (tl l) = nth 1 l false.
Proof. destruct l as [|a [|b l]]; reflexivity. Qed.

(** C3, as the spec states it, fails: with two activations stored and the
    count of them failing, the call succeeds and writes 0. *)
Lemma failed_count_writes_zero :
  ~ atxcount_recomputed id_s "cb1" 200 7 (reschedule [false; true; false] st1).
Proof.
  unfold atxcount_recomputed. intros H.
  assert (Hok : fst (UpdateSmesher id_s "cb1" 200 7 (reschedule [false; true; false] st1)) = None)
    by (vm_compute; reflexivity).
  specialize (H Hok).
  destruct (smesher_record
              (db (snd (UpdateSmesher id_s "cb1" 200 7 (reschedule [false; true; false] st1))))
              id_s) as [doc|] eqn:E.
  - specialize (H doc eq_refl). vm_compute in E. injection E as <-.
    vm_compute in H. discriminate H.
  - vm_compute in E. discriminate E.
Qed.

(** C3, as amended. After every successful [UpdateSmesher] call whose
    count of the activations did not fail, the atxcount field of the
    smesher record of that id is the number of documents of the
    activations collection whose smesher field is that id: it is counted
    anew, not incremented. *)
Theorem UpdateSmesher_atxcount :
  forall (smesher coinbase : string) (space timestamp : Z) (s : Storage),
    nth 1 (faults s) false = false ->
    fst (UpdateSmesher smesher coinbase space timestamp s) = None ->
    forall doc : Doc,
      smesher_record (db (snd (UpdateSmesher smesher coinbase space timestamp s))) smesher
        = Some doc ->
      Lookup "atxcount" doc =
      Some (VInt (count_in (db s) "activations" [("smesher", VString smesher)])).
Proof.
  intros smesher coinbase space timestamp s Hcount.
  rewrite UpdateSmesher_run. cbv zeta.
  destruct (fst (InsertOne "coinbases" (coinbase_doc smesher coinbase) s)) as [e|] eqn:Hins;
    [discriminate|].
  destruct (InsertOne_cases "coinbases" (coinbase_doc smesher coinbase) s)
    as [[Herr _]|(_ & _ & Hdb1)]; [congruence|].
  pose proof (InsertOne_faults "coinbases" (coinbase_doc smesher coinbase) s) as Hfs.
  set (s1 := snd (InsertOne "coinbases" (coinbase_doc smesher coinbase) s)) in *.
  destruct (counted_run smesher s1) as [Hc Hdb2].
  rewrite Hfs, hd_tl, Hcount in Hc.
  assert (Hc' : fst (counted smesher s1) =
                count_in (db s) "activations" [("smesher", VString smesher)]).
  { rewrite Hc. unfold count_in. rewrite Hdb1, Collection_set_ne by discriminate.
    reflexivity. }
  clear Hc. set (c := counted smesher s1) in *.
  destruct (UpdateOne_cases "smeshers" [("id", VString smesher)]
              (smesher_update space coinbase (fst c) timestamp) (snd c))
    as [[Herr Hdb3]|[(Hok & Hnone & Hdb3)|(Hok & _ & pre & x & post & Hsplit & Hdb3)]];
    set (upd := UpdateOne "smeshers" [("id", VString smesher)]
                  (smesher_update space coinbase (fst c) timestamp) (snd c)) in *;
    cbn [fst snd]; intros Hret doc Hrec.
  - congruence.
  - rewrite Hok in Hrec. unfold smesher_record in Hrec. rewrite Hdb3 in Hrec.
    rewrite (split_first_None _ _ Hnone) in Hrec. discriminate.
  - rewrite Hok in Hrec. unfold smesher_record in Hrec.
    rewrite Hdb3, Collection_set_eq in Hrec.
    rewrite (split_first_Some _ _ _ _ _ _ Hsplit) in Hrec.
    + assert (Hdoc : apply_set (smesher_update space coinbase (fst c) timestamp) x = doc)
        by congruence.
      rewrite <- Hdoc, smesher_update_atxcount, Hc'. reflexivity.
    + rewrite (matches_id smesher x) by apply smesher_update_id.
      exact (split_first_matches _ _ _ _ _ Hsplit).
Qed.

Lemma UpdateSmesher_atxcount_witness :
  nth 1 (faults st1) false = false
  /\ fst (UpdateSmesher id_s "cb1" 200 7 st1) = None
  /\ exists doc,
       smesher_record (db (snd (UpdateSmesher id_s "cb1" 200 7 st1))) id_s = Some doc
       /\ Lookup "atxcount" doc = Some (VInt 2).
Proof.
  assert (Hcount : nth 1 (faults st1) false = false) by reflexivity.
  assert (Hok : fst (UpdateSmesher id_s "cb1" 200 7 st1) = None) by (vm_compute; reflexivity).
  split; [exact Hcount|]. split; [exact Hok|].
  destruct (smesher_record (db (snd (UpdateSmesher id_s "cb1" 200 7 st1))) id_s)
    as [doc|] eqn:E.
  - exists doc. split; [reflexivity|].
    exact (UpdateSmesher_atxcount id_s "cb1" 200 7 st1 Hcount Hok doc E).
  - vm_compute in E. discriminate E.
Defined.

(* ===================================================================== *)
(** ** Creating the indexes *)
(* ===================================================================== *)

Lemma skipn_own_length {A} (l l' : list A) : skipn (length l) (l ++ l') = l'.
Proof. induction l as [|x l IH]; simpl; [reflexivity|exact IH]. Qed.

Lemma issued_by_trace {A} (m : M A) s ops :
  trace (snd (m s)) = (trace s ++ ops)%list -> issued_by m s = ops.
Proof. intros H. unfold issued_by. rewrite H. apply skipn_own_length. Qed.


Lemma CreateOne_run coll ix s :
  CreateOne coll ix s =
  let s1 := issued (OpCreateIndex coll) s in
  if hd false (faults s) then ((EmptyString, Some ErrDeadline), s1)
  else match named (ixName ix) (IndexesOf (db s) coll) with
       | Some ix' =>
           if bool_decide (ix' = ix) then ((ixName ix, None), s1)
           else ((EmptyString, Some (ErrIndexConflict coll (ixName ix))), s1)
       | None =>
           if ixUnique ix && negb (distinct_on (ixKey ix) (Collection (db s) coll))
           then ((EmptyString, Some (ErrDuplicateKey coll (ixName ix))), s1)
           else ((ixName ix, None),
                 snd (with_db (set_indexes coll (IndexesOf (db s) coll ++ [ix])) s1))
       end.
Proof.
  unfold CreateOne, issued, named. cbv zeta. rewrite !bind_run.
  set (s1 := snd (issue (OpCreateIndex coll) s)).
  change (fst (issue (OpCreateIndex coll) s)) with (hd false (faults s)).
  destruct (hd false (faults s)); [reflexivity|].
  rewrite !bind_run.
  change (fst (read_db s1)) with (db s).
  change (snd (read_db s1)) with s1.
  destruct (List.find _ _) as [ix'|].
  - destruct (bool_decide (ix' = ix)); reflexivity.
  - destruct (ixUnique ix && negb (distinct_on (ixKey ix) (Collection (db s) coll)));
      [reflexivity|].
    rewrite bind_run. reflexivity.
Qed.

Lemma IndexesOf_set_eq coll ixs d : IndexesOf (set_indexes coll ixs d) coll = ixs.
Proof. unfold IndexesOf, set_indexes. simpl. rewrite lookup_insert_eq. reflexivity. Qed.

Lemma IndexesOf_set_ne coll coll' ixs d :
  coll <> coll' -> IndexesOf (set_indexes coll ixs d) coll' = IndexesOf d coll'.
Proof.
  intros H. unfold IndexesOf, set_indexes. simpl.
  rewrite lookup_insert_ne by exact H. reflexivity.
Qed.

Lemma Collection_set_indexes coll ixs d name :
  Collection (set_indexes coll ixs d) name = Collection d name.
Proof. reflexivity. Qed.

Lemma named_In name ixs ix : named name ixs = Some ix -> In ix ixs.
Proof. intros H. apply (find_some _ _ H). Qed.

Lemma named_last ix ixs :
  named (ixName ix) ixs = None -> named (ixName ix) (ixs ++ [ix]) = Some ix.
Proof.
  unfold named. induction ixs as [|a l IH]; simpl.
  - rewrite bool_decide_eq_true_2; reflexivity.
  - destruct (bool_decide (ixName a = ixName ix)); [discriminate|exact IH].
Qed.

Lemma CreateOne_cases coll ix s :
  let r := CreateOne coll ix s in
  trace (snd r) = (trace s ++ [OpCreateIndex coll])%list
  /\ faults (snd r) = tl (faults s)
  /\ ((snd (fst r) <> None /\ db (snd r) = db s)
      \/ (snd (fst r) = None /\ hd false (faults s) = false
          /\ named (ixName ix) (IndexesOf (db s) coll) = Some ix /\ db (snd r) = db s)
      \/ (snd (fst r) = None /\ hd false (faults s) = false
          /\ named (ixName ix) (IndexesOf (db s) coll) = None
          /\ (ixUnique ix = true -> distinct_on (ixKey ix) (Collection (db s) coll) = true)
          /\ db (snd r) = set_indexes coll (IndexesOf (db s) coll ++ [ix]) (db s))).
Proof.
  cbv zeta. rewrite CreateOne_run. cbv zeta.
  destruct (hd false (faults s)); cbn [fst snd].
  { repeat split. left. split; [discriminate|reflexivity]. }
  destruct (named (ixName ix) (IndexesOf (db s) coll)) as [ix'|] eqn:Hn.
  - destruct (bool_decide (ix' = ix)) eqn:E; cbn [fst snd]; repeat split.
    + apply bool_decide_eq_true_1 in E. subst ix'. right. left. auto.
    + left. split; [discriminate|reflexivity].
  - destruct (ixUnique ix && negb (distinct_on (ixKey ix) (Collection (db s) coll))) eqn:E;
      cbn [fst snd]; repeat split.
    + left. split; [discriminate|reflexivity].
    + right. right. repeat split. intros Hu. rewrite Hu in E. simpl in E.
      destruct (distinct_on (ixKey ix) (Collection (db s) coll)); [reflexivity|discriminate].
Qed.

Lemma InitSmeshersStorage_run s :
  InitSmeshersStorage s =
  let r1 := CreateOne "smeshers" idIndex s in
  match snd (fst r1) with
  | Some err => (Some (ErrWrap "error init `smeshers` collection" err), snd r1)
  | None =>
      let r2 := CreateOne "coinbases" addressIndex (snd r1) in
      match snd (fst r2) with
      | Some err => (Some (ErrWrap "error init `coinbases` collection" err), snd r2)
      | None => (None, snd r2)
      end
  end.
Proof.
  unfold InitSmeshersStorage. cbv zeta. rewrite bind_run.
  fold idIndex.
  destruct (snd (fst (CreateOne "smeshers" idIndex s))); [reflexivity|].
  rewrite bind_run. fold addressIndex.
  destruct (snd (fst (CreateOne "coinbases" addressIndex _))); reflexivity.
Qed.

(** X1. On a database where no index has been created on the two
    collections, a successful [InitSmeshersStorage] leaves the documents
    as they are and both unique indexes in place, and it can only succeed
    when the smeshers have distinct ids and the coinbase entries distinct
    addresses. *)
Theorem InitSmeshersStorage_establishes :
  forall s : Storage,
    IndexesOf (db s) "smeshers" = [] ->
    IndexesOf (db s) "coinbases" = [] ->
    fst (InitSmeshersStorage s) = None ->
    store_unique (db (snd (InitSmeshersStorage s)))
    /\ collections (db (snd (InitSmeshersStorage s))) = collections (db s).
Proof.
  intros s Hsm Hcb. rewrite InitSmeshersStorage_run. cbv zeta.
  destruct (CreateOne_cases "smeshers" idIndex s) as (_ & _ & H1). cbv zeta in H1.
  set (r1 := CreateOne "smeshers" idIndex s) in *.
  destruct (snd (fst r1)) as [e|] eqn:E1; [discriminate|].
  destruct H1 as [[H _]|[(_ & _ & Hn & _)|(_ & _ & _ & Hd1 & Hdb1)]];
    [congruence| rewrite Hsm in Hn; discriminate |].
  destruct (CreateOne_cases "coinbases" addressIndex (snd r1)) as (_ & _ & H2).
  cbv zeta in H2.
  set (r2 := CreateOne "coinbases" addressIndex (snd r1)) in *.
  destruct (snd (fst r2)) as [e|] eqn:E2; [discriminate|].
  intros _. cbn [snd].
  assert (Hcb1 : IndexesOf (db (snd r1)) "coinbases" = []).
  { rewrite Hdb1, IndexesOf_set_ne by discriminate. exact Hcb. }
  destruct H2 as [[H _]|[(_ & _ & Hn & _)|(_ & _ & _ & Hd2 & Hdb2)]];
    [congruence| rewrite Hcb1 in Hn; discriminate |].
  rewrite Hdb2, Hdb1. split; [|reflexivity].
  unfold store_unique.
  rewrite IndexesOf_set_ne, !IndexesOf_set_eq by discriminate.
  rewrite !Collection_set_indexes.
  rewrite Hdb1, Collection_set_indexes in Hd2.
  rewrite Hsm. repeat split.
  - left. reflexivity.
  - apply in_or_app. right. left. reflexivity.
  - apply Hd1. reflexivity.
  - apply Hd2. reflexivity.
Qed.

Lemma InitSmeshersStorage_establishes_witness :
  IndexesOf (db (boot empty_db 10 [])) "smeshers" = []
  /\ IndexesOf (db (boot empty_db 10 [])) "coinbases" = []
  /\ fst (InitSmeshersStorage (boot empty_db 10 [])) = None
  /\ store_unique (db st0).
Proof.
  assert (H1 : IndexesOf (db (boot empty_db 10 [])) "smeshers" = []) by reflexivity.
  assert (H2 : IndexesOf (db (boot empty_db 10 [])) "coinbases" = []) by reflexivity.
  assert (H3 : fst (InitSmeshersStorage (boot empty_db 10 [])) = None) by reflexivity.
  split; [exact H1|]. split; [exact H2|]. split; [exact H3|].
  exact (proj1 (InitSmeshersStorage_establishes (boot empty_db 10 []) H1 H2 H3)).
Defined.

Lemma CreateOne_present coll ix s :
  named (ixName ix) (IndexesOf (db s) coll) = Some ix ->
  db (snd (CreateOne coll ix s)) = db s
  /\ (hd false (faults s) = false -> snd (fst (CreateOne coll ix s)) = None).
Proof.
  intros Hn. rewrite CreateOne_run. cbv zeta. rewrite Hn.
  rewrite bool_decide_eq_true_2 by reflexivity.
  destruct (hd false (faults s)); cbn [fst snd]; split; auto; discriminate.
Qed.

Lemma InitSmeshersStorage_named s :
  fst (InitSmeshersStorage s) = None ->
  named "idIndex" (IndexesOf (db (snd (InitSmeshersStorage s))) "smeshers") = Some idIndex
  /\ named "addressIndex" (IndexesOf (db (snd (InitSmeshersStorage s))) "coinbases")
     = Some addressIndex.
Proof.
  rewrite InitSmeshersStorage_run. cbv zeta.
  destruct (CreateOne_cases "smeshers" idIndex s) as (_ & _ & H1). cbv zeta in H1.
  set (r1 := CreateOne "smeshers" idIndex s) in *.
  destruct (snd (fst r1)) as [e|] eqn:E1; [discriminate|].
  assert (Hn1 : named "idIndex" (IndexesOf (db (snd r1)) "smeshers") = Some idIndex).
  { destruct H1 as [[H _]|[(_ & _ & Hn & Hdb)|(_ & _ & Hn & _ & Hdb)]]; [congruence| |].
    - rewrite Hdb. exact Hn.
    - rewrite Hdb, IndexesOf_set_eq. apply (named_last idIndex). exact Hn. }
  destruct (CreateOne_cases "coinbases" addressIndex (snd r1)) as (_ & _ & H2).
  cbv zeta in H2.
  set (r2 := CreateOne "coinbases" addressIndex (snd r1)) in *.
  destruct (snd (fst r2)) as [e|] eqn:E2; [discriminate|].
  intros _. cbn [snd].
  destruct H2 as [[H _]|[(_ & _ & Hn & Hdb)|(_ & _ & Hn & _ & Hdb)]]; [congruence| |].
  - rewrite Hdb. split; [exact Hn1|exact Hn].
  - rewrite Hdb, IndexesOf_set_ne, IndexesOf_set_eq by discriminate.
    split; [exact Hn1|]. apply (named_last addressIndex). exact Hn.
Qed.

Lemma InitSmeshersStorage_present s :
  named "idIndex" (IndexesOf (db s) "smeshers") = Some idIndex ->
  named "addressIndex" (IndexesOf (db s) "coinbases") = Some addressIndex ->
  db (snd (InitSmeshersStorage s)) = db s
  /\ (hd false (faults s) = false -> nth 1 (faults s) false = false ->
      fst (InitSmeshersStorage s) = None).
Proof.
  intros Hn1 Hn2. rewrite InitSmeshersStorage_run. cbv zeta.
  destruct (CreateOne_present "smeshers" idIndex s Hn1) as [Hdb1 Hok1].
  destruct (CreateOne_cases "smeshers" idIndex s) as (_ & Hfs1 & _). cbv zeta in Hfs1.
  set (r1 := CreateOne "smeshers" idIndex s) in *.
  assert (Hn2' : named (ixName addressIndex) (IndexesOf (db (snd r1)) "coinbases")
                 = Some addressIndex) by (rewrite Hdb1; exact Hn2).
  destruct (CreateOne_present "coinbases" addressIndex (snd r1) Hn2') as [Hdb2 Hok2].
  set (r2 := CreateOne "coinbases" addressIndex (snd r1)) in *.
  split.
  - destruct (snd (fst r1)); cbn [snd]; [exact Hdb1|].
    destruct (snd (fst r2)); cbn [snd]; congruence.
  - intros Hf0 Hf1. rewrite (Hok1 Hf0).
    rewrite Hfs1, hd_tl in Hok2. rewrite (Hok2 Hf1). reflexivity.
Qed.

(** X2. Creating the indexes again is harmless: after a successful
    [InitSmeshersStorage], a further call, under any schedule of failures,
    leaves the database as it is, and it succeeds when its two driver
    calls do not fail. *)
Theorem InitSmeshersStorage_again :
  forall (s : Storage) (fs : list bool),
    fst (InitSmeshersStorage s) = None ->
    let s1 := snd (InitSmeshersStorage s) in
    db (snd (InitSmeshersStorage (reschedule fs s1))) = db s1
    /\ (hd false fs = false -> nth 1 fs false = false ->
        fst (InitSmeshersStorage (reschedule fs s1)) = None).
Proof.
  intros s fs Hok. cbv zeta.
  destruct (InitSmeshersStorage_named s Hok) as [Hn1 Hn2].
  exact (InitSmeshersStorage_present (reschedule fs (snd (InitSmeshersStorage s))) Hn1 Hn2).
Qed.

Lemma InitSmeshersStorage_again_witness :
  fst (InitSmeshersStorage (boot empty_db 10 [])) = None
  /\ db (snd (InitSmeshersStorage (reschedule [] st0))) = db st0
  /\ fst (InitSmeshersStorage (reschedule [] st0)) = None.
Proof.
  assert (H : fst (InitSmeshersStorage (boot empty_db 10 [])) = None) by reflexivity.
  split; [exact H|].
  destruct (InitSmeshersStorage_again (boot empty_db 10 []) [] H) as [Hdb Hok].
  split; [exact Hdb|]. apply Hok; reflexivity.
Defined.

(** X3. A failed [InitSmeshersStorage] stops at the call that failed and
    undoes nothing. Either the index on the smeshers could not be created:
    the error is wrapped as the smeshers error, the database is unchanged
    and the index on the coinbases was not attempted. Or the index on the
    coinbases could not be created: the error is wrapped as the coinbases
    error, and the index on the smeshers stays. *)
Theorem InitSmeshersStorage_failure :
  forall (s : Storage) (err : error),
    fst (InitSmeshersStorage s) = Some err ->
    (exists e, err = ErrWrap "error init `smeshers` collection" e
               /\ db (snd (InitSmeshersStorage s)) = db s
               /\ issued_by InitSmeshersStorage s = [OpCreateIndex "smeshers"])
    \/ (exists e, err = ErrWrap "error init `coinbases` collection" e
                  /\ In idIndex (IndexesOf (db (snd (InitSmeshersStorage s))) "smeshers")
                  /\ collections (db (snd (InitSmeshersStorage s))) = collections (db s)
                  /\ issued_by InitSmeshersStorage s =
                     [OpCreateIndex "smeshers"; OpCreateIndex "coinbases"]).
Proof.
  intros s err.
  assert (Htr : forall ops, trace (snd (InitSmeshersStorage s)) = (trace s ++ ops)%list ->
                            issued_by InitSmeshersStorage s = ops)
    by (intros ops; apply issued_by_trace).
  revert Htr. rewrite InitSmeshersStorage_run. cbv zeta.
  destruct (CreateOne_cases "smeshers" idIndex s) as (Htr1 & _ & H1). cbv zeta in Htr1, H1.
  set (r1 := CreateOne "smeshers" idIndex s) in *.
  destruct (snd (fst r1)) as [e|] eqn:E1; cbn [fst snd]; intros Htr Herr.
  - left. exists e. split; [congruence|]. split; [|apply Htr; exact Htr1].
    destruct H1 as [[_ H]|[(H & _)|(H & _)]]; [exact H|discriminate|discriminate].
  - destruct (CreateOne_cases "coinbases" addressIndex (snd r1)) as (Htr2 & _ & H2).
    cbv zeta in Htr2, H2.
    set (r2 := CreateOne "coinbases" addressIndex (snd r1)) in *.
    destruct (snd (fst r2)) as [e|] eqn:E2; cbn [fst snd] in *; [|discriminate].
    right. exists e. split; [congruence|].
    destruct H2 as [[_ Hdb2]|[(H & _)|(H & _)]]; [|discriminate|discriminate].
    rewrite Hdb2.
    assert (Hix : In idIndex (IndexesOf (db (snd r1)) "smeshers")
                  /\ collections (db (snd r1)) = collections (db s)).
    { destruct H1 as [[H _]|[(_ & _ & Hn & Hdb)|(_ & _ & Hn & _ & Hdb)]]; [congruence| |].
      - rewrite Hdb. split; [exact (named_In _ _ _ Hn)|reflexivity].
      - rewrite Hdb, IndexesOf_set_eq. split; [|reflexivity].
        apply in_or_app. right. left. reflexivity. }
    destruct Hix as [Hix Hcoll]. split; [exact Hix|]. split; [exact Hcoll|].
    apply Htr. rewrite Htr2, Htr1, <- app_assoc. reflexivity.
Qed.

Lemma InitSmeshersStorage_failure_witness :
  fst (InitSmeshersStorage (boot empty_db 10 [true])) =
    Some (ErrWrap "error init `smeshers` collection" ErrDeadline)
  /\ issued_by InitSmeshersStorage (boot empty_db 10 [false; true]) =
     [OpCreateIndex "smeshers"; OpCreateIndex "coinbases"].
Proof.
  assert (H1 : fst (InitSmeshersStorage (boot empty_db 10 [true])) =
               Some (ErrWrap "error init `smeshers` collection" ErrDeadline)) by reflexivity.
  assert (H2 : fst (InitSmeshersStorage (boot empty_db 10 [false; true])) =
               Some (ErrWrap "error init `coinbases` collection" ErrDeadline)) by reflexivity.
  split; [exact H1|].
  destruct (InitSmeshersStorage_failure _ _ H2) as [(e & He & _)|(e & _ & _ & _ & Htr)].
  - discriminate He.
  - exact Htr.
Defined.

(* ===================================================================== *)
(** ** The unique keys, kept by every write *)
(* ===================================================================== *)

Lemma matches_one key v d :
  matches [(key, v)] d = bool_decide (Lookup key d = Some v).
Proof. unfold matches. cbn [forallb fst snd]. apply andb_true_r. Qed.

Lemma existsb_keys key (o : option Value) (l l' : list Doc) :
  List.map (Lookup key) l = List.map (Lookup key) l' ->
  existsb (fun d => bool_decide (Lookup key d = o)) l =
  existsb (fun d => bool_decide (Lookup key d = o)) l'.
Proof.
  revert l'. induction l as [|d l IH]; intros [|d' l'] H; simpl in *; try discriminate.
  - reflexivity.
  - injection H as Hd Hl. rewrite Hd, (IH l' Hl). reflexivity.
Qed.

Lemma distinct_on_keys key (l l' : list Doc) :
  List.map (Lookup key) l = List.map (Lookup key) l' ->
  distinct_on key l = distinct_on key l'.
Proof.
  revert l'. induction l as [|d l IH]; intros [|d' l'] H; simpl in *; try discriminate.
  - reflexivity.
  - injection H as Hd Hl. rewrite Hd, (existsb_keys key _ l l' Hl), (IH l' Hl).
    reflexivity.
Qed.

Lemma distinct_on_snoc key (l : list Doc) (x : Doc) :
  distinct_on key l = true ->
  existsb (fun d => bool_decide (Lookup key d = Lookup key x)) l = false ->
  distinct_on key (l ++ [x]) = true.
Proof.
  induction l as [|d l IH]; simpl; intros Hd Hx; [reflexivity|].
  apply andb_true_iff in Hd. destruct Hd as [Hd1 Hd2].
  apply orb_false_iff in Hx. destruct Hx as [Hx1 Hx2].
  rewrite (IH Hd2 Hx2), andb_true_r.
  rewrite existsb_app. simpl. rewrite orb_false_r.
  apply negb_true_iff in Hd1. rewrite Hd1. simpl.
  apply negb_true_iff. apply bool_decide_eq_false_2.
  apply bool_decide_eq_false_1 in Hx1. congruence.
Qed.

Lemma violated_None ixs docs doc ix :
  violated ixs docs doc = None ->
  In ix ixs ->
  existsb (fun d => bool_decide (Lookup (ixKey ix) d = Lookup (ixKey ix) doc)) docs = false.
Proof. intros Hv Hin. exact (find_none _ _ Hv ix Hin). Qed.

Lemma unique_indexes_In d coll ix :
  In ix (IndexesOf d coll) -> ixUnique ix = true -> In ix (unique_indexes d coll).
Proof.
  intros Hin Hu. unfold unique_indexes. apply filter_In. split; [right; exact Hin|exact Hu].
Qed.

Lemma InsertOne_inv coll doc s :
  fst (InsertOne coll doc s) = None ->
  hd false (faults s) = false
  /\ violated (unique_indexes (db s) coll) (Collection (db s) coll) (fst (ensureID doc s)) = None
  /\ db (snd (InsertOne coll doc s)) =
     set_collection coll (Collection (db s) coll ++ [fst (ensureID doc s)]) (db s).
Proof.
  rewrite InsertOne_run. cbv zeta.
  destruct (ensureID_run doc s) as (Hdb & _ & _).
  destruct (hd false (faults s)); cbn [fst snd]; [discriminate|].
  destruct (violated _ _ _) eqn:Hv; cbn [fst snd]; [discriminate|].
  intros _. split; [reflexivity|]. split; [reflexivity|].
  unfold with_db, issued. cbn [fst snd db issue]. rewrite Hdb. reflexivity.
Qed.

Lemma split_first_app query docs pre x post :
  split_first query docs = Some (pre, x, post) -> docs = (pre ++ x :: post)%list.
Proof.
  revert pre. induction docs as [|d docs IH]; simpl; intros pre H; [discriminate|].
  destruct (matches query d).
  - injection H as <- <- <-. reflexivity.
  - destruct (split_first query docs) as [[[pre0 x0] post0]|]; [|discriminate].
    injection H as <- <- <-. simpl. f_equal. apply IH. reflexivity.
Qed.

(** What a call of [UpdateSmesher] does to the database: nothing; or the
    insert of the index entry alone; or the insert and the rewrite of the
    first record of that id. *)
Lemma UpdateSmesher_effect smesher coinbase space timestamp s :
  let r := UpdateSmesher smesher coinbase space timestamp s in
  let d1 := set_collection "coinbases"
              (Collection (db s) "coinbases" ++
               [fst (ensureID (coinbase_doc smesher coinbase) s)]) (db s) in
  (fst r <> None /\ db (snd r) = db s)
  \/ (violated (unique_indexes (db s) "coinbases") (Collection (db s) "coinbases")
        (fst (ensureID (coinbase_doc smesher coinbase) s)) = None
      /\ hd false (faults s) = false
      /\ ((db (snd r) = d1
           /\ (fst r = None ->
               split_first [("id", VString smesher)] (Collection (db s) "smeshers") = None))
          \/ (fst r = None /\ nth 2 (faults s) false = false /\
              exists pre x post atxCount,
                split_first [("id", VString smesher)] (Collection (db s) "smeshers")
                  = Some (pre, x, post)
                /\ (nth 1 (faults s) false = false ->
                    atxCount = count_in (db s) "activations" [("smesher", VString smesher)])
                /\ db (snd r) =
                   set_collection "smeshers"
                     (pre ++ apply_set (smesher_update space coinbase atxCount timestamp) x
                          :: post) d1))).
Proof.
  cbv zeta. rewrite UpdateSmesher_run. cbv zeta.
  destruct (fst (InsertOne "coinbases" (coinbase_doc smesher coinbase) s)) as [e|] eqn:Hins.
  { left. cbn [fst snd]. split; [discriminate|].
    destruct (InsertOne_cases "coinbases" (coinbase_doc smesher coinbase) s)
      as [[_ Hdb]|(Hok & _)]; [exact Hdb|congruence]. }
  right. destruct (InsertOne_inv _ _ _ Hins) as (Hf0 & Hv & Hdb1).
  split; [exact Hv|]. split; [exact Hf0|].
  pose proof (InsertOne_faults "coinbases" (coinbase_doc smesher coinbase) s) as Hfs.
  set (s1 := snd (InsertOne "coinbases" (coinbase_doc smesher coinbase) s)) in *.
  destruct (counted_run smesher s1) as [Hc Hdb2].
  assert (Hfs2 : faults (snd (counted smesher s1)) = tl (faults s1)).
  { unfold counted. cbv zeta. rewrite CountDocuments_run. cbn [fst snd].
    destruct (hd false (faults s1)); reflexivity. }
  set (c := counted smesher s1) in *.
  set (upd := UpdateOne "smeshers" [("id", VString smesher)]
                (smesher_update space coinbase (fst c) timestamp) (snd c)).
  assert (Hfinal : db (snd (fst upd,
                     match fst upd with
                     | Some e => snd (log_Info "UpdateSmesher: %v" [e] (snd upd))
                     | None => snd upd
                     end)) = db (snd upd)).
  { cbn [snd]. destruct (fst upd); reflexivity. }
  rewrite Hfinal. cbn [fst].
  assert (Hsm : Collection (db (snd c)) "smeshers" = Collection (db s) "smeshers").
  { rewrite Hdb2, Hdb1, Collection_set_ne by discriminate. reflexivity. }
  destruct (UpdateOne_cases "smeshers" [("id", VString smesher)]
              (smesher_update space coinbase (fst c) timestamp) (snd c))
    as [[Herr Hdb3]|[(Hok & Hnone & Hdb3)|(Hok & Hf2 & pre & x & post & Hsplit & Hdb3)]];
    fold upd in Herr || fold upd in Hok; fold upd in Hdb3.
  - left. split; [congruence|]. intros Hok. congruence.
  - left. split; [congruence|]. intros _. rewrite <- Hsm. exact Hnone.
  - right. split; [exact Hok|]. split.
    { rewrite Hfs2, Hfs in Hf2. rewrite <- hd_tl_tl. exact Hf2. }
    exists pre, x, post, (fst c). split; [rewrite <- Hsm; exact Hsplit|]. split.
    + intros Hf1. rewrite Hc, Hfs, hd_tl, Hf1. unfold count_in.
      rewrite Hdb1, Collection_set_ne by discriminate. reflexivity.
    + rewrite Hdb3, Hdb2, Hdb1. reflexivity.
Qed.

Lemma SaveSmesher_unique i s :
  store_unique (db s) -> store_unique (db (snd (SaveSmesher i s))).
Proof.
  intros (Hix1 & Hix2 & Hd1 & Hd2). rewrite SaveSmesher_run. cbn [snd].
  destruct (InsertOne_cases "smeshers" (smesher_doc i) s) as [[_ Hdb]|(Hok & _ & _)].
  { rewrite Hdb. repeat split; assumption. }
  destruct (InsertOne_inv _ _ _ Hok) as (_ & Hv & Hdb). rewrite Hdb.
  unfold store_unique.
  rewrite !IndexesOf_set_collection, Collection_set_eq, Collection_set_ne by discriminate.
  repeat split; try assumption.
  apply distinct_on_snoc; [exact Hd1|].
  apply (violated_None _ _ _ idIndex Hv).
  apply unique_indexes_In; [exact Hix1|reflexivity].
Qed.

Lemma map_Lookup_rewritten key (pre post : list Doc) (x x' : Doc) :
  Lookup key x' = Lookup key x ->
  List.map (Lookup key) (pre ++ x' :: post) = List.map (Lookup key) (pre ++ x :: post).
Proof. intros H. rewrite !List.map_app. simpl. rewrite H. reflexivity. Qed.

Lemma UpdateSmesher_unique smesher coinbase space timestamp s :
  store_unique (db s) ->
  store_unique (db (snd (UpdateSmesher smesher coinbase space timestamp s))).
Proof.
  intros (Hix1 & Hix2 & Hd1 & Hd2).
  destruct (UpdateSmesher_effect smesher coinbase space timestamp s)
    as [[_ Hdb]|(Hv & _ & [[Hdb _]|(_ & _ & pre & x & post & atx & Hsplit & _ & Hdb)])];
    cbv zeta in Hdb; rewrite Hdb.
  - repeat split; assumption.
  - unfold store_unique.
    rewrite !IndexesOf_set_collection, Collection_set_eq, Collection_set_ne by discriminate.
    repeat split; try assumption.
    apply distinct_on_snoc; [exact Hd2|].
    apply (violated_None _ _ _ addressIndex Hv).
    apply unique_indexes_In; [exact Hix2|reflexivity].
  - unfold store_unique.
    rewrite !IndexesOf_set_collection, Collection_set_eq.
    rewrite Collection_set_ne, Collection_set_eq by discriminate.
    repeat split; try assumption.
    + rewrite (distinct_on_keys "id" _ (pre ++ x :: post)).
      * rewrite <- (split_first_app _ _ _ _ _ Hsplit). exact Hd1.
      * apply map_Lookup_rewritten. apply smesher_update_id.
    + apply distinct_on_snoc; [exact Hd2|].
      apply (violated_None _ _ _ addressIndex Hv).
      apply unique_indexes_In; [exact Hix2|reflexivity].
Qed.

Lemma InitSmeshersStorage_unique s :
  store_unique (db s) -> db (snd (InitSmeshersStorage s)) = db s.
Proof.
  intros (Hix1 & Hix2 & _). rewrite InitSmeshersStorage_run. cbv zeta.
  assert (Hnone : forall coll ix s', In ix (IndexesOf (db s') coll) ->
                    named (ixName ix) (IndexesOf (db s') coll) <> None).
  { intros coll ix s' Hin Hn. unfold named in Hn.
    pose proof (find_none _ _ Hn ix Hin) as Hf. cbv beta in Hf.
    rewrite bool_decide_eq_true_2 in Hf by reflexivity. discriminate. }
  destruct (CreateOne_cases "smeshers" idIndex s) as (_ & _ & H1). cbv zeta in H1.
  set (r1 := CreateOne "smeshers" idIndex s) in *.
  assert (Hdb1 : db (snd r1) = db s).
  { destruct H1 as [[_ H]|[(_ & _ & _ & H)|(_ & _ & Hn & _)]]; [exact H|exact H|].
    exfalso. exact (Hnone _ _ s Hix1 Hn). }
  destruct (snd (fst r1)); cbn [snd]; [exact Hdb1|].
  destruct (CreateOne_cases "coinbases" addressIndex (snd r1)) as (_ & _ & H2).
  cbv zeta in H2.
  set (r2 := CreateOne "coinbases" addressIndex (snd r1)) in *.
  assert (Hdb2 : db (snd r2) = db (snd r1)).
  { destruct H2 as [[_ H]|[(_ & _ & _ & H)|(_ & _ & Hn & _)]]; [exact H|exact H|].
    exfalso. apply (Hnone "coinbases" addressIndex (snd r1)); [|exact Hn].
    rewrite Hdb1. exact Hix2. }
  destruct (snd (fst r2)); cbn [snd]; congruence.
Qed.

(** X4. Whatever sequence of [InitSmeshersStorage], [SaveSmesher] and
    [UpdateSmesher] calls is made, and whichever of their driver calls
    fail, a database that has the two unique indexes and agrees with them
    keeps both: no two smesher records share an id and no two coinbase
    entries share an address. *)
Theorem writes_keep_unique :
  forall (cs : list Call) (s : Storage),
    store_unique (db s) -> store_unique (db (snd (calls cs s))).
Proof.
  induction cs as [|c cs IH]; intros s Hs; [exact Hs|].
  simpl. rewrite bind_run. apply IH.
  destruct c as [|i|smesher coinbase space timestamp]; simpl.
  - rewrite (InitSmeshersStorage_unique s Hs). exact Hs.
  - apply SaveSmesher_unique, Hs.
  - apply UpdateSmesher_unique, Hs.
Qed.

Lemma writes_keep_unique_witness :
  store_unique (db st0)
  /\ store_unique
       (db (snd (calls [CallSave sm1; CallUpdate id_s "cb1" 200 7; CallSave sm1; CallInit;
                        CallUpdate id_s "cb1" 300 8]
                       (reschedule [false; false; true] st0)))).
Proof.
  assert (H : store_unique (db (reschedule [false; false; true] st0))).
  { unfold store_unique. repeat split; try reflexivity; left; reflexivity. }
  split; [exact H|].
  exact (writes_keep_unique _ _ H).
Defined.

Lemma distinct_on_count key v (l : list Doc) :
  distinct_on key l = true ->
  (length (List.filter (matches [(key, v)]) l) <= 1)%nat.
Proof.
  induction l as [|d l IH]; intros Hd; [simpl; lia|].
  cbn [distinct_on] in Hd. cbn [List.filter].
  apply andb_true_iff in Hd. destruct Hd as [Hd1 Hd2].
  rewrite matches_one. destruct (bool_decide (Lookup key d = Some v)) eqn:E.
  - apply bool_decide_eq_true_1 in E. apply negb_true_iff in Hd1.
    assert (Hnil : List.filter (matches [(key, v)]) l = []).
    { clear IH Hd2. induction l as [|d' l IHl]; [reflexivity|].
      cbn [existsb] in Hd1. cbn [List.filter].
      apply orb_false_iff in Hd1. destruct Hd1 as [H1 H2].
      rewrite matches_one, bool_decide_eq_false_2.
      - apply IHl, H2.
      - apply bool_decide_eq_false_1 in H1. congruence. }
    rewrite Hnil. simpl. lia.
  - apply IH, Hd2.
Qed.

(** X5. In a database that agrees with the unique index on the id,
    [GetSmeshersCount] of a query by id answers 0 or 1, whether or not
    the count fails. *)
Theorem GetSmeshersCount_by_id :
  forall (id : string) (s : Storage),
    distinct_on "id" (Collection (db s) "smeshers") = true ->
    0 <= fst (GetSmeshersCount [("id", VString id)] s) <= 1.
Proof.
  intros id s Hd. rewrite GetSmeshersCount_run.
  destruct (hd false (faults s)); cbn [fst]; [lia|].
  unfold count_in.
  pose proof (distinct_on_count "id" (VString id) _ Hd). lia.
Qed.

Lemma GetSmeshersCount_by_id_witness :
  distinct_on "id" (Collection (db st1) "smeshers") = true
  /\ 0 <= fst (GetSmeshersCount [("id", VString id_s)] st1) <= 1.
Proof.
  assert (H : distinct_on "id" (Collection (db st1) "smeshers") = true) by reflexivity.
  split; [exact H|]. exact (GetSmeshersCount_by_id id_s st1 H).
Defined.

(* ===================================================================== *)
(** ** What a save and an update write, and what they leave *)
(* ===================================================================== *)

Lemma find_app_None {A} (f : A -> bool) (l l' : list A) :
  List.find f l = None -> List.find f (l ++ l') = List.find f l'.
Proof.
  induction l as [|x l IH]; simpl; [reflexivity|].
  destruct (f x); [discriminate|exact IH].
Qed.

Lemma find_id_None id (o : option Value) (l : list Doc) :
  o = Some (VString id) ->
  existsb (fun d => bool_decide (Lookup "id" d = o)) l = false ->
  List.find (matches [("id", VString id)]) l = None.
Proof.
  intros ->. induction l as [|d l IH]; [reflexivity|].
  cbn [existsb List.find]. intros H. apply orb_false_iff in H. destruct H as [H1 H2].
  rewrite matches_one, H1. exact (IH H2).
Qed.

Lemma SaveSmesher_record i s :
  In idIndex (IndexesOf (db s) "smeshers") ->
  fst (SaveSmesher i s) = None ->
  Collection (db (snd (SaveSmesher i s))) "smeshers" =
    (Collection (db s) "smeshers" ++ [fst (ensureID (smesher_doc i) s)])%list
  /\ smesher_record (db (snd (SaveSmesher i s))) (Id i) =
     Some (fst (ensureID (smesher_doc i) s)).
Proof.
  intros Hix. rewrite SaveSmesher_run. cbn [fst snd].
  destruct (fst (InsertOne "smeshers" (smesher_doc i) s)) eqn:Hins; [discriminate|].
  intros _. destruct (InsertOne_inv _ _ _ Hins) as (_ & Hv & Hdb).
  destruct (ensureID_run (smesher_doc i) s) as (_ & _ & Hlk).
  unfold smesher_record. rewrite Hdb, Collection_set_eq.
  split; [reflexivity|].
  assert (Hid : Lookup "id" (fst (ensureID (smesher_doc i) s)) = Some (VString (Id i))).
  { rewrite Hlk by discriminate. reflexivity. }
  rewrite find_app_None.
  - cbn [List.find]. rewrite matches_one, bool_decide_eq_true_2 by exact Hid. reflexivity.
  - apply (find_id_None _ _ _ Hid).
    apply (violated_None _ _ _ idIndex Hv).
    apply unique_indexes_In; [exact Hix|reflexivity].
Qed.

(** X6. With the unique index on the id in place, a successful
    [SaveSmesher] appends one document to the smeshers collection, and a
    find by the smesher's id then comes back with that document, whose
    fields, the generated [_id] apart, are those of the smesher saved. *)
Theorem SaveSmesher_stores_the_record :
  forall (i : Smesher) (s : Storage),
    In idIndex (IndexesOf (db s) "smeshers") ->
    fst (SaveSmesher i s) = None ->
    exists doc : Doc,
      Collection (db (snd (SaveSmesher i s))) "smeshers" =
        (Collection (db s) "smeshers" ++ [doc])%list
      /\ smesher_record (db (snd (SaveSmesher i s))) (Id i) = Some doc
      /\ (forall key, key <> "_id" -> Lookup key doc = Lookup key (smesher_doc i)).
Proof.
  intros i s Hix Hok.
  destruct (SaveSmesher_record i s Hix Hok) as [Hcoll Hrec].
  destruct (ensureID_run (smesher_doc i) s) as (_ & _ & Hlk).
  exists (fst (ensureID (smesher_doc i) s)).
  split; [exact Hcoll|]. split; [exact Hrec|exact Hlk].
Qed.

Lemma SaveSmesher_stores_the_record_witness :
  In idIndex (IndexesOf (db st0) "smeshers")
  /\ fst (SaveSmesher sm1 st0) = None
  /\ exists doc : Doc,
       smesher_record (db (snd (SaveSmesher sm1 st0))) (Id sm1) = Some doc
       /\ Lookup "coinbase" doc = Some (VString "cb0").
Proof.
  assert (Hix : In idIndex (IndexesOf (db st0) "smeshers")) by (left; reflexivity).
  assert (Hok : fst (SaveSmesher sm1 st0) = None) by reflexivity.
  split; [exact Hix|]. split; [exact Hok|].
  destruct (SaveSmesher_stores_the_record sm1 st0 Hix Hok) as (doc & _ & Hrec & Hlk).
  exists doc. split; [exact Hrec|].
  rewrite Hlk by discriminate. reflexivity.
Defined.

(** X7. [SaveSmesher] writes to the smeshers collection only, and only by
    appending: every other collection, the coinbase index included, and
    every index is as before; the smeshers collection is the old one
    followed by one document when the call returns nil, and the old one
    when it returns an error. *)
Theorem SaveSmesher_only_appends :
  forall (i : Smesher) (s : Storage),
    let r := SaveSmesher i s in
    (forall name, name <> "smeshers" -> Collection (db (snd r)) name = Collection (db s) name)
    /\ indexes (db (snd r)) = indexes (db s)
    /\ Collection (db (snd r)) "smeshers" =
       (Collection (db s) "smeshers" ++
        match fst r with
        | None => [fst (ensureID (smesher_doc i) s)]
        | Some _ => []
        end)%list.
Proof.
  intros i s. cbv zeta. rewrite SaveSmesher_run. cbn [fst snd].
  destruct (InsertOne_cases "smeshers" (smesher_doc i) s) as [[Herr Hdb]|(Hok & _ & Hdb)];
    rewrite Hdb.
  - split; [reflexivity|]. split; [reflexivity|].
    destruct (fst (InsertOne "smeshers" (smesher_doc i) s)); [|congruence].
    rewrite app_nil_r. reflexivity.
  - rewrite Hok. split; [|split; [reflexivity|apply Collection_set_eq]].
    intros name Hname. apply Collection_set_ne. congruence.
Qed.

Lemma IsSmesherExists_run smesher s :
  IsSmesherExists smesher s =
  if hd false (faults s)
  then (false, snd (log_Info "IsSmesherExists: %v" [ErrDeadline]
                      (issued (OpCountDocuments "smeshers") s)))
  else (count_in (db s) "smeshers" [("id", VString smesher)] >? 0,
        issued (OpCountDocuments "smeshers") s).
Proof.
  unfold IsSmesherExists. rewrite bind_run, CountDocuments_run.
  destruct (hd false (faults s)); reflexivity.
Qed.

(** X8. After a successful [SaveSmesher], [IsSmesherExists] of the saved
    id answers true exactly when its own count does not fail: a failed
    count is answered false although the smesher is stored. *)
Theorem IsSmesherExists_after_save :
  forall (i : Smesher) (s : Storage),
    fst (SaveSmesher i s) = None ->
    fst (IsSmesherExists (Id i) (snd (SaveSmesher i s))) = negb (nth 1 (faults s) false).
Proof.
  intros i s. rewrite SaveSmesher_run. cbn [fst snd].
  destruct (fst (InsertOne "smeshers" (smesher_doc i) s)) eqn:Hins; [discriminate|].
  intros _. destruct (InsertOne_inv _ _ _ Hins) as (_ & _ & Hdb).
  pose proof (InsertOne_faults "smeshers" (smesher_doc i) s) as Hfs.
  rewrite IsSmesherExists_run, Hfs, hd_tl.
  destruct (nth 1 (faults s) false); [reflexivity|].
  cbn [fst negb]. rewrite count_positive. unfold exists_in.
  rewrite Hdb, Collection_set_eq. apply existsb_last.
  rewrite matches_one. apply bool_decide_eq_true_2.
  destruct (ensureID_run (smesher_doc i) s) as (_ & _ & Hlk).
  rewrite Hlk by discriminate. reflexivity.
Qed.

Lemma IsSmesherExists_after_save_witness :
  fst (SaveSmesher sm1 st0) = None
  /\ fst (IsSmesherExists (Id sm1) (snd (SaveSmesher sm1 st0))) = true
  /\ fst (IsSmesherExists (Id sm1)
            (snd (SaveSmesher sm1 (reschedule [false; true] st0)))) = false.
Proof.
  assert (H1 : fst (SaveSmesher sm1 st0) = None) by reflexivity.
  assert (H2 : fst (SaveSmesher sm1 (reschedule [false; true] st0)) = None) by reflexivity.
  split; [exact H1|]. split.
  - exact (IsSmesherExists_after_save sm1 st0 H1).
  - exact (IsSmesherExists_after_save sm1 (reschedule [false; true] st0) H2).
Defined.

Lemma split_first_find query docs pre x post :
  split_first query docs = Some (pre, x, post) -> List.find (matches query) docs = Some x.
Proof.
  revert pre. induction docs as [|d docs IH]; simpl; intros pre H; [discriminate|].
  destruct (matches query d).
  - injection H as <- <- <-. reflexivity.
  - destruct (split_first query docs) as [[[pre0 x0] post0]|]; [|discriminate].
    injection H as <- <- <-. eapply IH. reflexivity.
Qed.

Lemma find_None_split_first query docs :
  List.find (matches query) docs = None -> split_first query docs = None.
Proof.
  induction docs as [|d docs IH]; simpl; [reflexivity|].
  destruct (matches query d); [discriminate|].
  intros H. rewrite (IH H). reflexivity.
Qed.

Lemma smesher_update_fields space coinbase atxCount timestamp d :
  let d' := apply_set (smesher_update space coinbase atxCount timestamp) d in
  Lookup "cSize" d' = Some (VInt space)
  /\ Lookup "coinbase" d' = Some (VString coinbase)
  /\ Lookup "timestamp" d' = Some (VInt timestamp)
  /\ (forall key, key <> "cSize" -> key <> "coinbase" -> key <> "atxcount" ->
                  key <> "timestamp" -> Lookup key d' = Lookup key d).
Proof.
  cbv zeta. unfold apply_set, smesher_update. cbn [fold_left fst snd].
  repeat split.
  - rewrite !Lookup_set_field_ne by discriminate. apply Lookup_set_field_eq.
  - rewrite !Lookup_set_field_ne by discriminate. apply Lookup_set_field_eq.
  - apply Lookup_set_field_eq.
  - intros key H1 H2 H3 H4. rewrite !Lookup_set_field_ne by congruence. reflexivity.
Qed.

(** X9. A successful [UpdateSmesher] of a smesher that has a record
    rewrites that record in place: afterwards the record found under the
    id carries the given commitment size, coinbase and timestamp, and
    every field other than those and the activation count is as it
    was. *)
Theorem UpdateSmesher_sets_fields :
  forall (smesher coinbase : string) (space timestamp : Z) (s : Storage) (old : Doc),
    smesher_record (db s) smesher = Some old ->
    fst (UpdateSmesher smesher coinbase space timestamp s) = None ->
    exists doc : Doc,
      smesher_record (db (snd (UpdateSmesher smesher coinbase space timestamp s))) smesher
        = Some doc
      /\ Lookup "cSize" doc = Some (VInt space)
      /\ Lookup "coinbase" doc = Some (VString coinbase)
      /\ Lookup "timestamp" doc = Some (VInt timestamp)
      /\ (forall key, key <> "cSize" -> key <> "coinbase" -> key <> "atxcount" ->
                      key <> "timestamp" -> Lookup key doc = Lookup key old).
Proof.
  intros smesher coinbase space timestamp s old Hold Hok.
  unfold smesher_record in Hold.
  destruct (UpdateSmesher_effect smesher coinbase space timestamp s)
    as [[Herr _]|(_ & _ & [[_ Hnone]|(_ & _ & pre & x & post & atx & Hsplit & _ & Hdb)])];
    cbv zeta in *.
  - congruence.
  - rewrite (split_first_None _ _ (Hnone Hok)) in Hold. discriminate.
  - rewrite (split_first_find _ _ _ _ _ Hsplit) in Hold. injection Hold as <-.
    exists (apply_set (smesher_update space coinbase atx timestamp) x).
    unfold smesher_record. rewrite Hdb, Collection_set_eq.
    split.
    + apply (split_first_Some _ _ _ _ _ _ Hsplit).
      rewrite (matches_id smesher x) by apply smesher_update_id.
      exact (split_first_matches _ _ _ _ _ Hsplit).
    + apply smesher_update_fields.
Qed.

Lemma UpdateSmesher_sets_fields_witness :
  fst (UpdateSmesher id_s "cb1" 200 7 st1) = None
  /\ exists doc : Doc,
       smesher_record (db (snd (UpdateSmesher id_s "cb1" 200 7 st1))) id_s = Some doc
       /\ Lookup "coinbase" doc = Some (VString "cb1")
       /\ Lookup "name" doc = Some (VString "n").
Proof.
  assert (Hok : fst (UpdateSmesher id_s "cb1" 200 7 st1) = None) by (vm_compute; reflexivity).
  split; [exact Hok|].
  destruct (smesher_record (db st1) id_s) as [old|] eqn:Hold; [|vm_compute in Hold; discriminate].
  destruct (UpdateSmesher_sets_fields id_s "cb1" 200 7 st1 old Hold Hok)
    as (doc & Hrec & _ & Hcb & _ & Hrest).
  exists doc. split; [exact Hrec|]. split; [exact Hcb|].
  rewrite Hrest by discriminate.
  vm_compute in Hold. injection Hold as <-. reflexivity.
Defined.

(** X10. [UpdateSmesher] never adds or removes a smesher record and never
    changes an id: whatever the call does and however it ends, the ids of
    the smeshers collection, in order, are the same before and after. *)
Theorem UpdateSmesher_never_creates_record :
  forall (smesher coinbase : string) (space timestamp : Z) (s : Storage),
    List.map (Lookup "id")
      (Collection (db (snd (UpdateSmesher smesher coinbase space timestamp s))) "smeshers") =
    List.map (Lookup "id") (Collection (db s) "smeshers").
Proof.
  intros smesher coinbase space timestamp s.
  destruct (UpdateSmesher_effect smesher coinbase space timestamp s)
    as [[_ Hdb]|(_ & _ & [[Hdb _]|(_ & _ & pre & x & post & atx & Hsplit & _ & Hdb)])];
    cbv zeta in Hdb; rewrite Hdb.
  - reflexivity.
  - rewrite Collection_set_ne by discriminate. reflexivity.
  - rewrite Collection_set_eq, (split_first_app _ _ _ _ _ Hsplit).
    apply map_Lookup_rewritten, smesher_update_id.
Qed.

(** X11. For a smesher id that has no record and a commitment size that
    fits a signed 64-bit integer (a larger one the driver refuses to
    encode), a call of [UpdateSmesher] whose insert succeeds and whose
    update is not failed by the store returns nil: the coinbase index then
    holds an entry for a smesher of which there is no record, and the
    smeshers collection is as it was. *)
Theorem UpdateSmesher_unknown_smesher :
  forall (smesher coinbase : string) (space timestamp : Z) (s : Storage),
    0 <= space < 2 ^ 63 ->
    smesher_record (db s) smesher = None ->
    fst (InsertOne "coinbases" (coinbase_doc smesher coinbase) s) = None ->
    nth 2 (faults s) false = false ->
    let r := UpdateSmesher smesher coinbase space timestamp s in
    fst r = None
    /\ coinbase_entry (db (snd r)) smesher coinbase = true
    /\ smesher_record (db (snd r)) smesher = None
    /\ Collection (db (snd r)) "smeshers" = Collection (db s) "smeshers".
Proof.
  intros smesher coinbase space timestamp s _ Hrec Hins Hf2. cbv zeta.
  destruct (UpdateSmesher_inserted smesher coinbase space timestamp s Hins)
    as (Hcb & _ & _). cbv zeta in Hcb.
  assert (Hcoinbase :
            coinbase_entry (db (snd (UpdateSmesher smesher coinbase space timestamp s)))
              smesher coinbase = true).
  { unfold coinbase_entry, exists_in. rewrite Hcb.
    apply existsb_last. apply coinbase_doc_matches. }
  assert (Hsame : Collection (db (snd (UpdateSmesher smesher coinbase space timestamp s)))
                    "smeshers" = Collection (db s) "smeshers"
                  /\ fst (UpdateSmesher smesher coinbase space timestamp s) = None).
  { rewrite UpdateSmesher_run. cbv zeta. rewrite Hins.
    destruct (InsertOne_inv _ _ _ Hins) as (_ & _ & Hdb1).
    pose proof (InsertOne_faults "coinbases" (coinbase_doc smesher coinbase) s) as Hfs.
    set (s1 := snd (InsertOne "coinbases" (coinbase_doc smesher coinbase) s)) in *.
    destruct (counted_run smesher s1) as [_ Hdb2].
    assert (Hfs2 : faults (snd (counted smesher s1)) = tl (faults s1)).
    { unfold counted. cbv zeta. rewrite CountDocuments_run. cbn [fst snd].
      destruct (hd false (faults s1)); reflexivity. }
    set (c := counted smesher s1) in *.
    assert (Hsm : Collection (db (snd c)) "smeshers" = Collection (db s) "smeshers").
    { rewrite Hdb2, Hdb1, Collection_set_ne by discriminate. reflexivity. }
    rewrite UpdateOne_run. cbv zeta.
    rewrite Hfs2, Hfs, hd_tl_tl, Hf2, Hsm.
    rewrite (find_None_split_first _ _ Hrec). cbn [fst snd].
    split; [|reflexivity].
    change (db (issued (OpUpdateOne "smeshers") (snd c))) with (db (snd c)).
    exact Hsm. }
  destruct Hsame as [Hsame Hok].
  split; [exact Hok|]. split; [exact Hcoinbase|]. split; [|exact Hsame].
  unfold smesher_record in *. rewrite Hsame. exact Hrec.
Qed.

Lemma UpdateSmesher_unknown_smesher_witness :
  0 <= 1 < 2 ^ 63
  /\ smesher_record (db st0) "nobody" = None
  /\ fst (UpdateSmesher "nobody" "cb9" 1 1 st0) = None
  /\ coinbase_entry (db (snd (UpdateSmesher "nobody" "cb9" 1 1 st0))) "nobody" "cb9" = true
  /\ smesher_record (db (snd (UpdateSmesher "nobody" "cb9" 1 1 st0))) "nobody" = None.
Proof.
  assert (H0 : 0 <= 1 < 2 ^ 63) by (split; [discriminate|reflexivity]).
  assert (H1 : smesher_record (db st0) "nobody" = None) by reflexivity.
  assert (H2 : fst (InsertOne "coinbases" (coinbase_doc "nobody" "cb9") st0) = None)
    by reflexivity.
  assert (H3 : nth 2 (faults st0) false = false) by reflexivity.
  split; [exact H0|]. split; [exact H1|].
  destruct (UpdateSmesher_unknown_smesher "nobody" "cb9" 1 1 st0 H0 H1 H2 H3)
    as (Hok & Hcb & Hrec & _).
  split; [exact Hok|]. split; [exact Hcb|exact Hrec].
Defined.

Lemma ensureID_trace doc s : trace (snd (ensureID doc s)) = trace s.
Proof. unfold ensureID. destruct (Lookup "_id" doc); reflexivity. Qed.

Lemma InsertOne_trace coll doc s :
  trace (snd (InsertOne coll doc s)) = (trace s ++ [OpInsertOne coll])%list.
Proof.
  rewrite InsertOne_run. cbv zeta. rewrite <- (ensureID_trace doc s).
  destruct (hd false (faults s)); cbn [fst snd]; [reflexivity|].
  destruct (violated _ _ _); reflexivity.
Qed.

Lemma UpdateOne_trace coll filter_ set_ s :
  trace (snd (UpdateOne coll filter_ set_ s)) = (trace s ++ [OpUpdateOne coll])%list.
Proof.
  rewrite UpdateOne_run. cbv zeta.
  destruct (hd false (faults s)); cbn [fst snd]; [reflexivity|].
  destruct (split_first _ _) as [[[pre x] post]|]; [|reflexivity].
  destruct (violated _ _ _); reflexivity.
Qed.

Lemma counted_trace smesher s1 :
  trace (snd (counted smesher s1)) = (trace s1 ++ [OpCountDocuments "activations"])%list.
Proof.
  unfold counted. cbv zeta. rewrite CountDocuments_run. cbn [fst snd].
  destruct (hd false (faults s1)); reflexivity.
Qed.

Lemma UpdateSmesher_trace smesher coinbase space timestamp s :
  trace (snd (UpdateSmesher smesher coinbase space timestamp s)) =
  (trace s ++
   match fst (InsertOne "coinbases" (coinbase_doc smesher coinbase) s) with
   | Some _ => [OpInsertOne "coinbases"]
   | None => [OpInsertOne "coinbases"; OpCountDocuments "activations"; OpUpdateOne "smeshers"]
   end)%list.
Proof.
  rewrite UpdateSmesher_run. cbv zeta.
  pose proof (InsertOne_trace "coinbases" (coinbase_doc smesher coinbase) s) as Htr1.
  destruct (fst (InsertOne "coinbases" (coinbase_doc smesher coinbase) s)); [exact Htr1|].
  set (s1 := snd (InsertOne "coinbases" (coinbase_doc smesher coinbase) s)) in *.
  pose proof (counted_trace smesher s1) as Htr2.
  set (c := counted smesher s1) in *.
  pose proof (UpdateOne_trace "smeshers" [("id", VString smesher)]
                (smesher_update space coinbase (fst c) timestamp) (snd c)) as Htr3.
  set (upd := UpdateOne _ _ _ _) in *.
  assert (Hfinal : trace (snd (fst upd,
                     match fst upd with
                     | Some e => snd (log_Info "UpdateSmesher: %v" [e] (snd upd))
                     | None => snd upd
                     end)) = trace (snd upd)).
  { cbn [snd]. destruct (fst upd); reflexivity. }
  rewrite Hfinal, Htr3, Htr2, Htr1, <- !app_assoc. reflexivity.
Qed.

(** X12. The driver calls of [UpdateSmesher] and their order: the insert
    into the coinbases first; when it fails, nothing else; when it
    succeeds, the count of the activations and then the update of the
    smeshers, both always issued, whether or not the count fails. *)
Theorem UpdateSmesher_call_order :
  forall (smesher coinbase : string) (space timestamp : Z) (s : Storage),
    issued_by (UpdateSmesher smesher coinbase space timestamp) s =
    match fst (InsertOne "coinbases" (coinbase_doc smesher coinbase) s) with
    | Some _ => [OpInsertOne "coinbases"]
    | None => [OpInsertOne "coinbases"; OpCountDocuments "activations"; OpUpdateOne "smeshers"]
    end.
Proof.
  intros smesher coinbase space timestamp s.
  apply issued_by_trace. apply UpdateSmesher_trace.
Qed.

(** X13. With the unique index on the address in place, a coinbase
    address that is already in the index, for whichever smesher, makes
    [UpdateSmesher] return an error after its first driver call: the
    database is unchanged, the activations are not counted and no smesher
    record is updated, whatever the smesher, the size and the timestamp of
    the call. *)
Theorem UpdateSmesher_coinbase_taken :
  forall (smesher coinbase : string) (space timestamp : Z) (s : Storage),
    In addressIndex (IndexesOf (db s) "coinbases") ->
    address_taken (db s) coinbase = true ->
    let r := UpdateSmesher smesher coinbase space timestamp s in
    (exists e, fst r = Some (ErrWrap "error insert smesher into `coinbases`" e))
    /\ db (snd r) = db s
    /\ issued_by (UpdateSmesher smesher coinbase space timestamp) s = [OpInsertOne "coinbases"].
Proof.
  intros smesher coinbase space timestamp s Hix Htaken. cbv zeta.
  destruct (InsertOne_refused "coinbases" (coinbase_doc smesher coinbase) s addressIndex Hix)
    as [Herr Hdb]; [reflexivity|discriminate|exact Htaken|].
  pose proof (issued_by_trace _ _ _ (UpdateSmesher_trace smesher coinbase space timestamp s))
    as Hord.
  rewrite UpdateSmesher_run. cbv zeta.
  destruct (fst (InsertOne "coinbases" (coinbase_doc smesher coinbase) s)) as [e|];
    [|congruence].
  cbn [fst snd]. split; [eauto|]. split; [exact Hdb|exact Hord].
Qed.

Lemma UpdateSmesher_coinbase_taken_witness :
  address_taken (db (snd (UpdateSmesher id_s "cb1" 200 7 st1))) "cb1" = true
  /\ db (snd (UpdateSmesher "other" "cb1" 300 9 (snd (UpdateSmesher id_s "cb1" 200 7 st1)))) =
     db (snd (UpdateSmesher id_s "cb1" 200 7 st1)).
Proof.
  assert (Hix : In addressIndex
                   (IndexesOf (db (snd (UpdateSmesher id_s "cb1" 200 7 st1))) "coinbases"))
    by (left; vm_compute; reflexivity).
  assert (Htk : address_taken (db (snd (UpdateSmesher id_s "cb1" 200 7 st1))) "cb1" = true)
    by (vm_compute; reflexivity).
  split; [exact Htk|].
  exact (proj1 (proj2 (UpdateSmesher_coinbase_taken "other" "cb1" 300 9 _ Hix Htk))).
Defined.

(* ===================================================================== *)
(** ** The reads of the smeshers *)
(* ===================================================================== *)

Lemma Find_run coll query s :
  Find coll query s =
  (if hd false (faults s) then ([], Some ErrDeadline)
   else (List.filter (matches query) (Collection (db s) coll), None),
   issued (OpFind coll) s).
Proof.
  unfold Find, issued. rewrite bind_run. simpl.
  destruct (hd false (faults s)); reflexivity.
Qed.

Lemma filter_find_None {A} (f : A -> bool) (l : list A) :
  List.find f l = None -> List.filter f l = [].
Proof.
  induction l as [|x l IH]; simpl; [reflexivity|].
  destruct (f x); [discriminate|exact IH].
Qed.

Lemma filter_find_Some {A} (f : A -> bool) (l : list A) (x : A) :
  List.find f l = Some x -> exists rest, List.filter f l = x :: rest.
Proof.
  induction l as [|y l IH]; simpl; [discriminate|].
  destruct (f y) eqn:E.
  - intros H. injection H as <-. eauto.
  - exact IH.
Qed.


Lemma GetSmesher_run `{Utils} query s :
  fst (GetSmesher query s) =
    (if hd false (faults s) then FetchFailed ErrDeadline
     else match List.find (matches query) (Collection (db s) "smeshers") with
          | None => FetchFailed (ErrNew "Empty result")
          | Some doc => decoded doc
          end)
  /\ db (snd (GetSmesher query s)) = db s
  /\ faults (snd (GetSmesher query s)) = tl (faults s)
  /\ trace (snd (GetSmesher query s)) = (trace s ++ [OpFind "smeshers"])%list.
Proof.
  unfold GetSmesher. rewrite bind_run, Find_run. cbn [fst snd].
  destruct (hd false (faults s)); cbn [fst snd]; [repeat split|].
  destruct (List.find (matches query) (Collection (db s) "smeshers")) as [doc|] eqn:E.
  - destruct (filter_find_Some _ _ _ E) as [rest ->]. unfold decoded.
    destruct (Double (Lookup "lon" doc)), (Double (Lookup "lat" doc)); repeat split.
  - rewrite (filter_find_None _ _ E). repeat split.
Qed.

Lemma GetSmesherByCoinbase_run `{Utils} coinbase s :
  fst (GetSmesherByCoinbase coinbase s) =
    (if hd false (faults s) then FetchFailed ErrDeadline
     else match List.find (matches [("address", VString coinbase)])
                  (Collection (db s) "coinbases") with
          | None => FetchFailed (ErrNew "Empty result")
          | Some doc =>
              if bool_decide (GetAsString (Lookup "smesher" doc) = EmptyString)
              then FetchFailed (ErrNew "Empty result")
              else fst (GetSmesher [("id", VString (GetAsString (Lookup "smesher" doc)))]
                          (issued (OpFind "coinbases") s))
          end)
  /\ db (snd (GetSmesherByCoinbase coinbase s)) = db s.
Proof.
  unfold GetSmesherByCoinbase. rewrite bind_run, Find_run. cbn [fst snd].
  destruct (hd false (faults s)); cbn [fst snd]; [split; reflexivity|].
  destruct (List.find _ (Collection (db s) "coinbases")) as [doc|] eqn:E.
  - destruct (filter_find_Some _ _ _ E) as [rest ->]. cbv zeta.
    destruct (bool_decide (GetAsString (Lookup "smesher" doc) = EmptyString));
      [split; reflexivity|].
    split; [reflexivity|].
    destruct (GetSmesher_run [("id", VString (GetAsString (Lookup "smesher" doc)))]
                (issued (OpFind "coinbases") s)) as (_ & Hdb & _).
    rewrite Hdb. reflexivity.
  - rewrite (filter_find_None _ _ E). split; reflexivity.
Qed.

(** X14. [GetSmesher] of a query that no smesher record matches returns
    nil with the error Empty result, or with the error of the find when
    the find fails; it leaves the database as it is. *)
Theorem GetSmesher_no_record :
  forall (U : Utils) (query : Doc) (s : Storage),
    List.find (matches query) (Collection (db s) "smeshers") = None ->
    fst (GetSmesher query s) =
      FetchFailed (if hd false (faults s) then ErrDeadline else ErrNew "Empty result")
    /\ db (snd (GetSmesher query s)) = db s.
Proof.
  intros U query s Hnone.
  destruct (GetSmesher_run query s) as (Hr & Hdb & _).
  rewrite Hr, Hnone. split; [|exact Hdb].
  destruct (hd false (faults s)); reflexivity.
Qed.

Lemma GetSmesher_no_record_witness :
  List.find (matches [("id", VString "nobody")]) (Collection (db st1) "smeshers") = None
  /\ fst (@GetSmesher plain_utils [("id", VString "nobody")] st1) =
     FetchFailed (ErrNew "Empty result").
Proof.
  assert (H : List.find (matches [("id", VString "nobody")])
                (Collection (db st1) "smeshers") = None) by reflexivity.
  split; [exact H|].
  exact (proj1 (GetSmesher_no_record plain_utils _ st1 H)).
Defined.


(** X15. Save, then get. With the unique index on the id in place and
    decoders that give back a value of their own kind, a smesher whose
    unsigned fields are in range, once saved, is what [GetSmesher] by its
    id returns when the find does not fail: every field comes back as it
    was saved. *)
Theorem GetSmesher_after_save :
  forall (U : Utils) (HU : UtilsDecode U) (i : Smesher) (s : Storage),
    smesher_wf i ->
    In idIndex (IndexesOf (db s) "smeshers") ->
    fst (SaveSmesher i s) = None ->
    nth 1 (faults s) false = false ->
    fst (GetSmesher [("id", VString (Id i))] (snd (SaveSmesher i s))) = FetchedSmesher i.
Proof.
  intros U HU i s (Hc & Ha & Ht) Hix Hok Hf.
  destruct (SaveSmesher_record i s Hix Hok) as [_ Hrec].
  destruct (ensureID_run (smesher_doc i) s) as (_ & _ & Hlk).
  destruct (GetSmesher_run [("id", VString (Id i))] (snd (SaveSmesher i s))) as (Hr & _).
  rewrite Hr. unfold smesher_record in Hrec. rewrite Hrec.
  assert (Hfs : faults (snd (SaveSmesher i s)) = tl (faults s)).
  { rewrite SaveSmesher_run. cbn [snd]. apply InsertOne_faults. }
  rewrite Hfs, hd_tl, Hf. unfold decoded.
  rewrite !Hlk by discriminate. destruct i; simpl in *.
  rewrite !GetAsString_string, GetAsUInt64_int, !GetAsUInt32_int by assumption.
  reflexivity.
Qed.

Lemma GetSmesher_after_save_witness :
  smesher_wf sm1
  /\ In idIndex (IndexesOf (db st0) "smeshers")
  /\ fst (SaveSmesher sm1 st0) = None
  /\ fst (@GetSmesher plain_utils [("id", VString (Id sm1))] (snd (SaveSmesher sm1 st0))) =
     FetchedSmesher sm1.
Proof.
  assert (Hwf : smesher_wf sm1) by (unfold smesher_wf; simpl; lia).
  assert (Hix : In idIndex (IndexesOf (db st0) "smeshers")) by (left; reflexivity).
  assert (Hok : fst (SaveSmesher sm1 st0) = None) by reflexivity.
  assert (Hf : nth 1 (faults st0) false = false) by reflexivity.
  split; [exact Hwf|]. split; [exact Hix|]. split; [exact Hok|].
  exact (GetSmesher_after_save plain_utils plain_utils_decode sm1 st0 Hwf Hix Hok Hf).
Defined.

Lemma find_key_None key v (o : option Value) (l : list Doc) :
  o = Some v ->
  existsb (fun d => bool_decide (Lookup key d = o)) l = false ->
  List.find (matches [(key, v)]) l = None.
Proof.
  intros ->. induction l as [|d l IH]; [reflexivity|].
  cbn [existsb List.find]. intros H. apply orb_false_iff in H. destruct H as [H1 H2].
  rewrite matches_one, H1. exact (IH H2).
Qed.

(** X16. [SaveSmesher] does not enter the smesher's coinbase in the
    coinbase index: when the coinbase of the saved smesher is not in the
    index already, [GetSmesherByCoinbase] of it fails after the save as it
    did before, with the error Empty result or the error of its find. *)
Theorem SaveSmesher_not_by_coinbase :
  forall (U : Utils) (i : Smesher) (s : Storage),
    address_taken (db s) (Coinbase i) = false ->
    fst (GetSmesherByCoinbase (Coinbase i) (snd (SaveSmesher i s))) =
    FetchFailed (if hd false (faults (snd (SaveSmesher i s)))
                 then ErrDeadline else ErrNew "Empty result").
Proof.
  intros U i s Hfree.
  destruct (GetSmesherByCoinbase_run (Coinbase i) (snd (SaveSmesher i s))) as [Hr _].
  rewrite Hr.
  destruct (hd false (faults (snd (SaveSmesher i s)))); [reflexivity|].
  assert (Hcb : Collection (db (snd (SaveSmesher i s))) "coinbases" =
                Collection (db s) "coinbases").
  { rewrite SaveSmesher_run. cbn [snd].
    destruct (InsertOne_cases "smeshers" (smesher_doc i) s) as [[_ Hdb]|(_ & _ & Hdb)];
      rewrite Hdb; [reflexivity|].
    apply Collection_set_ne. discriminate. }
  rewrite Hcb, (find_key_None "address" (VString (Coinbase i)) _ _ eq_refl Hfree).
  reflexivity.
Qed.

Lemma SaveSmesher_not_by_coinbase_witness :
  address_taken (db st0) (Coinbase sm1) = false
  /\ fst (@GetSmesherByCoinbase plain_utils "cb0" (snd (SaveSmesher sm1 st0))) =
     FetchFailed (ErrNew "Empty result").
Proof.
  assert (H : address_taken (db st0) (Coinbase sm1) = false) by reflexivity.
  split; [exact H|].
  exact (SaveSmesher_not_by_coinbase plain_utils sm1 st0 H).
Defined.

Lemma UpdateOne_faults coll filter_ set_ s :
  faults (snd (UpdateOne coll filter_ set_ s)) = tl (faults s).
Proof.
  rewrite UpdateOne_run. cbv zeta.
  destruct (hd false (faults s)); cbn [fst snd]; [reflexivity|].
  destruct (split_first _ _) as [[[pre x] post]|]; [|reflexivity].
  destruct (violated _ _ _); reflexivity.
Qed.

Lemma UpdateSmesher_quiet smesher coinbase space timestamp s :
  faults s = [] -> faults (snd (UpdateSmesher smesher coinbase space timestamp s)) = [].
Proof.
  intros Hq. rewrite UpdateSmesher_run. cbv zeta.
  pose proof (InsertOne_faults "coinbases" (coinbase_doc smesher coinbase) s) as Hfs.
  rewrite Hq in Hfs. simpl in Hfs.
  destruct (fst (InsertOne "coinbases" (coinbase_doc smesher coinbase) s)); [exact Hfs|].
  set (s1 := snd (InsertOne "coinbases" (coinbase_doc smesher coinbase) s)) in *.
  assert (Hfs2 : faults (snd (counted smesher s1)) = []).
  { transitivity (tl (faults s1)); [|rewrite Hfs; reflexivity].
    unfold counted. cbv zeta. rewrite CountDocuments_run. cbn [fst snd].
    destruct (hd false (faults s1)); reflexivity. }
  set (c := counted smesher s1) in *.
  pose proof (UpdateOne_faults "smeshers" [("id", VString smesher)]
                (smesher_update space coinbase (fst c) timestamp) (snd c)) as Hfs3.
  rewrite Hfs2 in Hfs3. simpl in Hfs3.
  set (upd := UpdateOne _ _ _ _) in *.
  cbn [snd]. destruct (fst upd); exact Hfs3.
Qed.

(** X17. Update, then get by coinbase. With the unique index on the
    address in place, decoders that give back a value of their own kind
    and no failing driver call: after a successful [UpdateSmesher] of a
    smesher with a non-empty id and a record whose lon and lat are
    doubles, [GetSmesherByCoinbase] of the new coinbase returns that
    smesher, with the name and position of the record, the size, coinbase
    and timestamp of the update, and the count of its activations. *)
Theorem GetSmesherByCoinbase_after_update :
  forall (U : Utils) (HU : UtilsDecode U)
         (smesher coinbase : string) (space timestamp : Z) (s : Storage)
         (old : Doc) (lon lat : Z),
    faults s = [] ->
    In addressIndex (IndexesOf (db s) "coinbases") ->
    smesher <> EmptyString ->
    0 <= space < 2 ^ 64 ->
    0 <= timestamp < 2 ^ 32 ->
    smesher_record (db s) smesher = Some old ->
    Lookup "lon" old = Some (VDouble lon) ->
    Lookup "lat" old = Some (VDouble lat) ->
    fst (UpdateSmesher smesher coinbase space timestamp s) = None ->
    fst (GetSmesherByCoinbase coinbase
           (snd (UpdateSmesher smesher coinbase space timestamp s))) =
    FetchedSmesher
      {| Id := smesher;
         Name := GetAsString (Lookup "name" old);
         Lon := lon;
         Lat := lat;
         CommitmentSize := space;
         Coinbase := coinbase;
         AtxCount :=
           GetAsUInt32
             (Some (VInt (count_in (db s) "activations" [("smesher", VString smesher)])));
         Timestamp := timestamp |}.
Proof.
  intros U HU smesher coinbase space timestamp s old lon lat
         Hq Hix Hne Hspace Hts Hold Hlon Hlat Hok.
  pose proof (UpdateSmesher_quiet smesher coinbase space timestamp s Hq) as Hq'.
  unfold smesher_record in Hold.
  destruct (UpdateSmesher_effect smesher coinbase space timestamp s)
    as [[Herr _]|(Hv & _ & [[_ Hnone]|(_ & _ & pre & x & post & atx & Hsplit & Hatx & Hdb)])];
    cbv zeta in *.
  { congruence. }
  { rewrite (split_first_None _ _ (Hnone Hok)) in Hold. discriminate. }
  rewrite (split_first_find _ _ _ _ _ Hsplit) in Hold. injection Hold as ->.
  specialize (Hatx ltac:(rewrite Hq; reflexivity)). subst atx.
  set (s' := snd (UpdateSmesher smesher coinbase space timestamp s)) in *.
  set (n := count_in (db s) "activations" [("smesher", VString smesher)]) in *.
  set (cdoc := fst (ensureID (coinbase_doc smesher coinbase) s)) in *.
  set (x' := apply_set (smesher_update space coinbase n timestamp) old) in *.
  destruct (ensureID_run (coinbase_doc smesher coinbase) s) as (_ & _ & Hlk).
  fold cdoc in Hlk.
  assert (Hcb : Collection (db s') "coinbases" = (Collection (db s) "coinbases" ++ [cdoc])%list).
  { rewrite Hdb, Collection_set_ne, Collection_set_eq by discriminate. reflexivity. }
  assert (Hsm : Collection (db s') "smeshers" = (pre ++ x' :: post)%list).
  { rewrite Hdb, Collection_set_eq. reflexivity. }
  assert (Haddr : Lookup "address" cdoc = Some (VString coinbase))
    by (rewrite Hlk by discriminate; reflexivity).
  assert (Hsmf : Lookup "smesher" cdoc = Some (VString smesher))
    by (rewrite Hlk by discriminate; reflexivity).
  destruct (GetSmesherByCoinbase_run coinbase s') as [Hr _].
  rewrite Hr, Hq'. cbn [hd]. rewrite Hcb.
  rewrite find_app_None.
  2:{ apply (find_key_None "address" (VString coinbase) _ _ Haddr).
      apply (violated_None _ _ _ addressIndex Hv).
      apply unique_indexes_In; [exact Hix|reflexivity]. }
  cbn [List.find]. rewrite matches_one, bool_decide_eq_true_2 by exact Haddr.
  rewrite Hsmf, GetAsString_string.
  rewrite bool_decide_eq_false_2 by exact Hne.
  destruct (GetSmesher_run [("id", VString smesher)] (issued (OpFind "coinbases") s'))
    as (Hg & _).
  rewrite Hg.
  change (faults (issued (OpFind "coinbases") s')) with (tl (faults s')).
  change (db (issued (OpFind "coinbases") s')) with (db s').
  rewrite Hq'. cbn [tl hd]. rewrite Hsm.
  assert (Hmx : matches [("id", VString smesher)] old = true)
    by exact (split_first_matches _ _ _ _ _ Hsplit).
  rewrite (split_first_Some _ _ _ _ _ x' Hsplit).
  2:{ unfold x'. rewrite (matches_id smesher old) by apply smesher_update_id. exact Hmx. }
  destruct (smesher_update_fields space coinbase n timestamp old) as (Hf1 & Hf2 & Hf3 & Hrest).
  cbv zeta in Hf1, Hf2, Hf3, Hrest. fold x' in Hf1, Hf2, Hf3, Hrest.
  unfold decoded.
  rewrite !Hrest by discriminate.
  rewrite Hf1, Hf2, Hf3, (smesher_update_atxcount space coinbase n timestamp old : Lookup "atxcount" x' = _).
  rewrite Hlon, Hlat. cbn [Double].
  rewrite matches_one in Hmx. apply bool_decide_eq_true_1 in Hmx. rewrite Hmx.
  rewrite !GetAsString_string, (GetAsUInt64_int space Hspace), (GetAsUInt32_int timestamp Hts).
  reflexivity.
Qed.

Lemma GetSmesherByCoinbase_after_update_witness :
  fst (UpdateSmesher id_s "cb1" 200 7 st1) = None
  /\ fst (@GetSmesherByCoinbase plain_utils "cb1" (snd (UpdateSmesher id_s "cb1" 200 7 st1))) =
     FetchedSmesher (mkSmesher id_s "n" 0 0 200 "cb1" 2 7).
Proof.
  assert (Hq : faults st1 = []) by reflexivity.
  assert (Hix : In addressIndex (IndexesOf (db st1) "coinbases")) by (left; reflexivity).
  assert (Hne : id_s <> EmptyString) by discriminate.
  assert (Hsp : 0 <= 200 < 2 ^ 64) by (split; [discriminate|reflexivity]).
  assert (Hts : 0 <= 7 < 2 ^ 32) by (split; [discriminate|reflexivity]).
  assert (Hok : fst (UpdateSmesher id_s "cb1" 200 7 st1) = None) by (vm_compute; reflexivity).
  split; [exact Hok|].
  destruct (smesher_record (db st1) id_s) as [old|] eqn:Hold;
    [|vm_compute in Hold; discriminate].
  assert (Hall : Lookup "lon" old = Some (VDouble 0) /\ Lookup "lat" old = Some (VDouble 0)
                 /\ Lookup "name" old = Some (VString "n")).
  { vm_compute in Hold. injection Hold as <-. repeat split. }
  destruct Hall as (Hlon & Hlat & Hname).
  rewrite (GetSmesherByCoinbase_after_update plain_utils plain_utils_decode
             id_s "cb1" 200 7 st1 old 0 0 Hq Hix Hne Hsp Hts Hold Hlon Hlat Hok).
  rewrite Hname. reflexivity.
Defined.

Lemma GetSmeshers_run query s :
  fst (GetSmeshers query s) =
  if hd false (faults s) then (None, Some ErrDeadline)
  else if nth 1 (faults s) false then (None, Some ErrDeadline)
  else match List.filter (matches query) (Collection (db s) "smeshers") with
       | [] => (None, None)
       | doc :: docs => (Some (doc :: docs), None)
       end.
Proof.
  unfold GetSmeshers. rewrite bind_run, Find_run. cbn [fst snd].
  destruct (hd false (faults s)) eqn:E0; cbn [fst snd]; [reflexivity|].
  rewrite bind_run. unfold cursor_All. rewrite bind_run.
  change (fst (issue (OpFind "smeshers") (issued (OpFind "smeshers") s)))
    with (hd false (tl (faults s))).
  rewrite hd_tl. destruct (nth 1 (faults s) false); cbn [fst snd ret]; [reflexivity|].
  destruct (List.filter (matches query) (Collection (db s) "smeshers")); reflexivity.
Qed.

(** X18. [GetSmeshers] (with no find options) returns a nil error exactly
    when neither the find nor the reading of its cursor fails; it then
    returns the matching documents in stored order, or nil instead of an
    empty list when nothing matches, and their number is what
    [GetSmeshersCount] answers for the same query in the same state. When
    it returns an error, the documents are nil. *)
Theorem GetSmeshers_agrees_with_count :
  forall (query : Doc) (s : Storage),
    let r := fst (GetSmeshers query s) in
    fst r <> Some []
    /\ (snd r = None <-> hd false (faults s) = false /\ nth 1 (faults s) false = false)
    /\ (snd r = None ->
        match fst r with
        | Some docs => docs
        | None => []
        end = List.filter (matches query) (Collection (db s) "smeshers")
        /\ Z.of_nat (length match fst r with Some docs => docs | None => [] end) =
           fst (GetSmeshersCount query s))
    /\ (snd r <> None -> fst r = None).
Proof.
  intros query s. cbv zeta. rewrite GetSmeshers_run, GetSmeshersCount_run.
  destruct (hd false (faults s)); cbn [fst snd].
  { repeat split; try discriminate; try reflexivity; intros H; destruct H; discriminate. }
  destruct (nth 1 (faults s) false); cbn [fst snd].
  { repeat split; try discriminate; try reflexivity; intros H; destruct H; discriminate. }
  unfold count_in.
  destruct (List.filter (matches query) (Collection (db s) "smeshers")); cbn [fst snd];
    repeat split; try discriminate; try reflexivity; intros H; congruence.
Qed.

Lemma read_only_cursor_All coll docs : read_only (cursor_All coll docs).
Proof.
  unfold cursor_All. apply read_only_bind; [apply read_only_issue; reflexivity|].
  intros failed. destruct failed; apply read_only_ret.
Qed.

Ltac reads_step :=
  match goal with
  | |- read_only (bind _ _) => apply read_only_bind; [|intros ?]
  | |- read_only (ret _) => apply read_only_ret
  | |- read_only (log_Info _ _) => apply read_only_log
  | |- read_only (Find _ _) => apply read_only_Find
  | |- read_only (CountDocuments _ _) => apply read_only_CountDocuments
  | |- read_only (if ?b then _ else _) => destruct b
  | |- read_only (match ?x with _ => _ end) => destruct x
  | |- read_only (let _ := _ in _) => cbv zeta
  end.

Lemma read_only_GetSmesher `{Utils} query : read_only (GetSmesher query).
Proof. unfold GetSmesher. repeat reads_step. Qed.

(** X19. The reads of the package, [GetSmesher], [GetSmesherByCoinbase],
    [GetSmeshers] and [IsSmesherExists], never change the database, and
    every driver call they issue is a find or a count. *)
Theorem smesher_reads_read_only :
  forall (U : Utils) (query : Doc) (key : string),
    read_only (GetSmesher query)
    /\ read_only (GetSmesherByCoinbase key)
    /\ read_only (GetSmeshers query)
    /\ read_only (IsSmesherExists key).
Proof.
  intros U query key. split; [apply read_only_GetSmesher|]. split; [|split].
  - unfold GetSmesherByCoinbase.
    repeat first [apply read_only_GetSmesher | reads_step].
  - unfold GetSmeshers. repeat first [apply read_only_cursor_All | reads_step].
  - unfold IsSmesherExists. repeat reads_step.
Qed.

(* ===================================================================== *)
(** ** The resolver: when it panics, what it answers, how much it asks *)
(* ===================================================================== *)

Lemma answer_shape id hit : answer id hit = not_found \/ exists prefix, answer id hit = found prefix id.
Proof. destruct hit as [prefix|]; [right; eauto|left; reflexivity]. Qed.

Lemma classify_shape id layer n :
  (n = 0 /\ classify id layer n = Panicked "integer divide by zero")
  \/ (n <> 0 /\ (classify id layer n = not_found
                 \/ classify id layer n = found "/layers/" (itoa id)
                 \/ classify id layer n = found "/epochs/" (itoa id))).
Proof.
  unfold classify. destruct (Z.eqb_spec n 0) as [->|Hn]; [left; auto|].
  right. split; [exact Hn|].
  destruct (uint32 id >? layer / n); [|auto].
  destruct (uint32 id <=? layer); auto.
Qed.

(** X20. [SearchHandler] panics in exactly one situation: the identifier
    is not of length 42 or 66, the rewards probe does not hit, the
    identifier parses as a decimal integer, and the number of layers per
    epoch is 0, so that the epoch is a division by zero. Every other
    identifier is answered even then. *)
Theorem SearchHandler_panics_iff :
  forall (idStr : string) (s : Storage),
    (exists msg, fst (SearchHandler idStr s) = Panicked msg)
    <->
    (String.length idStr <> 42%nat
     /\ String.length idStr <> 66%nat
     /\ fst (reward_probe idStr s) = false
     /\ snd (Atoi idStr) = None
     /\ EpochNumLayers (NetworkInfo s) = 0).
Proof.
  intros idStr s.
  destruct (Nat.eq_dec (String.length idStr) 42%nat) as [H42|H42].
  { rewrite (proj1 (SearchHandler_42 idStr s H42)). split.
    - intros [msg H]. destruct (answer_shape idStr (fst (first_hit idStr address_probes
                                                             (faults s) (db s))))
        as [E|[p E]]; rewrite E in H; discriminate.
    - intros (C & _). contradiction. }
  destruct (Nat.eq_dec (String.length idStr) 66%nat) as [H66|H66].
  { rewrite (proj1 (SearchHandler_66 idStr s H66)). split.
    - intros [msg H]. destruct (answer_shape idStr (fst (first_hit idStr hash_probes
                                                             (faults s) (db s))))
        as [E|[p E]]; rewrite E in H; discriminate.
    - intros (_ & C & _). contradiction. }
  rewrite (SearchHandler_default idStr s H42 H66). cbv zeta.
  destruct (fst (reward_probe idStr s)); cbn [fst].
  { split; [intros [msg H]; discriminate|intros (_ & _ & C & _); discriminate]. }
  destruct (snd (Atoi idStr)) as [e|]; cbn [fst].
  { split; [intros [msg H]; discriminate|intros (_ & _ & _ & C & _); discriminate]. }
  destruct (classify_shape (fst (Atoi idStr))
              (fst (GetLastLayer (snd (reward_probe idStr s))))
              (EpochNumLayers (NetworkInfo s))) as [[Hn E]|[Hn E]].
  - rewrite E. split; [auto|eauto].
  - split.
    + intros [msg H]. destruct E as [E|[E|E]]; rewrite E in H; discriminate.
    + intros (_ & _ & _ & _ & C). contradiction.
Qed.

(** X21. With a number of layers per epoch other than 0, every answer of
    [SearchHandler] has one of two forms: status 404 with the error Not
    found, a nil header and only the opening brace written; or status
    200 with a nil error, the JSON content type and a body holding one
    redirect whose path starts with one of the eight prefixes. *)
Theorem SearchHandler_answers :
  forall (idStr : string) (s : Storage),
    EpochNumLayers (NetworkInfo s) <> 0 ->
    fst (SearchHandler idStr s) = not_found
    \/ exists prefix v,
         In prefix ["/address/"; "/blocks/"; "/txs/"; "/atxs/"; "/smeshers/";
                    "/rewards/"; "/layers/"; "/epochs/"]
         /\ fst (SearchHandler idStr s) = found prefix v.
Proof.
  intros idStr s Hn.
  destruct (Nat.eq_dec (String.length idStr) 42%nat) as [H42|H42].
  { rewrite (proj1 (SearchHandler_42 idStr s H42)). simpl first_hit.
    destruct (negb _ && _); [right; exists "/address/", idStr; simpl; auto 10|].
    destruct (negb _ && _); [right; exists "/blocks/", idStr; simpl; auto 10|].
    left. reflexivity. }
  destruct (Nat.eq_dec (String.length idStr) 66%nat) as [H66|H66].
  { rewrite (proj1 (SearchHandler_66 idStr s H66)). simpl first_hit.
    destruct (negb _ && _); [right; exists "/txs/", idStr; simpl; auto 10|].
    destruct (negb _ && _); [right; exists "/atxs/", idStr; simpl; auto 10|].
    destruct (negb _ && _); [right; exists "/smeshers/", idStr; simpl; auto 10|].
    left. reflexivity. }
  rewrite (SearchHandler_default idStr s H42 H66). cbv zeta.
  destruct (fst (reward_probe idStr s)); cbn [fst].
  { right. exists "/rewards/", idStr. simpl. auto 10. }
  destruct (snd (Atoi idStr)) as [e|]; cbn [fst]; [left; reflexivity|].
  destruct (classify_shape (fst (Atoi idStr))
              (fst (GetLastLayer (snd (reward_probe idStr s))))
              (EpochNumLayers (NetworkInfo s))) as [[Hn0 _]|[_ [E|[E|E]]]].
  - contradiction.
  - left. exact E.
  - right. exists "/layers/", (itoa (fst (Atoi idStr))). simpl. auto 10.
  - right. exists "/epochs/", (itoa (fst (Atoi idStr))). simpl. auto 10.
Qed.

Lemma SearchHandler_answers_witness :
  EpochNumLayers (NetworkInfo st100) <> 0
  /\ (fst (SearchHandler "42" st100) = not_found
      \/ exists prefix v,
           In prefix ["/address/"; "/blocks/"; "/txs/"; "/atxs/"; "/smeshers/";
                      "/rewards/"; "/layers/"; "/epochs/"]
           /\ fst (SearchHandler "42" st100) = found prefix v).
Proof.
  assert (H : EpochNumLayers (NetworkInfo st100) <> 0) by discriminate.
  split; [exact H|]. exact (SearchHandler_answers "42" st100 H).
Defined.

Lemma first_hit_length id probes fs d :
  (length (snd (first_hit id probes fs d)) <= length probes)%nat.
Proof.
  revert fs. induction probes as [|[[coll key] prefix] probes IH]; intros fs; simpl; [lia|].
  destruct (negb (hd false fs) && exists_in d coll [(key, VString id)]); simpl; [lia|].
  specialize (IH (tl fs)). destruct (first_hit id probes (tl fs) d). simpl in *. lia.
Qed.

(** X22. [SearchHandler] asks the store little: it issues at most three
    driver calls for an identifier, and at most two unless the identifier
    has length 66. *)
Theorem SearchHandler_few_calls :
  forall (idStr : string) (s : Storage),
    (length (issued_by (SearchHandler idStr) s) <= 3)%nat
    /\ (String.length idStr <> 66%nat ->
        (length (issued_by (SearchHandler idStr) s) <= 2)%nat).
Proof.
  intros idStr s.
  destruct (Nat.eq_dec (String.length idStr) 42%nat) as [H42|H42].
  { rewrite (issued_by_trace _ _ _ (proj2 (SearchHandler_42 idStr s H42))).
    pose proof (first_hit_length idStr address_probes (faults s) (db s)) as H.
    simpl length in H at 2. split; [lia|intros _; lia]. }
  destruct (Nat.eq_dec (String.length idStr) 66%nat) as [H66|H66].
  { rewrite (issued_by_trace _ _ _ (proj2 (SearchHandler_66 idStr s H66))).
    pose proof (first_hit_length idStr hash_probes (faults s) (db s)) as H.
    simpl length in H at 2. split; [lia|intros C; contradiction]. }
  assert (Hle : (length (issued_by (SearchHandler idStr) s) <= 2)%nat).
  { destruct (reward_probe_run idStr s) as (_ & _ & _ & Htr). cbv zeta in Htr.
    destruct (GetLastLayer_run (snd (reward_probe idStr s))) as (_ & _ & Htr2).
    rewrite Htr in Htr2.
    set (ops := match snd (ObjectIDFromHex idStr) with
                | Some _ => []
                | None => [OpCountDocuments "rewards"]
                end) in *.
    assert (Hops : (length ops <= 1)%nat)
      by (unfold ops; destruct (snd (ObjectIDFromHex idStr)); simpl; lia).
    unfold issued_by. rewrite (SearchHandler_default idStr s H42 H66). cbv zeta.
    destruct (fst (reward_probe idStr s)); cbn [snd].
    - rewrite Htr, skipn_own_length. lia.
    - destruct (snd (Atoi idStr)); cbn [snd].
      + rewrite Htr, skipn_own_length. lia.
      + rewrite Htr2, <- app_assoc, skipn_own_length, length_app. simpl. lia. }
  split; [lia|intros _; exact Hle].
Qed.

(* ===================================================================== *)
(** ** The start of the process and the time slept *)
(* ===================================================================== *)

(** X23. The start of the collector. The action returns an error, and
    the process exits with status 1, exactly when the store or the SQLite
    file cannot be opened, or the marker file was opened and cannot be
    written or closed; no task has been started then. A marker file that
    cannot be opened is passed over. In every other case the four tasks
    are started last and in the order signal handler, live sync, metrics,
    HTTP server, and the action does not return. *)
Theorem Action_start :
  forall env : Main.Startup,
    let r := Main.Action env in
    match snd r with
    | Main.Returns err =>
        (forall task, ~ In (Main.Go task) (fst r))
        /\ Main.exit_code env = Some 1
        /\ (Main.storage_New env = Some err
            \/ (Main.storage_New env = None /\ Main.sql_Setup env = Some err)
            \/ (Main.storage_New env = None /\ Main.sql_Setup env = None
                /\ Main.os_OpenFile env = None
                /\ (Main.pidFile_Write env = Some err
                    \/ (Main.pidFile_Write env = None /\ Main.pidFile_Close env = Some err))))
    | Main.Blocks =>
        Main.exit_code env = None
        /\ Main.storage_New env = None
        /\ Main.sql_Setup env = None
        /\ (Main.os_OpenFile env <> None
            \/ (Main.pidFile_Write env = None /\ Main.pidFile_Close env = None))
        /\ skipn (length (fst r) - 4) (fst r) =
           [Main.Go Main.AwaitSignal; Main.Go Main.LiveSync;
            Main.Go Main.MetricsEndpoint; Main.Go Main.HttpServer]
        /\ (forall task, ~ In (Main.Go task) (firstn (length (fst r) - 4) (fst r)))
    end.
Proof.
  intros [t [e1|] [e2|] [e3|] [e4|] [e5|]]; destruct t;
    unfold Main.exit_code; simpl;
    repeat split; auto; try discriminate; try tauto;
    try (intros task C; simpl in C; intuition discriminate).
Qed.

Lemma slept_app (l l' : list Supervisor.Event) : slept (l ++ l') = slept l + slept l'.
Proof.
  unfold slept. induction l as [|ev l IH]; simpl; [reflexivity|].
  destruct ev; rewrite ?IH; lia.
Qed.

(** X24. The time the supervisor sleeps is five seconds for each run that
    returned an error, and nothing else: over any sequence of results,
    the sleeps of the loop add up to five seconds times the number of
    failed runs, with no growth from one failure to the next. *)
Theorem live_sync_time_slept :
  forall (script : list (option error)) (fuel : nat),
    (4 * length script < fuel)%nat ->
    slept (fst (drive fuel script live_sync)) = 5 * Second * failures script.
Proof.
  intros script fuel Hfuel. rewrite (drive_live_sync script fuel Hfuel). cbn [fst].
  unfold failures. clear. induction script as [|o script IH]; [reflexivity|].
  cbn [flat_map]. rewrite slept_app, IH.
  destruct o as [e|]; cbn [List.filter length backoff]; unfold slept; simpl fold_right.
  - rewrite Nat2Z.inj_succ. lia.
  - lia.
Qed.

Lemma live_sync_time_slept_witness :
  (4 * length [Some ErrDeadline; None; Some ErrDeadline] < 13)%nat
  /\ slept (fst (drive 13 [Some ErrDeadline; None; Some ErrDeadline] live_sync)) =
     10000000000.
Proof.
  assert (H : (4 * length [Some ErrDeadline; None; Some ErrDeadline] < 13)%nat)
    by (simpl; lia).
  split; [exact H|].
  exact (live_sync_time_slept [Some ErrDeadline; None; Some ErrDeadline] 13%nat H).
Defined.

(* ===================================================================== *)
(** ** Instances *)
(* ===================================================================== *)

Lemma SaveSmesher_only_appends_witness :
  Collection (db (snd (SaveSmesher sm1 st0))) "coinbases" = Collection (db st0) "coinbases"
  /\ indexes (db (snd (SaveSmesher sm1 st0))) = indexes (db st0).
Proof.
  destruct (SaveSmesher_only_appends sm1 st0) as (H1 & H2 & _).
  split; [|exact H2]. apply H1. discriminate.
Defined.

Lemma GetSmeshers_agrees_with_count_witness :
  snd (fst (GetSmeshers [("id", VString id_s)] st1)) = None
  /\ Z.of_nat (length match fst (fst (GetSmeshers [("id", VString id_s)] st1)) with
                      | Some docs => docs
                      | None => []
                      end) = fst (GetSmeshersCount [("id", VString id_s)] st1)
  /\ fst (fst (GetSmeshers [("id", VString id_s)] (reschedule [false; true] st1))) = None.
Proof.
  destruct (GetSmeshers_agrees_with_count [("id", VString id_s)] st1) as (_ & H2 & H3 & _).
  assert (H : snd (fst (GetSmeshers [("id", VString id_s)] st1)) = None)
    by (apply H2; split; reflexivity).
  split; [exact H|]. split; [exact (proj2 (H3 H))|].
  destruct (GetSmeshers_agrees_with_count [("id", VString id_s)]
              (reschedule [false; true] st1)) as (_ & G2 & _ & G4).
  apply G4. intros C. apply G2 in C. destruct C as [_ C]. discriminate C.
Defined.

Lemma SearchHandler_panics_iff_witness :
  (String.length "5" <> 42%nat
   /\ String.length "5" <> 66%nat
   /\ fst (reward_probe "5" st_zero) = false
   /\ snd (Atoi "5") = None
   /\ EpochNumLayers (NetworkInfo st_zero) = 0)
  /\ exists msg, fst (SearchHandler "5" st_zero) = Panicked msg.
Proof.
  assert (H : String.length "5" <> 42%nat
              /\ String.length "5" <> 66%nat
              /\ fst (reward_probe "5" st_zero) = false
              /\ snd (Atoi "5") = None
              /\ EpochNumLayers (NetworkInfo st_zero) = 0).
  { repeat split; try discriminate; reflexivity. }
  split; [exact H|].
  exact (proj2 (SearchHandler_panics_iff "5" st_zero) H).
Defined.

Lemma SearchHandler_few_calls_witness :
  String.length "42" <> 66%nat
  /\ (length (issued_by (SearchHandler "42") st100) <= 2)%nat.
Proof.
  assert (H : String.length "42" <> 66%nat) by discriminate.
  split; [exact H|].
  exact (proj2 (SearchHandler_few_calls "42" st100) H).
Defined.

Lemma Action_start_witness :
  Main.exit_code (Main.mkStartup false None None (Some ErrDeadline) None None) = None
  /\ Main.exit_code (Main.mkStartup false None None None (Some ErrDeadline) None) = Some 1.
Proof.
  split.
  - exact (proj1 (Action_start (Main.mkStartup false None None (Some ErrDeadline) None None))).
  - exact (proj1 (proj2 (Action_start
                           (Main.mkStartup false None None None (Some ErrDeadline) None)))).
Defined.
